(** * cc-sdd enhanced workflow: todo rule engine, message builder,
      FDD phase chain and workflow orchestrator.

    A shallow embedding of the TypeScript sources
    - [integration/todo-enhancer.ts]          (class [TodoEnhancer]),
    - [ai-coordination/instruction-manager.ts] (class [InstructionManager]),
    - [ai-coordination/report-manager.ts]      (class [ReportManager]),
    - [fdd/workflow-manager.ts]                (class [FDDWorkflowManager]),
    - [integration/core-workflow-enhancer.ts]  (class [CoreWorkflowEnhancer]),
    followed by the properties of the design document that concern them. *)

From Stdlib Require Import ZArith Lia Bool.
From Stdlib Require Import Strings.String Strings.Ascii.
From stdpp Require Import base option list gmap sorting.

Local Open Scope Z_scope.

(* ===================================================================== *)
(** * JavaScript strings *)
(* ===================================================================== *)

(** A JavaScript string is a sequence of UTF-16 code units; [includes],
    [substring], [length] and regular expressions without the [u] flag all
    work on code units. *)
Module Js.

Definition jsstring : Type := list Z.

(** Literals are written as Rocq strings (UTF-8 bytes) and decoded to code
    units, so that the keywords read as they do in the source. *)
Definition bytes (s : String.string) : list Z :=
  map (fun a => Z.of_nat (Ascii.nat_of_ascii a)) (String.list_ascii_of_string s).

Definition cont (b : Z) : Z := Z.land b 0x3F.

Definition surrogates (cp : Z) : list Z :=
  [0xD800 + Z.shiftr (cp - 0x10000) 10; 0xDC00 + Z.land (cp - 0x10000) 0x3FF].

Fixpoint decode (bs : list Z) : jsstring :=
  match bs with
  | [] => []
  | b0 :: r0 =>
    if b0 <? 0x80 then b0 :: decode r0
    else match r0 with
    | [] => [0xFFFD]
    | b1 :: r1 =>
      if b0 <? 0xE0
      then Z.lor (Z.shiftl (Z.land b0 0x1F) 6) (cont b1) :: decode r1
      else match r1 with
      | [] => [0xFFFD]
      | b2 :: r2 =>
        if b0 <? 0xF0
        then Z.lor (Z.shiftl (Z.land b0 0x0F) 12)
                   (Z.lor (Z.shiftl (cont b1) 6) (cont b2)) :: decode r2
        else match r2 with
        | [] => [0xFFFD]
        | b3 :: r3 =>
          surrogates (Z.lor (Z.shiftl (Z.land b0 0x07) 18)
                        (Z.lor (Z.shiftl (cont b1) 12)
                           (Z.lor (Z.shiftl (cont b2) 6) (cont b3))))
          ++ decode r3
        end
      end
    end
  end.

Definition lit (s : String.string) : jsstring := decode (bytes s).
Arguments lit s%_string.

(** [s.startsWith(t)] and [s.includes(t)]; the empty string is included in
    every string. *)
Fixpoint startsWith (s t : jsstring) {struct t} : bool :=
  match t, s with
  | [], _ => true
  | _ :: _, [] => false
  | b :: t', a :: s' => (a =? b) && startsWith s' t'
  end.

Fixpoint includes (s t : jsstring) : bool :=
  startsWith s t ||
  match s with
  | [] => false
  | _ :: s' => includes s' t
  end.

(** [s.substring(0, n)] for [0 <= n]. *)
Definition substring0 (n : nat) (s : jsstring) : jsstring := take n s.

(** ** Character classes *)

Definition isUpperAZ (c : Z) : bool := (0x41 <=? c) && (c <=? 0x5A).
Definition isLowerAZ (c : Z) : bool := (0x61 <=? c) && (c <=? 0x7A).
Definition isDigit (c : Z) : bool := (0x30 <=? c) && (c <=? 0x39).

(** The class [\s] of ECMAScript: WhiteSpace and LineTerminator. *)
Definition isWhiteSpace (c : Z) : bool :=
  ((0x09 <=? c) && (c <=? 0x0D)) || (c =? 0x20) || (c =? 0xA0) ||
  (c =? 0x1680) || ((0x2000 <=? c) && (c <=? 0x200A)) ||
  (c =? 0x2028) || (c =? 0x2029) || (c =? 0x202F) || (c =? 0x205F) ||
  (c =? 0x3000) || (c =? 0xFEFF).

(** ** Case mapping

    [String.prototype.toLowerCase] follows the Unicode case mapping, which
    is not part of the repository; the development takes it as a parameter
    [toLowerCase] and assumes only what it does on "plain" text: code units
    that are ASCII or lie in the CJK blocks U+3000..U+9FFF (kana and
    ideographs, which have no case).  There it maps the letters A..Z to
    a..z and leaves every other unit alone. *)
Definition lowerUnit (c : Z) : Z := if isUpperAZ c then c + 0x20 else c.
Definition upperUnit (c : Z) : Z := if isLowerAZ c then c - 0x20 else c.

Definition plainUnit (c : Z) : bool :=
  ((0 <=? c) && (c <? 0x80)) || ((0x3000 <=? c) && (c <=? 0x9FFF)).

Definition plain (s : jsstring) : bool := forallb plainUnit s.

Definition asciiLowerCase (s : jsstring) : jsstring := map lowerUnit s.

Definition LowerCaseSpec (toLowerCase : jsstring -> jsstring) : Prop :=
  forall s, plain s = true -> toLowerCase s = asciiLowerCase s.

(** ** The two regular-expression replacements of the sources *)

(** [s.replace(/[^...]/g, '')]: every unit outside the class [keep] goes. *)
Definition removeOutside (keep : Z -> bool) (s : jsstring) : jsstring :=
  List.filter keep s.

(** [s.replace(/C+/g, r)]: every maximal run of units of the class [cls]
    becomes one [r]; [inRun] tells that the previous unit was in the class. *)
Fixpoint replaceRuns (cls : Z -> bool) (r : jsstring) (inRun : bool) (s : jsstring)
  : jsstring :=
  match s with
  | [] => []
  | c :: s' =>
    if cls c
    then (if inRun then [] else r) ++ replaceRuns cls r true s'
    else c :: replaceRuns cls r false s'
  end.

(** ** Numbers to strings: [n.toString()] for an integer, [padStart] *)

Fixpoint digits (fuel : nat) (n : Z) (acc : jsstring) : jsstring :=
  match fuel with
  | O => acc
  | S fuel' =>
    let acc' := (0x30 + n mod 10) :: acc in
    if n <? 10 then acc' else digits fuel' (n / 10) acc'
  end.

Definition toString (n : Z) : jsstring :=
  if n <? 0 then 0x2D :: digits (Z.to_nat (Z.log2 (- n)) + 1) (- n) []
  else digits (Z.to_nat (Z.log2 n) + 1) n [].

Definition padStart (width : nat) (fill : Z) (s : jsstring) : jsstring :=
  replicate (width - length s)%nat fill ++ s.

End Js.

(** Array methods used by the sources, on immutable lists. *)
Module Arr.

(** [a.some(p)] *)
Definition some {A} (p : A -> bool) (a : list A) : bool := existsb p a.

(** [a.findIndex(p)]: the first index whose element satisfies [p], or -1. *)
Fixpoint findIndex {A} (p : A -> bool) (a : list A) : Z :=
  match a with
  | [] => -1
  | x :: r =>
    if p x then 0
    else let i := findIndex p r in if i <? 0 then -1 else i + 1
  end.

(** [a.push(x)] *)
Definition push {A} (a : list A) (x : A) : list A := a ++ [x].

(** [a.splice(i, 0, x)] for [0 <= i]; an index past the end appends. *)
Definition splice0 {A} (a : list A) (i : Z) (x : A) : list A :=
  take (Z.to_nat i) a ++ x :: drop (Z.to_nat i) a.

End Arr.

(* ===================================================================== *)
(** * Todo rule engine ([TodoEnhancer]) *)
(* ===================================================================== *)

Module TodoEnhancer.
Import Js.

Inductive Status : Type := pending | in_progress | completed.

Record TodoItem : Type := mkTodo {
  content : jsstring;
  activeForm : jsstring;
  status : Status
}.

(** [EnhancedTodoOptions]: every field is optional.  [None] is a field that
    is not given; in the [options] of the object it also stands for a field
    given as [undefined], which is falsy all the same. *)
Record EnhancedTodoOptions : Type := mkOptions {
  enforceGitCommit : option bool;
  detectDocumentCreation : option bool;
  autoLearningCapture : option bool
}.

(** The object spread [{ ...a, ...b }]: a field given in [b] wins. *)
Definition spread (a b : EnhancedTodoOptions) : EnhancedTodoOptions :=
  {| enforceGitCommit := from_option Some (enforceGitCommit a) (enforceGitCommit b);
     detectDocumentCreation :=
       from_option Some (detectDocumentCreation a) (detectDocumentCreation b);
     autoLearningCapture :=
       from_option Some (autoLearningCapture a) (autoLearningCapture b) |}.

(** A field read in a condition: only [true] is truthy. *)
Definition truthy (o : option bool) : bool := default false o.

(** The object: its only field is [options]. *)
Record t : Type := mkEnhancer { options : EnhancedTodoOptions }.

Definition noOptions : EnhancedTodoOptions := mkOptions None None None.

Definition constructor (opts : EnhancedTodoOptions) : t :=
  {| options := spread (mkOptions (Some true) (Some true) (Some true)) opts |}.

(** [new TodoEnhancer()]: the engine with the default options. *)
Definition defaultEnhancer : t := constructor noOptions.

Definition updateConfig (this : t) (newOptions : EnhancedTodoOptions) : t :=
  {| options := spread (options this) newOptions |}.

Definition documentKeywords : list jsstring :=
  [lit "指示書"; lit "instruction"; lit "report"; lit "報告書";
   lit "学習記録"; lit "learning"; lit "handoff"; lit "引き継ぎ";
   lit "pattern"; lit "パターン"; lit "decision"; lit "設計判断"].

Definition learningTriggers : list jsstring :=
  [lit "implement"; lit "実装"; lit "fix"; lit "修正"; lit "optimize"; lit "最適化";
   lit "refactor"; lit "リファクタ"; lit "design"; lit "設計"].

Definition gitCommitTask : TodoItem :=
  {| content := lit "Git commit documentation changes";
     activeForm := lit "Committing documentation changes";
     status := pending |}.

Definition learningTask : TodoItem :=
  {| content := lit "Capture learning insights and patterns";
     activeForm := lit "Capturing learning insights and patterns";
     status := pending |}.

(** Todo lists whose contents are plain text (see [Js.plain]). *)
Definition plainTodos (todos : list TodoItem) : bool :=
  forallb (fun todo => plain (content todo)) todos.

Section WithLowerCase.

Variable toLowerCase : jsstring -> jsstring.

(** [todo.content.toLowerCase().includes(k)] *)
Definition contentIncludes (k : jsstring) (todo : TodoItem) : bool :=
  includes (toLowerCase (content todo)) k.

(** [keywords.some(keyword => todo.content.toLowerCase().includes(keyword.toLowerCase()))] *)
Definition matchesAny (keywords : list jsstring) (todo : TodoItem) : bool :=
  Arr.some (fun keyword => contentIncludes (toLowerCase keyword) todo) keywords.

Definition hasDocumentCreation (todos : list TodoItem) : bool :=
  Arr.some (matchesAny documentKeywords) todos.

Definition hasGitCommit (todos : list TodoItem) : bool :=
  Arr.some (fun todo => contentIncludes (lit "git commit") todo ||
                        contentIncludes (lit "commit") todo) todos.

Definition hasLearningOpportunity (todos : list TodoItem) : bool :=
  Arr.some (matchesAny learningTriggers) todos.

Definition hasLearningTask (todos : list TodoItem) : bool :=
  Arr.some (fun todo => contentIncludes (lit "learning") todo ||
                        contentIncludes (lit "学習") todo) todos.

(** The value of the array that [addGitCommitRule] returns (it is the
    argument array itself, pushed onto when the rule fires). *)
Definition addGitCommitRule (todos : list TodoItem) : list TodoItem :=
  if hasDocumentCreation todos then
    if negb (hasGitCommit todos) then Arr.push todos gitCommitTask
    else todos
  else todos.

Definition addLearningCapture (todos : list TodoItem) : list TodoItem :=
  if hasLearningOpportunity todos then
    if negb (hasLearningTask todos) then
      let insertIndex := Arr.findIndex (contentIncludes (lit "git commit")) todos in
      if insertIndex >? -1 then Arr.splice0 todos insertIndex learningTask
      else Arr.push todos learningTask
    else todos
  else todos.

Definition enhanceTodos (this : t) (todos : list TodoItem) : list TodoItem :=
  let enhancedTodos := todos in
  let enhancedTodos :=
    if truthy (enforceGitCommit (options this)) &&
       truthy (detectDocumentCreation (options this))
    then addGitCommitRule enhancedTodos else enhancedTodos in
  let enhancedTodos :=
    if truthy (autoLearningCapture (options this))
    then addLearningCapture enhancedTodos else enhancedTodos in
  enhancedTodos.

Record Validation : Type := mkValidation {
  valid : bool;
  violations : list jsstring
}.

Definition validateTodos (this : t) (todos : list TodoItem) : Validation :=
  let violations := [] in
  let violations :=
    if truthy (enforceGitCommit (options this)) then
      let hasDocCreation :=
        Arr.some (matchesAny [lit "指示書"; lit "instruction"; lit "report"; lit "報告書"])
                 todos in
      let hasGitCommit := Arr.some (contentIncludes (lit "git commit")) todos in
      if hasDocCreation && negb hasGitCommit
      then Arr.push violations
             (lit "Document creation tasks must include git commit task")
      else violations
    else violations in
  let violations :=
    if truthy (autoLearningCapture (options this)) then
      let hasSignificantWork :=
        Arr.some (matchesAny [lit "implement"; lit "fix"; lit "design";
                              lit "実装"; lit "修正"; lit "設計"]) todos in
      let hasLearningCapture := hasLearningTask todos in
      if hasSignificantWork && negb hasLearningCapture
      then Arr.push violations
             (lit "Significant work should include learning capture task")
      else violations
    else violations in
  {| valid := (length violations =? 0)%nat; violations := violations |}.

(** [autoFixTodos]: the warnings on the console are left out. *)
Definition autoFixTodos (this : t) (todos : list TodoItem) : list TodoItem :=
  let validation := validateTodos this todos in
  if negb (valid validation) then enhanceTodos this todos else todos.

End WithLowerCase.

End TodoEnhancer.

(** ** The engine on JavaScript arrays

    Arrays are mutable objects passed by reference: [push] and [splice]
    change the array in place, and [addGitCommitRule] and
    [addLearningCapture] return the very array they were given.  The store
    maps references to array contents. *)
Module TodoArrays.
Import Js TodoEnhancer.

(** References are store addresses. *)
Abbreviation ref := positive.

(** A computation on the store; [None] is a dangling reference. *)
Definition Heap (A : Type) : Type :=
  gmap positive (list TodoItem) -> option (A * gmap positive (list TodoItem)).

Definition retH {A} (a : A) : Heap A := fun h => Some (a, h).

Definition bindH {A B} (m : Heap A) (k : A -> Heap B) : Heap B :=
  fun h => match m h with
           | Some (a, h') => k a h'
           | None => None
           end.

Notation "x <~ m ;; k" := (bindH m (fun x => k))
  (at level 200, m at level 99, k at level 200, right associativity).

Definition readArr (r : ref) : Heap (list TodoItem) :=
  fun h => match h !! r with
           | Some a => Some (a, h)
           | None => None
           end.

Definition writeArr (r : ref) (a : list TodoItem) : Heap unit :=
  fun h => Some (tt, <[r := a]> h).

(** [[...a]]: a new array with the elements of [a]. *)
Definition copyArr (r : ref) : Heap ref :=
  fun h => match h !! r with
           | Some a => let r' := fresh (dom h) in Some (r', <[r' := a]> h)
           | None => None
           end.

(** [r.push(x)] and [r.splice(i, 0, x)] *)
Definition pushArr (r : ref) (x : TodoItem) : Heap unit :=
  a <~ readArr r ;; writeArr r (Arr.push a x).

Definition spliceArr (r : ref) (i : Z) (x : TodoItem) : Heap unit :=
  a <~ readArr r ;; writeArr r (Arr.splice0 a i x).

Section WithLowerCase.

Variable toLowerCase : jsstring -> jsstring.

Definition addGitCommitRule (todos : ref) : Heap ref :=
  a <~ readArr todos ;;
  if hasDocumentCreation toLowerCase a then
    if negb (hasGitCommit toLowerCase a)
    then _ <~ pushArr todos gitCommitTask ;; retH todos
    else retH todos
  else retH todos.

Definition addLearningCapture (todos : ref) : Heap ref :=
  a <~ readArr todos ;;
  if hasLearningOpportunity toLowerCase a then
    if negb (hasLearningTask toLowerCase a) then
      let insertIndex :=
        Arr.findIndex (contentIncludes toLowerCase (lit "git commit")) a in
      if insertIndex >? -1
      then _ <~ spliceArr todos insertIndex learningTask ;; retH todos
      else _ <~ pushArr todos learningTask ;; retH todos
    else retH todos
  else retH todos.

Definition enhanceTodos (this : TodoEnhancer.t) (todos : ref) : Heap ref :=
  enhancedTodos <~ copyArr todos ;;
  enhancedTodos <~
    (if truthy (enforceGitCommit (options this)) &&
        truthy (detectDocumentCreation (options this))
     then addGitCommitRule enhancedTodos else retH enhancedTodos) ;;
  enhancedTodos <~
    (if truthy (autoLearningCapture (options this))
     then addLearningCapture enhancedTodos else retH enhancedTodos) ;;
  retH enhancedTodos.

End WithLowerCase.

End TodoArrays.

(* ===================================================================== *)
(** * The world outside: file system, clock, console *)
(* ===================================================================== *)

Module Eff.
Import Js.

(** A thrown object, such as an [Error]; the sources read only its
    [message], and two objects with the same message are not told apart. *)
Record JsError : Type := mkError { message : jsstring }.

(** [null] and [undefined]: no property of them can be read. *)
Inductive Nullish : Type := jsNull | jsUndefined.

(** What a promise rejects with (the [any] of a [catch]): an object, or
    [null] or [undefined]. *)
Inductive Rejection : Type :=
| anError (e : JsError)
| nullish (n : Nullish).

#[local] Coercion anError : JsError >-> Rejection.

(** [String(n)] *)
Definition nullishName (n : Nullish) : jsstring :=
  match n with
  | jsNull => lit "null"
  | jsUndefined => lit "undefined"
  end.

(** The [TypeError] of reading a property of [null] or [undefined], in the
    words of Node. *)
Definition cannotRead (n : Nullish) (property : jsstring) : JsError :=
  mkError (lit "Cannot read properties of " ++ nullishName n ++ lit " (reading '" ++
           property ++ lit "')").

(** [error instanceof Error ? error.message : error] inside a template. *)
Definition messageOrText (error : Rejection) : jsstring :=
  match error with
  | anError e => message e
  | nullish n => nullishName n
  end.

Inductive Outcome (A : Type) : Type :=
| Returned (a : A)
| Thrown (e : Rejection).
Arguments Returned {A} a.
Arguments Thrown {A} e.

Inductive ConsoleLine : Type :=
| ConsoleLog (args : list jsstring)
| ConsoleWarn (args : list jsstring)
| ConsoleError (args : list jsstring).

(** What [new Date()] is asked for. *)
Record Date : Type := mkDate {
  getFullYear : Z;
  getMonth : Z;
  getDate : Z;
  getHours : Z;
  getMinutes : Z
}.

(** The platform the sources run on: the state [Env] of the file system and
    the clock, [fs.mkdir(p, {recursive: true})] and [fs.writeFile(p, c)]
    (each returns the error it rejects with, if any), [path.join], and
    [String.prototype.toLowerCase]. *)
Class Platform : Type := {
  Env : Type;
  fs_mkdir : jsstring -> Env -> option JsError * Env;
  fs_writeFile : jsstring -> jsstring -> Env -> option JsError * Env;
  clock : Env -> Date;
  join : list jsstring -> jsstring;
  toLowerCase : jsstring -> jsstring
}.

Section Monad.

Context `{Platform}.

Record World : Type := mkWorld {
  env : Env;
  console : list ConsoleLine
}.

(** An awaited asynchronous computation: it returns or rejects. *)
Definition M (A : Type) : Type := World -> Outcome A * World.

Definition ret {A} (a : A) : M A := fun w => (Returned a, w).

Definition throw {A} (e : Rejection) : M A := fun w => (Thrown e, w).

Definition bind {A B} (m : M A) (k : A -> M B) : M B :=
  fun w => match m w with
           | (Returned a, w') => k a w'
           | (Thrown e, w') => (Thrown e, w')
           end.

(** [try { m } catch (error) { h error }] *)
Definition tryCatch {A} (m : M A) (h : Rejection -> M A) : M A :=
  fun w => match m w with
           | (Returned a, w') => (Returned a, w')
           | (Thrown e, w') => h e w'
           end.

(** What a handler does that starts by reading [error.property] of the
    value it caught: for [null] and [undefined] the read throws a
    [TypeError], before anything else is done. *)
Definition reading {A} (property : jsstring) (h : JsError -> M A) (error : Rejection)
  : M A :=
  match error with
  | anError e => h e
  | nullish n => throw (cannotRead n property)
  end.

(** The world after one more line on the console. *)
Definition say (l : ConsoleLine) (w : World) : World :=
  {| env := env w; console := console w ++ [l] |}.

Definition print (l : ConsoleLine) : M unit :=
  fun w => (Returned tt, say l w).

Definition liftFs (op : Env -> option JsError * Env) : M unit :=
  fun w => match op (env w) with
           | (None, e') => (Returned tt, {| env := e'; console := console w |})
           | (Some err, e') => (Thrown err, {| env := e'; console := console w |})
           end.

Definition mkdir (p : jsstring) : M unit := liftFs (fs_mkdir p).

Definition writeFile (p content : jsstring) : M unit := liftFs (fs_writeFile p content).

Definition newDate : M Date := fun w => (Returned (clock (env w)), w).

End Monad.

End Eff.

Coercion Eff.anError : Eff.JsError >-> Eff.Rejection.

Notation "x <- m ;; k" := (Eff.bind m (fun x => k))
  (at level 200, m at level 99, k at level 200, right associativity).
Notation "m ;;; k" := (Eff.bind m (fun _ => k))
  (at level 200, k at level 200, right associativity).

(** The three agents. *)
Module Role.
Import Js.

Inductive t : Type := claude | gemini | codex.

Definition name (r : t) : jsstring :=
  match r with
  | claude => lit "claude"
  | gemini => lit "gemini"
  | codex => lit "codex"
  end.

End Role.

(** The private helpers that [InstructionManager] and [ReportManager] both
    carry, with the same bodies. *)
Module Helpers.
Import Js Eff.

Definition slugUnit (c : Z) : bool := isLowerAZ c || isDigit c || isWhiteSpace c.

Definition underscore : jsstring := lit "_".

(** What a slug is made of.  The units of a slug: a..z, 0..9 and the underscore. *)
Definition slugChar (c : Z) : bool := isLowerAZ c || isDigit c || (c =? 0x5F).

(** No two underscores in a row. *)
Fixpoint singleSeparators (s : jsstring) : bool :=
  match s with
  | a :: (b :: _) as rest => negb ((a =? 0x5F) && (b =? 0x5F)) && singleSeparators rest
  | _ => true
  end.

(** Whether [s] begins a new word: it is empty or starts outside [cls]. *)
Definition startsOutside (cls : Z -> bool) (s : jsstring) : bool :=
  match s with
  | [] => true
  | c :: _ => negb (cls c)
  end.

Section WithLowerCase.
Variable toLowerCase : jsstring -> jsstring.

Definition sanitizeTaskName (task : jsstring) : jsstring :=
  substring0 30
    (replaceRuns isWhiteSpace underscore false
       (removeOutside slugUnit (toLowerCase task))).

End WithLowerCase.

(** [str.charAt(0).toUpperCase() + str.slice(1)]; the argument is always a
    role name, so the first unit is an ASCII letter. *)
Definition capitalize (str : jsstring) : jsstring :=
  match str with
  | [] => []
  | c :: rest => upperUnit c :: rest
  end.

Definition pad2 (n : Z) : jsstring := padStart 2 0x30 (toString n).

Definition generateTimestamp `{Platform} : M jsstring :=
  now <- newDate ;;
  ret (toString (getFullYear now) ++ pad2 (getMonth now + 1) ++ pad2 (getDate now) ++
       pad2 (getHours now) ++ pad2 (getMinutes now)).

(** The time stamp [YYYYMMDDHHmm] that [generateTimestamp] makes of a date. *)
Definition stamp (d : Date) : jsstring :=
  toString (getFullYear d) ++ pad2 (getMonth d + 1) ++ pad2 (getDate d) ++
  pad2 (getHours d) ++ pad2 (getMinutes d).

End Helpers.

(* ===================================================================== *)
(** * Coordination message builder *)
(* ===================================================================== *)

Module InstructionManager.
Import Js Eff.

Inductive Priority : Type := high | medium | low.

Record InstructionRequest : Type := mkRequest {
  to : Role.t;
  from : Role.t;
  task : jsstring;
  priority : Priority;
  deadline : option jsstring;
  context : option jsstring;
  requirements : option (list jsstring);
  acceptanceCriteria : option (list jsstring)
}.

Record t : Type := mkManager { docsPath : jsstring }.

Section Methods.

Context `{Platform}.

(** The body of the document (a fixed template filled with the request) is
    taken as given. *)
Variable generateInstructionContent : InstructionRequest -> jsstring -> jsstring.

Definition constructor (projectRoot : jsstring) : t :=
  {| docsPath := join [projectRoot; lit "docs"] |}.

Definition sanitizeTaskName : jsstring -> jsstring :=
  Helpers.sanitizeTaskName toLowerCase.

Definition fileName (request : InstructionRequest) (timestamp : jsstring) : jsstring :=
  Role.name (from request) ++ lit "_to_" ++ Role.name (to request) ++ lit "_" ++
  timestamp ++ lit "_" ++ sanitizeTaskName (task request) ++ lit ".md".

(** The directory and the path that [createInstruction] computes. *)
Definition instructionDir (this : t) (request : InstructionRequest) : jsstring :=
  join [docsPath this; lit "instructions";
        lit "To" ++ Helpers.capitalize (Role.name (to request))].

Definition instructionPath (this : t) (request : InstructionRequest)
    (timestamp : jsstring) : jsstring :=
  join [docsPath this; lit "instructions";
        lit "To" ++ Helpers.capitalize (Role.name (to request));
        fileName request timestamp].

Definition createInstruction (this : t) (request : InstructionRequest) : M jsstring :=
  timestamp <- Helpers.generateTimestamp ;;
  let fileName := fileName request timestamp in
  let dir := join [docsPath this; lit "instructions";
                   lit "To" ++ Helpers.capitalize (Role.name (to request))] in
  let instructionPath := join [docsPath this; lit "instructions";
                   lit "To" ++ Helpers.capitalize (Role.name (to request)); fileName] in
  mkdir dir ;;;
  let content := generateInstructionContent request timestamp in
  writeFile instructionPath content ;;;
  ret instructionPath.

End Methods.

End InstructionManager.

Module ReportManager.
Import Js Eff.

Inductive Status : Type := completed | in_progress | blocked.

Definition statusName (s : Status) : jsstring :=
  match s with
  | completed => lit "completed"
  | in_progress => lit "in_progress"
  | blocked => lit "blocked"
  end.

Section Methods.

(** [Metrics] stands for [Record<string, any>]. *)
Variable Metrics : Type.

Record ReportData : Type := mkReport {
  from : Role.t;
  to : Role.t;
  task : jsstring;
  status : Status;
  completedItems : option (list jsstring);
  inProgressItems : option (list jsstring);
  blockedItems : option (list jsstring);
  changedFiles : option (list jsstring);
  metrics : option Metrics;
  learnings : option (list jsstring);
  nextActions : option (list jsstring);
  notes : option jsstring
}.

Record t : Type := mkManager { docsPath : jsstring }.

Context `{Platform}.

Variable generateReportContent : ReportData -> jsstring -> jsstring.

Definition constructor (projectRoot : jsstring) : t :=
  {| docsPath := join [projectRoot; lit "docs"] |}.

Definition sanitizeTaskName : jsstring -> jsstring :=
  Helpers.sanitizeTaskName toLowerCase.

Definition fileName (data : ReportData) (timestamp : jsstring) : jsstring :=
  Role.name (from data) ++ lit "_from_" ++ statusName (status data) ++ lit "_" ++
  timestamp ++ lit "_" ++ sanitizeTaskName (task data) ++ lit ".md".

Definition createReport (this : t) (data : ReportData) : M jsstring :=
  timestamp <- Helpers.generateTimestamp ;;
  let fileName := fileName data timestamp in
  let dir := join [docsPath this; lit "reports";
                   lit "From" ++ Helpers.capitalize (Role.name (from data))] in
  let reportPath := join [docsPath this; lit "reports";
                   lit "From" ++ Helpers.capitalize (Role.name (from data)); fileName] in
  mkdir dir ;;;
  let content := generateReportContent data timestamp in
  writeFile reportPath content ;;;
  ret reportPath.

End Methods.

Arguments mkReport {Metrics}.
Arguments from {Metrics}.
Arguments to {Metrics}.
Arguments task {Metrics}.
Arguments status {Metrics}.

End ReportManager.

(* ===================================================================== *)
(** * Phase chain of the frontend-driven workflow ([FDDWorkflowManager]) *)
(* ===================================================================== *)

Module FDDWorkflowManager.
Import Js.

Inductive UiFramework : Type := react | vue | angular | svelte | vanilla.

Record FDDConfig : Type := mkConfig {
  enableMockups : option bool;
  enablePrototyping : option bool;
  enableUserTesting : option bool;
  uiFramework : option UiFramework;
  designSystem : option jsstring
}.

Inductive PhaseName : Type :=
| ui_mockup | prototype | user_test | implementation | integration.

(** The string literal behind each name. *)
Definition phaseName (n : PhaseName) : jsstring :=
  match n with
  | ui_mockup => lit "ui-mockup"
  | prototype => lit "prototype"
  | user_test => lit "user-test"
  | implementation => lit "implementation"
  | integration => lit "integration"
  end.

Record FDDPhase : Type := mkPhase {
  name : PhaseName;
  description : jsstring;
  deliverables : list jsstring;
  nextPhase : option jsstring
}.

Record t : Type := mkManager {
  config : FDDConfig;
  projectRoot : jsstring
}.

Definition spread (a b : FDDConfig) : FDDConfig :=
  {| enableMockups := from_option Some (enableMockups a) (enableMockups b);
     enablePrototyping := from_option Some (enablePrototyping a) (enablePrototyping b);
     enableUserTesting := from_option Some (enableUserTesting a) (enableUserTesting b);
     uiFramework := from_option Some (uiFramework a) (uiFramework b);
     designSystem := from_option Some (designSystem a) (designSystem b) |}.

Definition noConfig : FDDConfig := mkConfig None None None None None.

Definition constructor (projectRoot : jsstring) (config : FDDConfig) : t :=
  {| projectRoot := projectRoot;
     config := spread (mkConfig (Some true) (Some true) (Some false) (Some react) None)
                      config |}.

Definition truthy (o : option bool) : bool := default false o.

Definition generateFDDWorkflow (this : t) (featureName : jsstring) : list FDDPhase :=
  let phases :=
    [ {| name := ui_mockup;
         description := lit "Create UI mockups and wireframes based on user requirements";
         deliverables := [lit "Wireframe designs"; lit "UI component breakdown";
                          lit "User interaction flows"; lit "Design system components"];
         nextPhase := Some (lit "prototype") |};
      {| name := prototype;
         description := lit "Build interactive prototype for user validation";
         deliverables := [lit "Interactive prototype"; lit "Component library";
                          lit "User interaction demos";
                          lit "Technical feasibility analysis"];
         nextPhase := Some (if truthy (enableUserTesting (config this))
                            then lit "user-test" else lit "implementation") |} ] in
  let phases :=
    if truthy (enableUserTesting (config this)) then
      Arr.push phases
        {| name := user_test;
           description := lit "Conduct user testing and gather feedback";
           deliverables := [lit "User testing results"; lit "Feedback analysis";
                            lit "UI improvement recommendations";
                            lit "Validated user flows"];
           nextPhase := Some (lit "implementation") |}
    else phases in
  let phases :=
    Arr.push phases
      {| name := implementation;
         description :=
           lit "Implement production-ready components based on validated designs";
         deliverables := [lit "Production components"; lit "Unit tests";
                          lit "Integration tests"; lit "Component documentation"];
         nextPhase := Some (lit "integration") |} in
  let phases :=
    Arr.push phases
      {| name := integration;
         description := lit "Integrate components into main application";
         deliverables := [lit "Integrated feature"; lit "E2E tests";
                          lit "Performance benchmarks"; lit "Deployment documentation"];
         nextPhase := None |} in
  phases.

(** The names along a chain. *)
Definition chainNames (phases : list FDDPhase) : list PhaseName := map name phases.

(** Every phase but the last names its successor. *)
Fixpoint linked (phases : list FDDPhase) : bool :=
  match phases with
  | p :: (q :: _) as rest =>
    bool_decide (nextPhase p = Some (phaseName (name q))) && linked rest
  | _ => true
  end.

End FDDWorkflowManager.

(* ===================================================================== *)
(** * Workflow orchestrator ([CoreWorkflowEnhancer]) *)
(* ===================================================================== *)

Module CoreWorkflowEnhancer.
Import Js Eff.

Inductive Phase : Type := requirements | design | tasks | implementation | quality.

Definition phaseName (p : Phase) : jsstring :=
  match p with
  | requirements => lit "requirements"
  | design => lit "design"
  | tasks => lit "tasks"
  | implementation => lit "implementation"
  | quality => lit "quality"
  end.

Record WorkflowContext : Type := mkContext {
  projectRoot : jsstring;
  currentPhase : Phase;
  featureName : jsstring;
  aiRole : Role.t;
  enableFdd : option bool
}.

Section Methods.

Context `{Platform}.

(** [Result] is what the wrapped workflow resolves to (of type [any] in the
    source) and [Metrics] its [metrics]; of a result the orchestrator reads
    [result?.files || []] and [result?.metrics || {}]. *)
Variables Result Metrics : Type.
Variable resultFiles : Result -> list jsstring.
Variable resultMetrics : Result -> Metrics.

(** The document bodies. *)
Variable generateInstructionContent :
  InstructionManager.InstructionRequest -> jsstring -> jsstring.
Variable generateReportContent :
  ReportManager.ReportData Metrics -> jsstring -> jsstring.

(** [FddWorkflowManager.initializeFddWorkflow] and the two private steps
    that follow the phase report. *)
Variable initializeFddWorkflow : jsstring -> M unit.
Variable captureLearningInsights : WorkflowContext -> Result -> M unit.
Variable autoGitCommit : WorkflowContext -> Result -> M unit.

Record t : Type := mkEnhancer {
  instructionManager : InstructionManager.t;
  reportManager : ReportManager.t
}.

Definition constructor (projectRoot : jsstring) : t :=
  {| instructionManager := InstructionManager.constructor projectRoot;
     reportManager := ReportManager.constructor projectRoot |}.

Definition instructionFor (from to : Role.t) (task context : jsstring)
    (requirements : list jsstring) : InstructionManager.InstructionRequest :=
  {| InstructionManager.from := from;
     InstructionManager.to := to;
     InstructionManager.task := task;
     InstructionManager.priority := InstructionManager.high;
     InstructionManager.deadline := None;
     InstructionManager.context := Some context;
     InstructionManager.requirements := Some requirements;
     InstructionManager.acceptanceCriteria := None |}.

Definition generatePhaseInstruction (context : WorkflowContext)
  : option InstructionManager.InstructionRequest :=
  Some
    match currentPhase context with
    | requirements =>
      instructionFor Role.claude Role.gemini
        (lit "Requirements analysis for " ++ featureName context)
        (lit "Analyze and validate requirements for implementation readiness")
        [lit "Review requirements for completeness";
         lit "Identify technical constraints"; lit "Prepare for design phase"]
    | design =>
      instructionFor Role.claude Role.gemini
        (lit "Technical design for " ++ featureName context)
        (lit "Create detailed technical design based on approved requirements")
        [lit "Design system architecture"; lit "Define API contracts";
         lit "Plan implementation approach"]
    | implementation =>
      instructionFor Role.claude Role.gemini
        (lit "Implementation of " ++ featureName context)
        (lit "Implement feature according to approved design")
        [lit "Follow design specifications"; lit "Write comprehensive tests";
         lit "Document implementation decisions"]
    | tasks =>
      instructionFor Role.claude Role.gemini
        (lit "Task planning for " ++ featureName context)
        (lit "Create detailed implementation tasks based on approved design")
        [lit "Break down design into actionable tasks";
         lit "Estimate effort and dependencies";
         lit "Prepare for implementation phase"]
    | quality =>
      instructionFor Role.gemini Role.codex
        (lit "Quality assessment for " ++ featureName context)
        (lit "Perform comprehensive quality checks on implementation")
        [lit "Run all quality gates"; lit "Verify requirements traceability";
         lit "Validate performance benchmarks"]
    end.

Definition phaseReport (context : WorkflowContext) (result : Result)
    (from to : Role.t) (completedItems nextActions : list jsstring)
  : ReportManager.ReportData Metrics :=
  {| ReportManager.from := from;
     ReportManager.to := to;
     ReportManager.task :=
       phaseName (currentPhase context) ++ lit " phase for " ++ featureName context;
     ReportManager.status := ReportManager.completed;
     ReportManager.completedItems := Some completedItems;
     ReportManager.inProgressItems := None;
     ReportManager.blockedItems := None;
     ReportManager.changedFiles := Some (resultFiles result);
     ReportManager.metrics := Some (resultMetrics result);
     ReportManager.learnings := None;
     ReportManager.nextActions := Some nextActions;
     ReportManager.notes := None |}.

Definition generatePhaseReport (context : WorkflowContext) (result : Result)
  : option (ReportManager.ReportData Metrics) :=
  Some
    match currentPhase context with
    | requirements | design | tasks =>
      phaseReport context result Role.claude Role.gemini
        [phaseName (currentPhase context) ++ lit " phase completed successfully"]
        [lit "Proceed to next phase"; lit "Review and approve output"]
    | implementation =>
      phaseReport context result Role.gemini Role.codex
        [lit "Implementation completed"; lit "Tests written";
         lit "Documentation updated"]
        [lit "Quality assessment required"; lit "Run all quality gates"]
    | quality =>
      phaseReport context result Role.codex Role.claude
        [lit "Quality gates executed"; lit "Results analyzed"]
        [lit "Review quality results"; lit "Approve for deployment"]
    end.

Definition setupPhase (context : WorkflowContext) : M unit :=
  match currentPhase context with
  | requirements => print (ConsoleLog [lit "📋 Setting up requirements phase enhancements"])
  | design => print (ConsoleLog [lit "🎨 Setting up design phase enhancements"])
  | tasks => print (ConsoleLog [lit "📋 Setting up tasks phase enhancements"])
  | implementation =>
    print (ConsoleLog [lit "⚡ Setting up implementation phase enhancements"])
  | quality => print (ConsoleLog [lit "🔍 Setting up quality phase enhancements"])
  end.

Definition isDesign (p : Phase) : bool :=
  match p with design => true | _ => false end.

Definition preWorkflowSetup (this : t) (context : WorkflowContext) : M unit :=
  let instruction := generatePhaseInstruction context in
  match instruction with
  | Some instruction =>
    _ <- InstructionManager.createInstruction generateInstructionContent
           (instructionManager this) instruction ;;
    print (ConsoleLog [lit "📋 Created " ++ Role.name (InstructionManager.to instruction) ++
                       lit " instruction for " ++ phaseName (currentPhase context) ++
                       lit " phase"])
  | None => ret tt
  end ;;;
  (if default false (enableFdd context) && isDesign (currentPhase context) then
     print (ConsoleLog [lit "🎨 Initializing FDD workflow for " ++ featureName context]) ;;;
     initializeFddWorkflow (featureName context)
   else ret tt) ;;;
  setupPhase context.

Definition postWorkflowCleanup (this : t) (context : WorkflowContext) (result : Result)
  : M unit :=
  let report := generatePhaseReport context result in
  match report with
  | Some report =>
    _ <- ReportManager.createReport Metrics generateReportContent
           (reportManager this) report ;;
    print (ConsoleLog [lit "📊 Generated " ++ Role.name (ReportManager.from report) ++
                       lit " report for " ++ phaseName (currentPhase context) ++
                       lit " phase"])
  | None => ret tt
  end ;;;
  captureLearningInsights context result ;;;
  autoGitCommit context result ;;;
  print (ConsoleLog [lit "✅ Enhanced workflow completed: " ++
                     phaseName (currentPhase context)]).

Definition errorReport (context : WorkflowContext) (error : JsError)
  : ReportManager.ReportData Metrics :=
  {| ReportManager.from := aiRole context;
     ReportManager.to := Role.claude;
     ReportManager.task :=
       phaseName (currentPhase context) ++ lit " phase for " ++ featureName context;
     ReportManager.status := ReportManager.blocked;
     ReportManager.completedItems := None;
     ReportManager.inProgressItems := None;
     ReportManager.blockedItems :=
       Some [lit "Error in " ++ phaseName (currentPhase context) ++ lit " phase: " ++
             message error];
     ReportManager.changedFiles := None;
     ReportManager.metrics := None;
     ReportManager.learnings := None;
     ReportManager.nextActions :=
       Some [lit "Review error details"; lit "Apply fixes"; lit "Retry phase execution"];
     ReportManager.notes :=
       Some (lit "Workflow error occurred during enhanced cc-sdd execution") |}.

(** [error] is [any]: the first thing [handleWorkflowError] does is to read
    [error.message], as the argument of [console.error]. *)
Definition handleWorkflowError (this : t) (context : WorkflowContext) (error : Rejection)
  : M unit :=
  reading (lit "message") (fun error =>
    print (ConsoleError [lit "❌ Workflow error in " ++ phaseName (currentPhase context) ++
                         lit " phase:"; message error]) ;;;
    let errorReport := errorReport context error in
    _ <- ReportManager.createReport Metrics generateReportContent
           (reportManager this) errorReport ;;
    print (ConsoleLog [lit "📊 Generated error report for " ++
                       phaseName (currentPhase context) ++ lit " phase"]))
  error.

Definition enhanceSpecWorkflow (this : t) (originalWorkflow : M Result)
    (context : WorkflowContext) : M Result :=
  print (ConsoleLog [lit "🚀 Enhanced workflow starting: " ++
                     phaseName (currentPhase context) ++ lit " for " ++
                     featureName context]) ;;;
  tryCatch
    (preWorkflowSetup this context ;;;
     result <- originalWorkflow ;;
     postWorkflowCleanup this context result ;;;
     ret result)
    (fun error =>
       handleWorkflowError this context error ;;;
       throw error).

(** The lines that the failure path prints. *)
Definition startingLine (context : WorkflowContext) : ConsoleLine :=
  ConsoleLog [lit "🚀 Enhanced workflow starting: " ++ phaseName (currentPhase context) ++
              lit " for " ++ featureName context].

Definition errorLine (context : WorkflowContext) (error : JsError) : ConsoleLine :=
  ConsoleError [lit "❌ Workflow error in " ++ phaseName (currentPhase context) ++
                lit " phase:"; message error].

Definition reportedLine (context : WorkflowContext) : ConsoleLine :=
  ConsoleLog [lit "📊 Generated error report for " ++ phaseName (currentPhase context) ++
              lit " phase"].

End Methods.

End CoreWorkflowEnhancer.

(* ===================================================================== *)
(** * A platform to run the sources on *)
(* ===================================================================== *)

(** Directories and files are recorded as they are made (latest first);
    paths for which [denied] holds cannot be written.  The clock stands at
    2 November 2026, 09:05; [path.join] is the POSIX one on clean segments;
    the case mapping is the ASCII one. *)
Module Sample.
Import Js Eff.

Record Disk : Type := mkDisk {
  dirs : list jsstring;
  files : list (jsstring * jsstring)
}.

Definition emptyDisk : Disk := mkDisk [] [].

Definition posixJoin (segments : list jsstring) : jsstring :=
  match segments with
  | [] => lit "."
  | first :: rest => first ++ flat_map (fun seg => lit "/" ++ seg) rest
  end.

Definition accessDenied (p : jsstring) : JsError :=
  mkError (lit "EACCES: permission denied, open '" ++ p ++ lit "'").

Definition platform (denied : jsstring -> bool) : Platform :=
  {| Env := Disk;
     fs_mkdir := fun p d => (None, {| dirs := p :: dirs d; files := files d |});
     fs_writeFile := fun p content d =>
       if denied p then (Some (accessDenied p), d)
       else (None, {| dirs := dirs d; files := (p, content) :: files d |});
     clock := fun _ => mkDate 2026 10 2 9 5;
     join := posixJoin;
     toLowerCase := asciiLowerCase |}.

(** Every path can be written. *)
Definition anywhere (p : jsstring) : bool := false.
Definition writable : Platform := platform anywhere.

(** The reports directory cannot be written. *)
Definition underReports (p : jsstring) : bool := includes p (lit "/reports/").
Definition reportsReadOnly : Platform := platform underReports.

(** The world at the start: an empty disk, a silent console. *)
Definition start (denied : jsstring -> bool) : @World (platform denied) :=
  @mkWorld (platform denied) emptyDisk [].

End Sample.

(* ===================================================================== *)
(** * Sample inputs *)
(* ===================================================================== *)

(** Todo items. *)
Definition implementTask : TodoEnhancer.TodoItem :=
  {| TodoEnhancer.content := Js.lit "Implement feature X";
     TodoEnhancer.activeForm := Js.lit "Implementing feature X";
     TodoEnhancer.status := TodoEnhancer.pending |}.

Definition reportTask : TodoEnhancer.TodoItem :=
  {| TodoEnhancer.content := Js.lit "Write report";
     TodoEnhancer.activeForm := Js.lit "Writing report";
     TodoEnhancer.status := TodoEnhancer.pending |}.

Definition commitTask : TodoEnhancer.TodoItem :=
  {| TodoEnhancer.content := Js.lit "Commit changes";
     TodoEnhancer.activeForm := Js.lit "Committing changes";
     TodoEnhancer.status := TodoEnhancer.pending |}.

Definition instructionDocTask : TodoEnhancer.TodoItem :=
  {| TodoEnhancer.content := Js.lit "Create instruction doc";
     TodoEnhancer.activeForm := Js.lit "Creating instruction doc";
     TodoEnhancer.status := TodoEnhancer.pending |}.

Definition docAndImplement : list TodoEnhancer.TodoItem :=
  [instructionDocTask; implementTask].

(** A store with one array, at address 1. *)
Definition oneArray : gmap positive (list TodoEnhancer.TodoItem) :=
  {[ 1%positive := [implementTask] ]}.


Definition sampleBody {A} (_ : A) (timestamp : Js.jsstring) : Js.jsstring :=
  Js.lit "Date: " ++ timestamp.


(** A failing implementation phase, on both sample platforms. *)
Module FailingPhase.
Import Js Eff.

Definition context : CoreWorkflowEnhancer.WorkflowContext :=
  {| CoreWorkflowEnhancer.projectRoot := lit "/project";
     CoreWorkflowEnhancer.currentPhase := CoreWorkflowEnhancer.implementation;
     CoreWorkflowEnhancer.featureName := lit "login";
     CoreWorkflowEnhancer.aiRole := Role.gemini;
     CoreWorkflowEnhancer.enableFdd := None |}.

Definition buildFailed : JsError := mkError (lit "build failed").

(** The orchestrator around a work that rejects with [error]. *)
Definition runWith (denied : jsstring -> bool) (error : Rejection)
  : Outcome unit * @World (Sample.platform denied) :=
  @CoreWorkflowEnhancer.enhanceSpecWorkflow (Sample.platform denied) unit unit
    (fun _ => []) (fun _ => tt) sampleBody sampleBody
    (fun _ => ret tt) (fun _ _ => ret tt) (fun _ _ => ret tt)
    (@CoreWorkflowEnhancer.constructor (Sample.platform denied) (lit "/project"))
    (throw error) context
    (Sample.start denied).

Definition run (denied : jsstring -> bool)
  : Outcome unit * @World (Sample.platform denied) :=
  runWith denied buildFailed.

(** The world in which the work is run: after the setup. *)
Definition afterSetup (denied : jsstring -> bool) : @World (Sample.platform denied) :=
  snd (@CoreWorkflowEnhancer.preWorkflowSetup (Sample.platform denied) sampleBody
         (fun _ => ret tt)
         (@CoreWorkflowEnhancer.constructor (Sample.platform denied) (lit "/project"))
         context
         (say (CoreWorkflowEnhancer.startingLine context) (Sample.start denied))).

Definition blockedReportPath : jsstring :=
  lit "/project/docs/reports/FromGemini/gemini_from_blocked_202611020905_implementation_phase_for_login.md".

End FailingPhase.

(* ===================================================================== *)
(** * More of the sources *)
(* ===================================================================== *)

(** Counting the copies of an item in a todo list. *)
Module TodoCount.
Import TodoEnhancer.

#[export] Instance Status_eq_dec : EqDecision Status.
Proof. solve_decision. Defined.

#[export] Instance TodoItem_eq_dec : EqDecision TodoItem.
Proof. solve_decision. Defined.

Definition copies (x : TodoItem) (todos : list TodoItem) : nat :=
  count_occ TodoItem_eq_dec todos x.

End TodoCount.

(** ** The steps after the phase report ([CoreWorkflowEnhancer]) *)

Module PostWorkflow.
Import Js Eff CoreWorkflowEnhancer.

(** What the two steps ask of Node beyond the file system:
    [await import('child_process')], [execSync(command, {cwd})] (each
    returns the error it throws, if any), [new Date().toISOString()] and the
    string that a template makes of a caught error. *)
Class Shell `{Platform} : Type := {
  importChildProcess : Env -> option JsError * Env;
  execSync : jsstring -> jsstring -> Env -> option JsError * Env;
  toISOString : Env -> jsstring;
  errorToString : JsError -> jsstring
}.

Section Methods.

Context `{Shell}.

(** Of the result of the wrapped workflow the two steps read
    [result?.files || []], [result?.summary] (here [None] when it is falsy)
    and whether [result?.insights], [result?.challenges] and
    [result?.solutions] are truthy. *)
Variable Result : Type.
Variable resultFiles : Result -> list jsstring.
Variable resultSummary : Result -> option jsstring.
Variables resultInsights resultChallenges resultSolutions : Result -> bool.

(** The body of the learning record, made of the context, the result, the
    time stamp and a second reading of the clock. *)
Variable learningContent : WorkflowContext -> Result -> jsstring -> jsstring -> jsstring.

(** [for (const x of xs) { await body(x) }] *)
Fixpoint forEach {A} (xs : list A) (body : A -> M unit) : M unit :=
  match xs with
  | [] => ret tt
  | x :: rest => body x ;;; forEach rest body
  end.

(** A line feed and a double quote. *)
Definition nl : jsstring := [0x0A].
Definition quote : jsstring := [0x22].

(** [`${error}`] for what was caught. *)
Definition rejectionToString (error : Rejection) : jsstring :=
  match error with
  | anError e => errorToString e
  | nullish n => nullishName n
  end.

Definition isoNow : M jsstring := fun w => (Returned (toISOString (env w)), w).

(** [s.split('.')[0]]: the text before the first full stop. *)
Fixpoint upToDot (s : jsstring) : jsstring :=
  match s with
  | [] => []
  | c :: s' => if c =? 0x2E then [] else c :: upToDot s'
  end.

(** [iso.replace(/[-:]/g, '').split('.')[0]] *)
Definition compactStamp (iso : jsstring) : jsstring :=
  upToDot (removeOutside (fun c => negb ((c =? 0x2D) || (c =? 0x3A))) iso).

Definition captureLearningInsights (context : WorkflowContext) (result : Result)
  : M unit :=
  if resultInsights result || resultChallenges result || resultSolutions result then
    iso <- isoNow ;;
    let timestamp := compactStamp iso in
    let learningPath :=
      join [projectRoot context; lit "docs"; lit "handover"; lit "learnings";
            lit "technical"] in
    mkdir learningPath ;;;
    iso' <- isoNow ;;
    let learningContent := learningContent context result timestamp iso' in
    let learningFile :=
      join [learningPath;
            lit "Learning_" ++ timestamp ++ lit "_" ++ phaseName (currentPhase context) ++
            lit "_" ++ featureName context ++ lit ".md"] in
    writeFile learningFile learningContent ;;;
    print (ConsoleLog [lit "📚 Captured learning insights: " ++ learningFile])
  else ret tt.

Definition commitMessage (context : WorkflowContext) (result : Result) : jsstring :=
  lit "feat(" ++ featureName context ++ lit "): " ++ phaseName (currentPhase context) ++
  lit " phase completed" ++ nl ++ nl ++
  lit "Enhanced cc-sdd workflow with AI coordination" ++ nl ++
  lit "- " ++ phaseName (currentPhase context) ++ lit " phase: " ++
  default (lit "completed successfully") (resultSummary result) ++ nl ++
  lit "- AI role: " ++ Role.name (aiRole context) ++ nl ++
  lit "- Generated documentation and reports" ++ nl ++ nl ++
  lit "🤖 Generated with Enhanced CC-SDD" ++ nl ++ nl ++
  lit "Co-Authored-By: " ++ Role.name (aiRole context) ++
  lit " <noreply@enhanced-cc-sdd.com>".

(** The files of [git add], the two kinds of command, and the two lines
    that [autoGitCommit] can print. *)
Definition filesToCommit (result : Result) : list jsstring :=
  resultFiles result ++
  [lit "docs/instructions/"; lit "docs/reports/"; lit "docs/handover/learnings/"].

Definition gitAdd (file : jsstring) : jsstring :=
  lit "git add " ++ quote ++ file ++ quote.

Definition gitCommit (context : WorkflowContext) (result : Result) : jsstring :=
  lit "git commit -m " ++ quote ++ commitMessage context result ++ quote.

Definition committedLine (context : WorkflowContext) : ConsoleLine :=
  ConsoleLog [lit "📝 Auto-committed changes for " ++
              phaseName (currentPhase context) ++ lit " phase"].

Definition commitFailedLine (error : Rejection) : ConsoleLine :=
  ConsoleWarn [lit "⚠️ Auto-commit failed, but workflow continues: " ++
               rejectionToString error].

Definition autoGitCommit (context : WorkflowContext) (result : Result) : M unit :=
  tryCatch
    (liftFs importChildProcess ;;;
     let filesToCommit := filesToCommit result in
     forEach filesToCommit (fun file =>
       tryCatch
         (liftFs (execSync (gitAdd file) (projectRoot context)))
         (fun _ => ret tt)) ;;;
     liftFs (execSync (gitCommit context result) (projectRoot context)) ;;;
     print (committedLine context))
    (fun error => print (commitFailedLine error)).

(** The state that the [git add] commands leave, each run on the state
    the one before it left, whether it failed or not. *)
Definition afterGitAdd (cwd : jsstring) (files : list jsstring) (d : Env) : Env :=
  foldl (fun d file => snd (execSync (gitAdd file) cwd d)) d files.

End Methods.

(** The line that [postWorkflowCleanup] prints after the phase report. *)
Definition generatedLine {Metrics} (report : ReportManager.ReportData Metrics)
    (context : WorkflowContext) : ConsoleLine :=
  ConsoleLog [lit "📊 Generated " ++ Role.name (ReportManager.from report) ++
              lit " report for " ++ phaseName (currentPhase context) ++ lit " phase"].

End PostWorkflow.

(** ** More string and array methods *)

Module JsText.
Import Js.

(** [xs.join(sep)] *)
Fixpoint joinWith (sep : jsstring) (xs : list jsstring) : jsstring :=
  match xs with
  | [] => []
  | [x] => x
  | x :: rest => x ++ sep ++ joinWith sep rest
  end.

(** [s.split(c)] for a separator of one unit [c]: never the empty list. *)
Fixpoint split (c : Z) (s : jsstring) : list jsstring :=
  match s with
  | [] => [[]]
  | a :: s' =>
    if a =? c then [] :: split c s'
    else match split c s' with
         | [] => [[a]]
         | field :: fields => (a :: field) :: fields
         end
  end.

(** [s.endsWith(t)] *)
Definition endsWith (s t : jsstring) : bool :=
  (length t <=? length s)%nat && bool_decide (drop (length s - length t) s = t).

(** [s.replace(t, '')] for a string [t]: the first occurrence of [t] goes. *)
Fixpoint removeFirst (t : jsstring) (s : jsstring) : jsstring :=
  if startsWith s t then drop (length t) s
  else match s with
       | [] => []
       | a :: s' => a :: removeFirst t s'
       end.

(** [s.match(/\d{12}/)?.[0]]: the first twelve digits in a row. *)
Fixpoint firstDigits12 (s : jsstring) : option jsstring :=
  if (12 <=? length s)%nat && forallb isDigit (take 12 s) then Some (take 12 s)
  else match s with
       | [] => None
       | _ :: s' => firstDigits12 s'
       end.

(** The order of [Array.prototype.sort] without a comparator, on strings:
    by code units, a proper prefix first. *)
Fixpoint leb (s t : jsstring) : bool :=
  match s, t with
  | [], _ => true
  | _ :: _, [] => false
  | a :: s', b :: t' => (a <? b) || ((a =? b) && leb s' t')
  end.

Fixpoint insertSorted (x : jsstring) (xs : list jsstring) : list jsstring :=
  match xs with
  | [] => [x]
  | y :: rest => if leb x y then x :: y :: rest else y :: insertSorted x rest
  end.

(** [xs.sort()]: the strings of [xs] in ascending order. *)
Definition sort (xs : list jsstring) : list jsstring := foldr insertSorted [] xs.

(** [s] is not after [t] in that order. *)
Definition notAfter (s t : jsstring) : Prop := leb s t = true.

End JsText.

(** ** The command line ([runEnhancedCli] and its helpers) *)

Module Cli.
Import Js Eff CoreWorkflowEnhancer.

Record EnhancedCliOptions : Type := mkCliOptions {
  enableGitCommitRule : option bool;
  enableAICoordination : option bool;
  enableFDD : option bool;
  autoLearningCapture : option bool
}.

(** [x !== false] for an optional flag. *)
Definition notFalse (o : option bool) : bool :=
  match o with
  | Some false => false
  | _ => true
  end.

Definition commands : list jsstring :=
  [lit "spec-init"; lit "spec-requirements"; lit "spec-design"; lit "spec-tasks";
   lit "spec-impl"].

Definition isCommand (arg : jsstring) : bool :=
  Arr.some (fun cmd => includes arg cmd) commands.

(** The loop of [extractFeatureFromArgs] at an index [i]: [argv] is here
    what is left of the arguments from [i] on, so that [i + 1 < argv.length]
    says that something follows, and [argv[i + 1]] is what follows. *)
Fixpoint featureAfterCommand (argv : list jsstring) : option jsstring :=
  match argv with
  | [] => None
  | arg :: rest =>
    if isCommand arg && negb (bool_decide (rest = [])) then head rest
    else featureAfterCommand rest
  end.

Definition extractFeatureFromArgs (argv : list jsstring) : jsstring :=
  default (lit "unknown-feature") (featureAfterCommand argv).

Section WithLowerCase.

Variable toLowerCase : jsstring -> jsstring.

Definition determinePhaseFromArgs (argv : list jsstring) : Phase :=
  let argStr := toLowerCase (JsText.joinWith (lit " ") argv) in
  if includes argStr (lit "spec-requirements") || includes argStr (lit "requirements")
  then requirements
  else if includes argStr (lit "spec-design") || includes argStr (lit "design")
  then design
  else if includes argStr (lit "spec-tasks") || includes argStr (lit "tasks")
  then tasks
  else if includes argStr (lit "spec-impl") || includes argStr (lit "implementation")
  then implementation
  else if includes argStr (lit "quality") || includes argStr (lit "validate")
  then quality
  else requirements.

(** [enhanceTodoList]: [options.enableGitCommitRule] is read as a
    condition, [options.autoLearningCapture ?? true] keeps a given [false]. *)
Definition enhanceTodoList (todos : list TodoEnhancer.TodoItem)
    (options : EnhancedCliOptions) : list TodoEnhancer.TodoItem :=
  if negb (TodoEnhancer.truthy (enableGitCommitRule options)) then todos
  else
    let enhancer :=
      TodoEnhancer.constructor
        {| TodoEnhancer.enforceGitCommit := Some true;
           TodoEnhancer.detectDocumentCreation := Some true;
           TodoEnhancer.autoLearningCapture :=
             Some (default true (autoLearningCapture options)) |} in
    TodoEnhancer.enhanceTodos toLowerCase enhancer todos.

End WithLowerCase.

(** The words that [determinePhaseFromArgs] looks for. *)
Definition phaseKeywords : list jsstring :=
  [lit "spec-requirements"; lit "requirements"; lit "spec-design"; lit "design";
   lit "spec-tasks"; lit "tasks"; lit "spec-impl"; lit "implementation";
   lit "quality"; lit "validate"].

Section Run.

Context `{PostWorkflow.Shell}.

(** [CliIO]: [exit] is never called. *)
Record CliIO : Type := mkIO {
  log : jsstring -> M unit;
  error : jsstring -> M unit
}.

(** The document bodies, [FddWorkflowManager.initializeFddWorkflow] and the
    body of the learning record, as for the orchestrator; [Metrics] with the
    empty object [{}]. *)
Variable Metrics : Type.
Variable emptyMetrics : Metrics.
Variable generateInstructionContent :
  InstructionManager.InstructionRequest -> jsstring -> jsstring.
Variable generateReportContent :
  ReportManager.ReportData Metrics -> jsstring -> jsstring.
Variable initializeFddWorkflow : jsstring -> M unit.
Variable learningContent : WorkflowContext -> Z -> jsstring -> jsstring -> jsstring.

(** [GitCommitEnforcer.validateGitRepository] and [process.cwd()]. *)
Variable validateGitRepository : M bool.
Variable processCwd : jsstring.

(** The context that the wrapper builds from the arguments. *)
Definition contextOf (projectRoot : jsstring) (argv : list jsstring) : WorkflowContext :=
  {| projectRoot := projectRoot;
     currentPhase := determinePhaseFromArgs toLowerCase argv;
     featureName := extractFeatureFromArgs argv;
     aiRole := Role.claude;
     enableFdd := None |}.

(** The wrapped workflow resolves to the number 0; a number has no [files],
    [metrics], [summary], [insights], [challenges] or [solutions]. *)
Definition enhancedWorkflow (projectRoot : jsstring) (argv : list jsstring) : M Z :=
  let workflowEnhancer := CoreWorkflowEnhancer.constructor projectRoot in
  enhanceSpecWorkflow Z Metrics (fun _ => []) (fun _ => emptyMetrics)
    generateInstructionContent generateReportContent initializeFddWorkflow
    (PostWorkflow.captureLearningInsights Z (fun _ => false) (fun _ => false)
       (fun _ => false) learningContent)
    (PostWorkflow.autoGitCommit Z (fun _ => []) (fun _ => None))
    workflowEnhancer (ret 0) (contextOf projectRoot argv).

Definition enabledText (o : option bool) : jsstring :=
  if notFalse o then lit "Enabled" else lit "Disabled".

(** [runEnhancedCli(argv, runtime, io, loadedConfig, execOpts, enhancedOpts)]:
    [cwd] is [execOpts?.cwd]; [runtime] and [loadedConfig] are not used. *)
Definition runEnhancedCli (argv : list jsstring) (io : CliIO) (cwd : option jsstring)
    (enhancedOpts : EnhancedCliOptions) : M Z :=
  let projectRoot :=
    match cwd with
    | Some (c :: rest) => c :: rest
    | _ => processCwd
    end in
  (if notFalse (enableGitCommitRule enhancedOpts) then
     isValidRepo <- validateGitRepository ;;
     if negb isValidRepo
     then log io (lit "⚠️ Git repository not available. Git commit enforcement disabled.")
     else ret tt
   else ret tt) ;;;
  tryCatch
    (log io (lit "🚀 Enhanced CC-SDD starting...") ;;;
     log io (lit "📋 Git Commit Rule: " ++
             enabledText (enableGitCommitRule enhancedOpts)) ;;;
     log io (lit "🤖 AI Coordination: " ++
             enabledText (enableAICoordination enhancedOpts)) ;;;
     result <- enhancedWorkflow projectRoot argv ;;
     log io (lit "✅ Enhanced CC-SDD completed successfully!") ;;;
     ret result)
    (fun err =>
       error io (lit "❌ Enhanced CC-SDD failed: " ++ messageOrText err) ;;;
       ret 1).

End Run.

(** A computation that always returns. *)
Definition returns `{Platform} {A} (m : M A) : Prop :=
  forall w, exists a w', m w = (Returned a, w').

End Cli.

(** ** Running a phase of the frontend-driven workflow *)

Module FDDExecution.
Import Js Eff FDDWorkflowManager.

(** What [executeFDDPhase] resolves to. *)
Record PhaseOutcome : Type := mkOutcome {
  success : bool;
  deliverables : list jsstring
}.

Section Methods.

Context `{Platform}.
Variable Metrics : Type.
Variable generateInstructionContent :
  InstructionManager.InstructionRequest -> jsstring -> jsstring.
Variable generateReportContent :
  ReportManager.ReportData Metrics -> jsstring -> jsstring.

(** [executePhaseWork] writes the template files of the phase and returns
    their names; [inspect] is how the console shows an error object. *)
Variable executePhaseWork : FDDPhase -> jsstring -> M (list jsstring).
Variable inspect : JsError -> jsstring.

(** How the console shows what was caught. *)
Definition inspectRejection (error : Rejection) : jsstring :=
  match error with
  | anError e => inspect e
  | nullish n => nullishName n
  end.

(** The two managers that the constructor makes for the project root. *)
Definition instructionManager (this : FDDWorkflowManager.t) : InstructionManager.t :=
  InstructionManager.constructor (projectRoot this).

Definition reportManager (this : FDDWorkflowManager.t) : ReportManager.t :=
  ReportManager.constructor (projectRoot this).

Definition generatePhaseInstruction (phase : FDDPhase) (featureName : jsstring)
    (userRequirements : list jsstring) : InstructionManager.InstructionRequest :=
  {| InstructionManager.from := Role.claude;
     InstructionManager.to := Role.gemini;
     InstructionManager.task :=
       lit "FDD " ++ phaseName (name phase) ++ lit " phase for " ++ featureName;
     InstructionManager.priority := InstructionManager.high;
     InstructionManager.deadline := None;
     InstructionManager.context :=
       Some (lit "Frontend-Driven Development: " ++ description phase);
     InstructionManager.requirements :=
       Some (map (fun d => lit "Create " ++ d) (FDDWorkflowManager.deliverables phase) ++
             [lit "Follow FDD best practices"; lit "Ensure user-centric design"] ++
             userRequirements);
     InstructionManager.acceptanceCriteria := None |}.

(** [phase.nextPhase] as a condition: a non-empty string. *)
Definition nextPhaseGiven (phase : FDDPhase) : option jsstring :=
  match nextPhase phase with
  | Some (c :: rest) => Some (c :: rest)
  | _ => None
  end.

Definition generatePhaseReport (phase : FDDPhase) (featureName : jsstring)
    (deliverables : list jsstring) : ReportManager.ReportData Metrics :=
  {| ReportManager.from := Role.claude;
     ReportManager.to := Role.gemini;
     ReportManager.task :=
       lit "FDD " ++ phaseName (name phase) ++ lit " phase for " ++ featureName;
     ReportManager.status := ReportManager.completed;
     ReportManager.completedItems := Some (map (fun d => lit "✅ " ++ d) deliverables);
     ReportManager.inProgressItems := None;
     ReportManager.blockedItems := None;
     ReportManager.changedFiles := Some deliverables;
     ReportManager.metrics := None;
     ReportManager.learnings := None;
     ReportManager.nextActions :=
       Some (match nextPhaseGiven phase with
             | Some next => [lit "Proceed to " ++ next ++ lit " phase"]
             | None => [lit "Feature ready for production"]
             end);
     ReportManager.notes :=
       Some (lit "Frontend-Driven Development " ++ phaseName (name phase) ++
             lit " phase completed successfully") |}.

Definition prepareNextPhase (this : FDDWorkflowManager.t) (nextPhase featureName : jsstring)
  : M unit :=
  print (ConsoleLog [lit "🔄 Preparing " ++ nextPhase ++ lit " phase for " ++ featureName]) ;;;
  let instruction :=
    {| InstructionManager.from := Role.claude;
       InstructionManager.to := Role.gemini;
       InstructionManager.task :=
         lit "Prepare for FDD " ++ nextPhase ++ lit " phase: " ++ featureName;
       InstructionManager.priority := InstructionManager.medium;
       InstructionManager.deadline := None;
       InstructionManager.context :=
         Some (lit "Previous phase completed. Ready for " ++ nextPhase ++
               lit " phase execution.");
       InstructionManager.requirements :=
         Some [lit "Review previous phase deliverables"; lit "Set up next phase workspace";
               lit "Coordinate team resources"];
       InstructionManager.acceptanceCriteria := None |} in
  _ <- InstructionManager.createInstruction generateInstructionContent
         (instructionManager this) instruction ;;
  ret tt.

Definition errorReport (phase : FDDPhase) (featureName : jsstring) (error : Rejection)
  : ReportManager.ReportData Metrics :=
  {| ReportManager.from := Role.claude;
     ReportManager.to := Role.gemini;
     ReportManager.task :=
       lit "FDD " ++ phaseName (name phase) ++ lit " phase for " ++ featureName;
     ReportManager.status := ReportManager.blocked;
     ReportManager.completedItems := None;
     ReportManager.inProgressItems := None;
     ReportManager.blockedItems :=
       Some [phaseName (name phase) ++ lit " phase failed: " ++ messageOrText error];
     ReportManager.changedFiles := None;
     ReportManager.metrics := None;
     ReportManager.learnings := None;
     ReportManager.nextActions :=
       Some [lit "Review error details"; lit "Adjust FDD approach"; lit "Retry phase"];
     ReportManager.notes := Some (lit "Frontend-Driven Development phase error") |}.

(** The lines that [executeFDDPhase] prints. *)
Definition startingLine (phase : FDDPhase) (featureName : jsstring) : ConsoleLine :=
  ConsoleLog [lit "🎨 Starting FDD phase: " ++ phaseName (name phase) ++
              lit " for " ++ featureName].

Definition completedLine (phase : FDDPhase) (featureName : jsstring) : ConsoleLine :=
  ConsoleLog [lit "✅ FDD phase " ++ phaseName (name phase) ++
              lit " completed for " ++ featureName].

Definition failedLine (phase : FDDPhase) (error : Rejection) : ConsoleLine :=
  ConsoleError [lit "❌ FDD phase " ++ phaseName (name phase) ++ lit " failed:";
                inspectRejection error].

(** [if (phase.nextPhase) { await this.prepareNextPhase(...) }] *)
Definition prepareNext (this : FDDWorkflowManager.t) (phase : FDDPhase)
    (featureName : jsstring) : M unit :=
  match nextPhaseGiven phase with
  | Some next => prepareNextPhase this next featureName
  | None => ret tt
  end.

(** The guarded block of [executeFDDPhase]. *)
Definition phaseBody (this : FDDWorkflowManager.t) (phase : FDDPhase)
    (featureName : jsstring) (userRequirements : list jsstring) : M PhaseOutcome :=
  let instruction := generatePhaseInstruction phase featureName userRequirements in
  _ <- InstructionManager.createInstruction generateInstructionContent
         (instructionManager this) instruction ;;
  deliverables <- executePhaseWork phase featureName ;;
  let report := generatePhaseReport phase featureName deliverables in
  _ <- ReportManager.createReport Metrics generateReportContent
         (reportManager this) report ;;
  prepareNext this phase featureName ;;;
  print (completedLine phase featureName) ;;;
  ret {| success := true; deliverables := deliverables |}.

(** The [catch] block of [executeFDDPhase]. *)
Definition phaseFailed (this : FDDWorkflowManager.t) (phase : FDDPhase)
    (featureName : jsstring) (error : Rejection) : M PhaseOutcome :=
  print (failedLine phase error) ;;;
  let errorReport := errorReport phase featureName error in
  _ <- ReportManager.createReport Metrics generateReportContent
         (reportManager this) errorReport ;;
  ret {| success := false; deliverables := [] |}.

Definition executeFDDPhase (this : FDDWorkflowManager.t) (phase : FDDPhase)
    (featureName : jsstring) (userRequirements : list jsstring) : M PhaseOutcome :=
  print (startingLine phase featureName) ;;;
  tryCatch
    (phaseBody this phase featureName userRequirements)
    (phaseFailed this phase featureName).

End Methods.

End FDDExecution.

(** ** Listing and summarising the documents *)

Module Listing.
Import Js JsText Eff.

(** Reading from the file system: [fs.readdir(p)] and
    [fs.readFile(p, 'utf-8')] return a value or the error they reject
    with. *)
Class FsRead `{Platform} : Type := {
  fs_readdir : jsstring -> Env -> (JsError + list jsstring) * Env;
  fs_readFile : jsstring -> Env -> (JsError + jsstring) * Env
}.

Section Methods.

Context `{FsRead}.

Definition liftRead {A} (op : Env -> (JsError + A) * Env) : M A :=
  fun w => match op (env w) with
           | (inr a, d) => (Returned a, {| env := d; console := console w |})
           | (inl err, d) => (Thrown err, {| env := d; console := console w |})
           end.

Definition readdir (p : jsstring) : M (list jsstring) := liftRead (fs_readdir p).

Definition readFile (p : jsstring) : M jsstring := liftRead (fs_readFile p).

(** [files.filter(file => file.endsWith('.md')).sort().reverse()] *)
Definition latestFirst (files : list jsstring) : list jsstring :=
  reverse (sort (List.filter (fun file => endsWith file (lit ".md")) files)).

(** [InstructionManager.listInstructions] and [readInstruction] *)
Definition listInstructions (this : InstructionManager.t) (ai : Role.t)
  : M (list jsstring) :=
  let instructionsDir :=
    join [InstructionManager.docsPath this; lit "instructions";
          lit "To" ++ Helpers.capitalize (Role.name ai)] in
  tryCatch
    (files <- readdir instructionsDir ;;
     ret (latestFirst files))
    (fun _ => ret []).

Definition readInstruction (this : InstructionManager.t) (ai : Role.t)
    (fileName : jsstring) : M jsstring :=
  let filePath :=
    join [InstructionManager.docsPath this; lit "instructions";
          lit "To" ++ Helpers.capitalize (Role.name ai); fileName] in
  readFile filePath.

(** [ReportManager.listReports] and [readReport] *)
Definition listReports (this : ReportManager.t) (ai : Role.t) : M (list jsstring) :=
  let reportsDir :=
    join [ReportManager.docsPath this; lit "reports";
          lit "From" ++ Helpers.capitalize (Role.name ai)] in
  tryCatch
    (files <- readdir reportsDir ;;
     ret (latestFirst files))
    (fun _ => ret []).

Definition readReport (this : ReportManager.t) (ai : Role.t) (fileName : jsstring)
  : M jsstring :=
  let filePath :=
    join [ReportManager.docsPath this; lit "reports";
          lit "From" ++ Helpers.capitalize (Role.name ai); fileName] in
  readFile filePath.

(** [s.substring(a, b)] for [0 <= a <= b] *)
Definition substring (a b : nat) (s : jsstring) : jsstring := take (b - a) (drop a s).

(** [ReportManager.formatTimestamp] *)
Definition formatTimestamp (timestamp : jsstring) : jsstring :=
  if bool_decide (timestamp = lit "Unknown") || bool_decide (timestamp = lit "None") ||
     bool_decide (timestamp = [])
  then timestamp
  else
    let year := substring 0 4 timestamp in
    let month := substring 4 6 timestamp in
    let day := substring 6 8 timestamp in
    let hour := substring 8 10 timestamp in
    let minute := substring 10 12 timestamp in
    year ++ lit "-" ++ month ++ lit "-" ++ day ++ lit " " ++ hour ++ lit ":" ++ minute.

(** [ReportManager.getAIStatus] *)
Definition getAIStatus (this : ReportManager.t) (ai : Role.t) (title : jsstring)
  : M jsstring :=
  reports <- listReports this ai ;;
  let recentCount := length reports in
  let lastActivity :=
    match reports with
    | latest :: _ =>
      match firstDigits12 latest with
      | Some stamp => stamp
      | None => lit "Unknown"
      end
    | [] => lit "None"
    end in
  ret (lit "## " ++ title ++ [0x0A] ++
       lit "├── Recent Reports: " ++ toString (Z.of_nat recentCount) ++ [0x0A] ++
       lit "├── Last Activity: " ++ formatTimestamp lastActivity ++ [0x0A] ++
       lit "└── Status: " ++
       (if (0 <? recentCount)%nat then lit "Active" else lit "Idle")).

(** The task text that [getRecentActivity] takes from a file name:
    [latest.split('_').slice(3).join('_').replace('.md', '')] *)
Definition taskText (latest : jsstring) : jsstring :=
  removeFirst (lit ".md") (joinWith (lit "_") (drop 3 (split 0x5F latest))).

(** The piece of the status that [split('_')] leaves before its third
    separator, and the piece after it. *)
Definition statusHead (s : ReportManager.Status) : jsstring :=
  match s with
  | ReportManager.in_progress => lit "in"
  | _ => ReportManager.statusName s
  end.

Definition statusRest (s : ReportManager.Status) : jsstring :=
  match s with
  | ReportManager.in_progress => lit "progress_"
  | _ => []
  end.

(** One round of the loop of [getRecentActivity], for the agent [ai]. *)
Definition activityStep (this : ReportManager.t) (activities : M (list jsstring))
    (ai : Role.t) : M (list jsstring) :=
  acts <- activities ;;
  reports <- listReports this ai ;;
  match reports with
  | latest :: _ =>
    let timestamp := default [] (firstDigits12 latest) in
    let task := taskText latest in
    ret (Arr.push acts
           (lit "- " ++ formatTimestamp timestamp ++ lit " " ++
            Helpers.capitalize (Role.name ai) ++ lit ": " ++ task))
  | [] => ret acts
  end.

(** [ReportManager.getRecentActivity] *)
Definition getRecentActivity (this : ReportManager.t) : M (list jsstring) :=
  activities <- foldl (activityStep this) (ret []) [Role.claude; Role.gemini; Role.codex] ;;
  ret (take 5 activities).

(** [ReportManager.generateStatusDashboard] *)
Definition generateStatusDashboard (this : ReportManager.t) : M jsstring :=
  claude <- getAIStatus this Role.claude (lit "🎯 Claude Code (司令塔)") ;;
  gemini <- getAIStatus this Role.gemini (lit "⚡ Gemini (実装)") ;;
  codex <- getAIStatus this Role.codex (lit "🔍 Codex (品質ゲート)") ;;
  recent <- getRecentActivity this ;;
  let dashboard :=
    [lit "# 📊 AI Team Status Dashboard"; []; claude; gemini; codex; [];
     lit "## 📁 Recent Activity"] ++ recent in
  ret (joinWith [0x0A] dashboard).

End Methods.

End Listing.

(** ** The slash commands ([SlashCommandEnhancer]) *)

Module SlashCommandEnhancer.
Import Js JsText TodoEnhancer.

Section WithLowerCase.

Variable toLowerCase : jsstring -> jsstring.

(** [this.todoEnhancer] is [new TodoEnhancer()]. *)
Definition todoEnhancer : TodoEnhancer.t := defaultEnhancer.

(** [args[0] || 'unknown-feature'] *)
Definition featureOf (args : list jsstring) : jsstring :=
  match args with
  | (c :: rest) :: _ => c :: rest
  | _ => lit "unknown-feature"
  end.

(** [command.split(':')[1]] inside a template: "undefined" when the command
    has no colon. *)
Definition afterColon (command : jsstring) : jsstring :=
  default (lit "undefined") (split 0x3A command !! 1%nat).

Definition coordinationTasks (command : jsstring) (featureName : jsstring)
  : list TodoItem :=
  [ {| content := lit "Generate " ++ afterColon command ++ lit " specification for " ++
                  featureName;
       activeForm := lit "Generating " ++ afterColon command ++ lit " specification for " ++
                     featureName;
       status := pending |};
    {| content := lit "Create AI instruction document for " ++ afterColon command ++
                  lit " phase";
       activeForm := lit "Creating AI instruction document for " ++ afterColon command ++
                     lit " phase";
       status := pending |};
    {| content := lit "Review and validate " ++ afterColon command ++ lit " completeness";
       activeForm := lit "Reviewing and validating " ++ afterColon command ++
                     lit " completeness";
       status := pending |} ].

Definition enhanceSpecCommand (command : jsstring) (args : list jsstring)
    (todos : list TodoItem) : list TodoItem :=
  let featureName := featureOf args in
  let enhancedTodos := coordinationTasks command featureName ++ todos in
  enhanceTodos toLowerCase todoEnhancer enhancedTodos.

Definition implementationTasks (featureName : jsstring) : list TodoItem :=
  [ {| content := lit "Implement feature: " ++ featureName;
       activeForm := lit "Implementing feature: " ++ featureName;
       status := pending |};
    {| content := lit "Write comprehensive tests for " ++ featureName;
       activeForm := lit "Writing comprehensive tests for " ++ featureName;
       status := pending |};
    {| content := lit "Update documentation for " ++ featureName;
       activeForm := lit "Updating documentation for " ++ featureName;
       status := pending |};
    {| content := lit "Generate implementation report";
       activeForm := lit "Generating implementation report";
       status := pending |} ].

Definition enhanceImplementationCommand (args : list jsstring) (todos : list TodoItem)
  : list TodoItem :=
  let featureName := featureOf args in
  let enhancedTodos := implementationTasks featureName ++ todos in
  enhanceTodos toLowerCase todoEnhancer enhancedTodos.

(** [args.join(' ') || 'new project'] *)
Definition descriptionOf (args : list jsstring) : jsstring :=
  match joinWith (lit " ") args with
  | [] => lit "new project"
  | c :: rest => c :: rest
  end.

Definition initTasks (projectDescription : jsstring) : list TodoItem :=
  [ {| content := lit "Initialize project specification: " ++ projectDescription;
       activeForm := lit "Initializing project specification: " ++ projectDescription;
       status := pending |};
    {| content := lit "Create project structure and steering documents";
       activeForm := lit "Creating project structure and steering documents";
       status := pending |};
    {| content := lit "Set up AI coordination workspace";
       activeForm := lit "Setting up AI coordination workspace";
       status := pending |} ].

Definition enhanceInitCommand (args : list jsstring) (todos : list TodoItem)
  : list TodoItem :=
  let projectDescription := descriptionOf args in
  let enhancedTodos := initTasks projectDescription ++ todos in
  enhanceTodos toLowerCase todoEnhancer enhancedTodos.

(** [validateEnhancedTodos] *)
Definition validateEnhancedTodos (todos : list TodoItem) : Validation :=
  validateTodos toLowerCase todoEnhancer todos.

End WithLowerCase.

End SlashCommandEnhancer.

(** ** The build script that puts the interpreter line on the command-line file *)

Module AddShebang.
Import Js Eff Listing.

Section Script.

Context `{FsRead}.

(** [process.cwd()] *)
Variable processCwd : jsstring.

Definition shebang : jsstring := lit "#!/usr/bin/env node".

Definition cliPath : jsstring := join [processCwd; lit "dist"; lit "cli.js"].

(** The three lines that the script can print. *)
Definition added : ConsoleLine := ConsoleLog [lit "✅ Shebang added to cli.js"].

Definition present : ConsoleLine :=
  ConsoleLog [lit "✅ Shebang already present in cli.js"].

Definition warning (error : JsError) : ConsoleLine :=
  ConsoleWarn [lit "⚠️ Could not add shebang to cli.js:"; message error].

(** The whole module [add-shebang.mjs]. *)
Definition main : M unit :=
  tryCatch
    (content <- readFile cliPath ;;
     if negb (startsWith content shebang) then
       let newContent := shebang ++ [0x0A] ++ content in
       writeFile cliPath newContent ;;;
       print added
     else
       print present)
    (reading (lit "message") (fun error => print (warning error))).

End Script.

End AddShebang.

(** ** Sample platforms for these steps *)

Module SampleShell.
Import Js Eff.

Definition notARepository : JsError := mkError (lit "fatal: not a git repository").

(** Node on the sample disk: the import succeeds; every git command
    succeeds when [git] is true and fails otherwise. *)
Definition shell (denied : jsstring -> bool) (git : bool)
  : @PostWorkflow.Shell (Sample.platform denied) :=
  @PostWorkflow.Build_Shell (Sample.platform denied)
    (fun d => (None, d))
    (fun command cwd d => if git then (None, d) else (Some notARepository, d))
    (fun _ => lit "2026-11-02T09:05:00.000Z")
    (fun e => lit "Error: " ++ message e).

(** Node where every [git add] fails and every other command succeeds. *)
Definition addFails : @PostWorkflow.Shell Sample.writable :=
  @PostWorkflow.Build_Shell Sample.writable
    (fun d => (None, d))
    (fun command cwd d =>
       if startsWith command (lit "git add ") then (Some notARepository, d) else (None, d))
    (fun _ => lit "2026-11-02T09:05:00.000Z")
    (fun e => lit "Error: " ++ message e).

(** A disk on which no directory can be made. *)
Definition noDirectories : Platform :=
  {| Env := Sample.Disk;
     fs_mkdir := fun p d => (Some (Sample.accessDenied p), d);
     fs_writeFile := fun p content d =>
       (None, Sample.mkDisk (Sample.dirs d) ((p, content) :: Sample.files d));
     clock := fun _ => mkDate 2026 10 2 9 5;
     join := Sample.posixJoin;
     toLowerCase := asciiLowerCase |}.

Definition noDirectoriesShell : @PostWorkflow.Shell noDirectories :=
  @PostWorkflow.Build_Shell noDirectories
    (fun d => (None, d))
    (fun command cwd d => (None, d))
    (fun _ => lit "2026-11-02T09:05:00.000Z")
    (fun e => lit "Error: " ++ message e).

(** Reading the sample disk: the newest file written under a path;
    every directory is listed as empty. *)
Definition noSuchFile (p : jsstring) : JsError :=
  mkError (lit "ENOENT: no such file or directory, open '" ++ p ++ lit "'").

Fixpoint newest (p : jsstring) (written : list (jsstring * jsstring)) : option jsstring :=
  match written with
  | [] => None
  | (q, content) :: older => if bool_decide (p = q) then Some content else newest p older
  end.

Definition reader (denied : jsstring -> bool) : @Listing.FsRead (Sample.platform denied) :=
  @Listing.Build_FsRead (Sample.platform denied)
    (fun p d => (inr [], d))
    (fun p d => match newest p (Sample.files d) with
                | Some content => (inr content, d)
                | None => (inl (noSuchFile p), d)
                end).

(** A disk with a compiled command-line file. *)
Definition built : @World (Sample.platform Sample.anywhere) :=
  @mkWorld (Sample.platform Sample.anywhere)
    (Sample.mkDisk [lit "/project/dist"]
       [(lit "/project/dist/cli.js", lit "console.log('cc-sdd')")])
    [].

(** The printers of the command line, on the console. *)
Definition consoleIO (P : Platform) : @Cli.CliIO P :=
  @Cli.mkIO P (fun msg => print (ConsoleLog [msg])) (fun msg => print (ConsoleError [msg])).

(** A report in progress. *)
Definition sampleReport : ReportManager.ReportData unit :=
  ReportManager.mkReport Role.gemini Role.claude (lit "Design Phase!!")
    ReportManager.in_progress None None None None None None None None.

(** The orchestrator on the sample disk around [work], with a result that
    has nothing to learn from; the git commands succeed when [git] is true. *)
Definition quietRun (git : bool) (work : @M Sample.writable Z)
  : Outcome Z * @World Sample.writable :=
  @CoreWorkflowEnhancer.enhanceSpecWorkflow Sample.writable Z unit
    (fun _ => []) (fun _ => tt) sampleBody sampleBody (fun _ => ret tt)
    (@PostWorkflow.captureLearningInsights Sample.writable (shell Sample.anywhere git) Z
       (fun _ => false) (fun _ => false) (fun _ => false) (fun _ _ _ _ => []))
    (@PostWorkflow.autoGitCommit Sample.writable (shell Sample.anywhere git) Z
       (fun _ => []) (fun _ => None))
    (@CoreWorkflowEnhancer.constructor Sample.writable (lit "/project"))
    work FailingPhase.context (Sample.start Sample.anywhere).

(** The same on the disk without directories. *)
Definition lockedRun (work : @M noDirectories Z) : Outcome Z * @World noDirectories :=
  @CoreWorkflowEnhancer.enhanceSpecWorkflow noDirectories Z unit
    (fun _ => []) (fun _ => tt) sampleBody sampleBody (fun _ => ret tt)
    (@PostWorkflow.captureLearningInsights noDirectories noDirectoriesShell Z
       (fun _ => false) (fun _ => false) (fun _ => false) (fun _ _ _ _ => []))
    (@PostWorkflow.autoGitCommit noDirectories noDirectoriesShell Z
       (fun _ => []) (fun _ => None))
    (@CoreWorkflowEnhancer.constructor noDirectories (lit "/project"))
    work FailingPhase.context (@mkWorld noDirectories Sample.emptyDisk []).

(** The last phase of the frontend-driven workflow, with a work that
    rejects with "build failed". *)
Definition lastPhase : FDDWorkflowManager.FDDPhase :=
  FDDWorkflowManager.mkPhase FDDWorkflowManager.integration
    (lit "System integration") [lit "Integration tests"] None.

Definition failingPhaseRun (denied : jsstring -> bool)
  : Outcome FDDExecution.PhaseOutcome * @World (Sample.platform denied) :=
  @FDDExecution.executeFDDPhase (Sample.platform denied) unit sampleBody sampleBody
    (fun _ _ => throw FailingPhase.buildFailed) message
    (FDDWorkflowManager.constructor (lit "/project") FDDWorkflowManager.noConfig)
    lastPhase (lit "login") [] (Sample.start denied).

Definition blockedPhaseReportPath : jsstring :=
  lit "/project/docs/reports/FromClaude/claude_from_blocked_202611020905_fdd_integration_phase_for_logi.md".

End SampleShell.

(* ===================================================================== *)
(** * Properties *)
(* ===================================================================== *)

(** ** Strings and arrays *)

Example lit_ascii :
  Js.lit "git commit" = [103; 105; 116; 32; 99; 111; 109; 109; 105; 116].
Proof. reflexivity. Qed.

Example lit_kanji : Js.lit "指示書" = [0x6307; 0x793A; 0x66F8].
Proof. reflexivity. Qed.

Example lit_astral : Js.lit "📋" = [0xD83D; 0xDCCB].
Proof. reflexivity. Qed.

Example toString_examples :
  Js.toString 2026 = Js.lit "2026" /\ Js.toString 0 = Js.lit "0" /\
  Js.toString 1000 = Js.lit "1000" /\ Js.toString (-7) = Js.lit "-7".
Proof. repeat split; reflexivity. Qed.

Section StringFacts.
Import Js.

Lemma startsWith_spec (s t : jsstring) :
  startsWith s t = true <-> exists r, s = t ++ r.
Proof.
  revert s. induction t as [|b t IH]; intros s; simpl.
  - split; [intros _; exists s; reflexivity | reflexivity].
  - destruct s as [|a s].
    + split; [discriminate | intros [r Hr]; discriminate].
    + rewrite andb_true_iff, Z.eqb_eq, IH. split.
      * intros [-> [r ->]]. exists r. reflexivity.
      * intros [r Hr]. injection Hr as -> ->. split; [reflexivity | exists r; reflexivity].
Qed.

(** [s.includes(t)] holds exactly when [t] occurs in [s] as a block. *)
Lemma includes_spec (s t : jsstring) :
  includes s t = true <-> exists l r, s = l ++ t ++ r.
Proof.
  induction s as [|a s IH]; simpl.
  - rewrite orb_false_r, startsWith_spec. split.
    + intros [r Hr]. exists [], r. exact Hr.
    + intros [l [r Hr]]. destruct l; [exists r; exact Hr|discriminate].
  - rewrite orb_true_iff, startsWith_spec, IH. split.
    + intros [[r Hr] | [l [r Hr]]].
      * exists [], r. exact Hr.
      * exists (a :: l), r. simpl. rewrite Hr. reflexivity.
    + intros [l [r Hr]]. destruct l as [|a' l].
      * left. exists r. exact Hr.
      * right. injection Hr as -> ->. exists l, r. reflexivity.
Qed.

Lemma includes_trans (s t u : jsstring) :
  includes s t = true -> includes t u = true -> includes s u = true.
Proof.
  rewrite !includes_spec. intros [l [r ->]] [l' [r' ->]].
  exists (l ++ l'), (r' ++ r). rewrite <- !app_assoc. reflexivity.
Qed.

Lemma includes_refines (s t u : jsstring) :
  includes t u = true -> includes s u = false -> includes s t = false.
Proof.
  intros Htu Hsu. destruct (includes s t) eqn:Hst; [|reflexivity].
  rewrite (includes_trans s t u Hst Htu) in Hsu. discriminate.
Qed.

End StringFacts.

Section ArrayFacts.

Context {A : Type}.
Implicit Types (p : A -> bool) (a : list A).

Lemma findIndex_ge p a : -1 <= Arr.findIndex p a.
Proof.
  induction a as [|x a IH]; simpl; [lia|].
  destruct (p x); [lia|]. destruct (Z.ltb_spec (Arr.findIndex p a) 0); lia.
Qed.

Lemma findIndex_none p a :
  (forall x, In x a -> p x = false) -> Arr.findIndex p a = -1.
Proof.
  induction a as [|x a IH]; intros Hno; simpl; [reflexivity|].
  rewrite (Hno x (or_introl eq_refl)), IH by (intros y Hy; apply Hno; right; exact Hy).
  reflexivity.
Qed.

Lemma findIndex_first p before x after :
  (forall y, In y before -> p y = false) -> p x = true ->
  Arr.findIndex p (before ++ x :: after) = Z.of_nat (length before).
Proof.
  induction before as [|y before IH]; intros Hno Hx; simpl.
  - rewrite Hx. reflexivity.
  - rewrite (Hno y (or_introl eq_refl)).
    rewrite IH by (try assumption; intros z Hz; apply Hno; right; exact Hz).
    destruct (Z.ltb_spec (Z.of_nat (length before)) 0); lia.
Qed.

(** When [findIndex] answers an index, the array splits there. *)
Lemma findIndex_split p a :
  -1 < Arr.findIndex p a ->
  exists before x after,
    a = before ++ x :: after /\ (forall y, In y before -> p y = false) /\
    p x = true /\ Arr.findIndex p a = Z.of_nat (length before).
Proof.
  induction a as [|x a IH]; simpl; [lia|].
  destruct (p x) eqn:Hx.
  - intros _. exists [], x, a. repeat split; [intros y []|exact Hx].
  - destruct (Z.ltb_spec (Arr.findIndex p a) 0) as [Hlt|Hge]; [lia|].
    intros _. destruct IH as (before & y & after & -> & Hno & Hy & Hi); [lia|].
    exists (x :: before), y, after. repeat split; [|exact Hy|simpl length; lia].
    intros z [<-|Hz]; [exact Hx|apply Hno; exact Hz].
Qed.

Lemma splice0_at_length a b x :
  Arr.splice0 (a ++ b) (Z.of_nat (length a)) x = a ++ x :: b.
Proof.
  unfold Arr.splice0. rewrite Nat2Z.id, take_app_length, drop_app_length. reflexivity.
Qed.

Lemma push_sublist a x : a `sublist_of` Arr.push a x.
Proof. apply sublist_inserts_r. reflexivity. Qed.

Lemma splice0_sublist a i x : a `sublist_of` Arr.splice0 a i x.
Proof.
  unfold Arr.splice0. rewrite <- (take_drop (Z.to_nat i) a) at 1.
  apply sublist_app; [reflexivity|]. apply sublist_cons. reflexivity.
Qed.

End ArrayFacts.

(** ** Todo rule engine: what holds for every case mapping *)

Section RuleEngine.
Import Js TodoEnhancer.

Variable toLowerCase : jsstring -> jsstring.

Local Abbreviation addGitCommitRule := (TodoEnhancer.addGitCommitRule toLowerCase).
Local Abbreviation addLearningCapture := (TodoEnhancer.addLearningCapture toLowerCase).
Local Abbreviation enhanceTodos := (TodoEnhancer.enhanceTodos toLowerCase).

(** Each rule returns its argument or adds one item to it. *)
Lemma addGitCommitRule_cases (todos : list TodoItem) :
  addGitCommitRule todos = todos \/ addGitCommitRule todos = todos ++ [gitCommitTask].
Proof.
  unfold TodoEnhancer.addGitCommitRule.
  destruct (hasDocumentCreation _ _); [|left; reflexivity].
  destruct (hasGitCommit _ _); simpl; [left|right]; reflexivity.
Qed.

Lemma addLearningCapture_cases (todos : list TodoItem) :
  addLearningCapture todos = todos \/
  exists i, addLearningCapture todos = take i todos ++ learningTask :: drop i todos.
Proof.
  unfold TodoEnhancer.addLearningCapture.
  destruct (hasLearningOpportunity _ _); [|left; reflexivity].
  destruct (hasLearningTask _ _); simpl; [left; reflexivity|right].
  destruct (_ >? -1).
  - eexists. reflexivity.
  - exists (length todos). rewrite take_ge, drop_ge by lia. reflexivity.
Qed.

Lemma addGitCommitRule_sublist (todos : list TodoItem) :
  todos `sublist_of` addGitCommitRule todos.
Proof.
  destruct (addGitCommitRule_cases todos) as [-> | ->]; [reflexivity|].
  apply push_sublist.
Qed.

Lemma addLearningCapture_sublist (todos : list TodoItem) :
  todos `sublist_of` addLearningCapture todos.
Proof.
  destruct (addLearningCapture_cases todos) as [-> | [i ->]]; [reflexivity|].
  rewrite <- (take_drop i todos) at 1.
  apply sublist_app; [reflexivity|]. apply sublist_cons. reflexivity.
Qed.

Lemma enhanceTodos_sublist (this : TodoEnhancer.t) (todos : list TodoItem) :
  todos `sublist_of` enhanceTodos this todos.
Proof.
  unfold TodoEnhancer.enhanceTodos.
  destruct (_ && _); destruct (truthy (autoLearningCapture _)); try reflexivity.
  - etransitivity; [apply addGitCommitRule_sublist | apply addLearningCapture_sublist].
  - apply addGitCommitRule_sublist.
  - apply addLearningCapture_sublist.
Qed.

(** C9. For every todo list, every option setting and whatever the case
    mapping does, [enhanceTodos] (a total function) returns a list at least
    as long as its argument in which every item of the argument appears, in
    the original relative order: items are only added. *)
Theorem enhanceTodos_only_adds (this : TodoEnhancer.t) (todos : list TodoItem) :
  (length todos <= length (enhanceTodos this todos))%nat /\
  todos `sublist_of` enhanceTodos this todos.
Proof.
  split; [apply sublist_length|]; apply enhanceTodos_sublist.
Qed.

(** *** The engine on the store *)

Implicit Types (h : gmap positive (list TodoItem)) (r : TodoArrays.ref).

Lemma pushArr_run h r a x :
  h !! r = Some a ->
  TodoArrays.pushArr r x h = Some (tt, <[r := Arr.push a x]> h).
Proof.
  intros Hr. unfold TodoArrays.pushArr, TodoArrays.bindH, TodoArrays.readArr.
  rewrite Hr. reflexivity.
Qed.

Lemma spliceArr_run h r a i x :
  h !! r = Some a ->
  TodoArrays.spliceArr r i x h = Some (tt, <[r := Arr.splice0 a i x]> h).
Proof.
  intros Hr. unfold TodoArrays.spliceArr, TodoArrays.bindH, TodoArrays.readArr.
  rewrite Hr. reflexivity.
Qed.

(** Each rule returns the reference it was given, and the array behind it
    now holds what the rule computes from its former contents. *)
Lemma addGitCommitRule_run h r a :
  h !! r = Some a ->
  TodoArrays.addGitCommitRule toLowerCase r h =
    Some (r, <[r := addGitCommitRule a]> h).
Proof.
  intros Hr.
  unfold TodoArrays.addGitCommitRule, TodoEnhancer.addGitCommitRule.
  unfold TodoArrays.bindH at 1. unfold TodoArrays.readArr. rewrite Hr.
  destruct (hasDocumentCreation _ _); [destruct (hasGitCommit _ _); simpl|].
  - unfold TodoArrays.retH. rewrite insert_id by exact Hr. reflexivity.
  - unfold TodoArrays.bindH. rewrite (pushArr_run h r a) by exact Hr. reflexivity.
  - unfold TodoArrays.retH. rewrite insert_id by exact Hr. reflexivity.
Qed.

Lemma addLearningCapture_run h r a :
  h !! r = Some a ->
  TodoArrays.addLearningCapture toLowerCase r h =
    Some (r, <[r := addLearningCapture a]> h).
Proof.
  intros Hr.
  unfold TodoArrays.addLearningCapture, TodoEnhancer.addLearningCapture.
  unfold TodoArrays.bindH at 1. unfold TodoArrays.readArr. rewrite Hr.
  destruct (hasLearningOpportunity _ _);
    [destruct (hasLearningTask _ _); simpl; [|destruct (_ >? -1)]|].
  - unfold TodoArrays.retH. rewrite insert_id by exact Hr. reflexivity.
  - unfold TodoArrays.bindH. rewrite (spliceArr_run h r a) by exact Hr. reflexivity.
  - unfold TodoArrays.bindH. rewrite (pushArr_run h r a) by exact Hr. reflexivity.
  - unfold TodoArrays.retH. rewrite insert_id by exact Hr. reflexivity.
Qed.

(** [enhanceTodos] allocates a copy, runs the rules on the copy and returns
    it; its contents are what the function on lists computes. *)
Lemma enhanceTodos_run (this : TodoEnhancer.t) h r a :
  h !! r = Some a ->
  TodoArrays.enhanceTodos toLowerCase this r h =
    Some (fresh (dom h), <[fresh (dom h) := enhanceTodos this a]> h).
Proof.
  intros Hr. unfold TodoArrays.enhanceTodos, TodoEnhancer.enhanceTodos.
  unfold TodoArrays.bindH at 1. unfold TodoArrays.copyArr. rewrite Hr.
  set (c := fresh (dom h)).
  assert (Hc : forall b, <[c := b]> h !! c = Some b) by (intros b; apply lookup_insert_eq).
  unfold TodoArrays.bindH.
  destruct (_ && _).
  - rewrite (addGitCommitRule_run _ c a) by apply Hc. rewrite insert_insert_eq.
    destruct (truthy (autoLearningCapture _)).
    + rewrite (addLearningCapture_run _ c _) by apply Hc.
      rewrite insert_insert_eq. reflexivity.
    + reflexivity.
  - unfold TodoArrays.retH at 1.
    destruct (truthy (autoLearningCapture _)).
    + rewrite (addLearningCapture_run _ c a) by apply Hc.
      rewrite insert_insert_eq. reflexivity.
    + reflexivity.
Qed.

(** C10. [enhanceTodos] leaves the caller's array alone: called with a
    reference [todos] to an array holding [a], it returns a different
    reference; afterwards [todos] still holds [a] (same items, same order),
    the returned array holds the enhanced list, and no other array of the
    store has changed. *)
Theorem enhanceTodos_does_not_mutate_argument
    (this : TodoEnhancer.t) h (todos : TodoArrays.ref) (a : list TodoItem) :
  h !! todos = Some a ->
  exists (enhanced : TodoArrays.ref) h',
    TodoArrays.enhanceTodos toLowerCase this todos h = Some (enhanced, h') /\
    enhanced <> todos /\
    h !! enhanced = None /\
    h' !! todos = Some a /\
    h' !! enhanced = Some (enhanceTodos this a) /\
    forall r, r <> enhanced -> h' !! r = h !! r.
Proof.
  intros Hr. pose proof (enhanceTodos_run this h todos a Hr) as Hrun.
  pose proof (is_fresh (dom h)) as Hfresh. rewrite not_elem_of_dom in Hfresh.
  revert Hrun Hfresh. generalize (fresh (dom h)). intros c Hrun Hfresh.
  assert (Hne : c <> todos).
  { intros ->. pose proof (eq_trans (eq_sym Hr) Hfresh) as Habs. discriminate Habs. }
  exists c, (<[c := enhanceTodos this a]> h).
  split; [exact Hrun|]. split; [exact Hne|]. split; [exact Hfresh|].
  split; [rewrite lookup_insert_ne by exact Hne; exact Hr|].
  split; [apply lookup_insert_eq|].
  intros r Hrne. apply lookup_insert_ne. intros ->. apply Hrne. reflexivity.
Qed.

End RuleEngine.

(** ** Todo rule engine: plain text

    On todo lists whose contents are plain text, every call of the case
    mapping is determined by [LowerCaseSpec], and the engine computes. *)

Section RuleEnginePlain.
Import Js TodoEnhancer.

Variable toLowerCase : jsstring -> jsstring.
Hypothesis toLowerCase_plain : LowerCaseSpec toLowerCase.

Lemma some_ext {A} (p q : A -> bool) (a : list A) :
  (forall x, In x a -> p x = q x) -> Arr.some p a = Arr.some q a.
Proof.
  unfold Arr.some. induction a as [|x a IH]; intros Hpq; simpl; [reflexivity|].
  rewrite (Hpq x (or_introl eq_refl)), IH by (intros y Hy; apply Hpq; right; exact Hy).
  reflexivity.
Qed.

Lemma findIndex_ext {A} (p q : A -> bool) (a : list A) :
  (forall x, In x a -> p x = q x) -> Arr.findIndex p a = Arr.findIndex q a.
Proof.
  induction a as [|x a IH]; intros Hpq; simpl; [reflexivity|].
  rewrite (Hpq x (or_introl eq_refl)), IH by (intros y Hy; apply Hpq; right; exact Hy).
  reflexivity.
Qed.

Lemma plainTodos_In todos todo :
  plainTodos todos = true -> In todo todos -> plain (content todo) = true.
Proof.
  unfold plainTodos. rewrite forallb_forall. intros Hall Hin. apply Hall, Hin.
Qed.

Lemma contentIncludes_plain k todo :
  plain (content todo) = true ->
  contentIncludes toLowerCase k todo = contentIncludes asciiLowerCase k todo.
Proof. intros Hp. unfold contentIncludes. rewrite (toLowerCase_plain _ Hp). reflexivity. Qed.

Lemma matchesAny_plain keywords todo :
  forallb plain keywords = true -> plain (content todo) = true ->
  matchesAny toLowerCase keywords todo = matchesAny asciiLowerCase keywords todo.
Proof.
  intros Hk Hp. unfold matchesAny. apply some_ext. intros k Hin.
  rewrite forallb_forall in Hk. rewrite (toLowerCase_plain k (Hk k Hin)).
  apply contentIncludes_plain, Hp.
Qed.

Ltac plain_some Hp :=
  apply some_ext; intros todo Hin;
  pose proof (plainTodos_In _ _ Hp Hin);
  rewrite ?matchesAny_plain, ?contentIncludes_plain by (assumption || reflexivity);
  reflexivity.

Lemma hasDocumentCreation_plain todos :
  plainTodos todos = true ->
  hasDocumentCreation toLowerCase todos = hasDocumentCreation asciiLowerCase todos.
Proof. intros Hp. unfold hasDocumentCreation. plain_some Hp. Qed.

Lemma hasGitCommit_plain todos :
  plainTodos todos = true ->
  hasGitCommit toLowerCase todos = hasGitCommit asciiLowerCase todos.
Proof. intros Hp. unfold hasGitCommit. plain_some Hp. Qed.

Lemma hasLearningOpportunity_plain todos :
  plainTodos todos = true ->
  hasLearningOpportunity toLowerCase todos = hasLearningOpportunity asciiLowerCase todos.
Proof. intros Hp. unfold hasLearningOpportunity. plain_some Hp. Qed.

Lemma hasLearningTask_plain todos :
  plainTodos todos = true ->
  hasLearningTask toLowerCase todos = hasLearningTask asciiLowerCase todos.
Proof. intros Hp. unfold hasLearningTask. plain_some Hp. Qed.

Lemma addGitCommitRule_plain todos :
  plainTodos todos = true ->
  addGitCommitRule toLowerCase todos = addGitCommitRule asciiLowerCase todos.
Proof.
  intros Hp. unfold addGitCommitRule.
  rewrite hasDocumentCreation_plain, hasGitCommit_plain by exact Hp. reflexivity.
Qed.

Lemma addLearningCapture_plain todos :
  plainTodos todos = true ->
  addLearningCapture toLowerCase todos = addLearningCapture asciiLowerCase todos.
Proof.
  intros Hp. unfold addLearningCapture.
  rewrite hasLearningOpportunity_plain, hasLearningTask_plain by exact Hp.
  rewrite (findIndex_ext (contentIncludes toLowerCase (lit "git commit"))
             (contentIncludes asciiLowerCase (lit "git commit")));
    [reflexivity|].
  intros todo Hin. apply contentIncludes_plain, (plainTodos_In _ _ Hp Hin).
Qed.

(** The rules add plain items only. *)
Lemma addGitCommitRule_keeps_plain lower todos :
  plainTodos todos = true -> plainTodos (addGitCommitRule lower todos) = true.
Proof.
  intros Hp. destruct (addGitCommitRule_cases lower todos) as [-> | ->]; [exact Hp|].
  unfold plainTodos. rewrite forallb_app. fold (plainTodos todos). rewrite Hp. reflexivity.
Qed.

Lemma addLearningCapture_keeps_plain lower todos :
  plainTodos todos = true -> plainTodos (addLearningCapture lower todos) = true.
Proof.
  intros Hp. destruct (addLearningCapture_cases lower todos) as [-> | [i ->]]; [exact Hp|].
  revert Hp. rewrite <- (take_drop i todos) at 1. unfold plainTodos.
  rewrite !forallb_app. simpl. rewrite !andb_true_iff. intros [-> ->].
  split; reflexivity.
Qed.

Lemma enhanceTodos_plain this todos :
  plainTodos todos = true ->
  enhanceTodos toLowerCase this todos = enhanceTodos asciiLowerCase this todos.
Proof.
  intros Hp. unfold enhanceTodos.
  destruct (_ && _); destruct (truthy (autoLearningCapture _)); try reflexivity.
  - rewrite addGitCommitRule_plain by exact Hp.
    apply addLearningCapture_plain, addGitCommitRule_keeps_plain, Hp.
  - apply addGitCommitRule_plain, Hp.
  - apply addLearningCapture_plain, Hp.
Qed.

Lemma enhanceTodos_keeps_plain lower this todos :
  plainTodos todos = true -> plainTodos (enhanceTodos lower this todos) = true.
Proof.
  intros Hp. unfold enhanceTodos.
  destruct (_ && _); destruct (truthy (autoLearningCapture _)); try exact Hp.
  - apply addLearningCapture_keeps_plain, addGitCommitRule_keeps_plain, Hp.
  - apply addGitCommitRule_keeps_plain, Hp.
  - apply addLearningCapture_keeps_plain, Hp.
Qed.

Lemma validateTodos_plain this todos :
  plainTodos todos = true ->
  validateTodos toLowerCase this todos = validateTodos asciiLowerCase this todos.
Proof.
  intros Hp. unfold validateTodos.
  rewrite (hasLearningTask_plain todos Hp).
  rewrite (some_ext (contentIncludes toLowerCase (lit "git commit"))
             (contentIncludes asciiLowerCase (lit "git commit")))
    by (intros todo Hin; apply contentIncludes_plain, (plainTodos_In _ _ Hp Hin)).
  rewrite (some_ext (matchesAny toLowerCase [lit "指示書"; lit "instruction"; lit "report"; lit "報告書"])
             (matchesAny asciiLowerCase [lit "指示書"; lit "instruction"; lit "report"; lit "報告書"]))
    by (intros todo Hin; apply matchesAny_plain;
        [reflexivity | apply (plainTodos_In _ _ Hp Hin)]).
  rewrite (some_ext (matchesAny toLowerCase [lit "implement"; lit "fix"; lit "design";
                              lit "実装"; lit "修正"; lit "設計"])
             (matchesAny asciiLowerCase [lit "implement"; lit "fix"; lit "design";
                              lit "実装"; lit "修正"; lit "設計"]))
    by (intros todo Hin; apply matchesAny_plain;
        [reflexivity | apply (plainTodos_In _ _ Hp Hin)]).
  reflexivity.
Qed.

End RuleEnginePlain.

(** ** Todo rule engine: the rules at work *)

Lemma asciiLowerCase_spec : Js.LowerCaseSpec Js.asciiLowerCase.
Proof. intros s _. reflexivity. Qed.

Section RulesAtWork.
Import Js TodoEnhancer.

Variable toLowerCase : jsstring -> jsstring.
Hypothesis toLowerCase_plain : LowerCaseSpec toLowerCase.

Local Abbreviation enhance := (enhanceTodos toLowerCase TodoEnhancer.defaultEnhancer).
Local Abbreviation validate := (validateTodos toLowerCase TodoEnhancer.defaultEnhancer).

(** C1, at the list [[Implement feature X]].  The first pass adds the
    learning-capture item only.  That item ("... learning ... patterns") is
    itself a document-creation item for the commit rule, which has already
    run: the list returned by one pass has a document item and no commit
    item, and a second pass adds the commit item.  Two passes differ from
    one. *)
Theorem enhanceTodos_twice_differs :
  enhance [implementTask] = [implementTask; learningTask] /\
  hasDocumentCreation toLowerCase (enhance [implementTask]) = true /\
  hasGitCommit toLowerCase (enhance [implementTask]) = false /\
  enhance (enhance [implementTask]) = [implementTask; learningTask; gitCommitTask] /\
  enhance (enhance [implementTask]) <> enhance [implementTask].
Proof.
  assert (H1 : enhance [implementTask] = [implementTask; learningTask]).
  { rewrite (enhanceTodos_plain _ toLowerCase_plain) by reflexivity. reflexivity. }
  assert (H2 : enhance (enhance [implementTask]) =
               [implementTask; learningTask; gitCommitTask]).
  { rewrite H1. rewrite (enhanceTodos_plain _ toLowerCase_plain) by reflexivity.
    reflexivity. }
  split; [exact H1|]. rewrite H2, H1.
  split; [rewrite (hasDocumentCreation_plain _ toLowerCase_plain) by reflexivity;
          reflexivity|].
  split; [rewrite (hasGitCommit_plain _ toLowerCase_plain) by reflexivity;
          reflexivity|].
  split; [reflexivity|discriminate].
Qed.

(** C2, at the list [[Write report; Commit changes]].  The commit rule
    accepts any item containing "commit" as the existing commit task and adds
    nothing; validation asks for an item containing "git commit" and reports
    a violation on the enhanced list.  So [autoFixTodos], which answers a
    failed validation with [enhanceTodos], returns a list that fails it
    again. *)
Theorem validateTodos_rejects_enhanced :
  enhance [reportTask; commitTask] = [reportTask; commitTask] /\
  validate (enhance [reportTask; commitTask]) =
    {| valid := false;
       violations := [lit "Document creation tasks must include git commit task"] |} /\
  valid (validate (autoFixTodos toLowerCase defaultEnhancer [reportTask; commitTask])) =
    false.
Proof.
  assert (H1 : enhance [reportTask; commitTask] = [reportTask; commitTask]).
  { rewrite (enhanceTodos_plain _ toLowerCase_plain) by reflexivity. reflexivity. }
  assert (H2 : validate [reportTask; commitTask] =
    {| valid := false;
       violations := [lit "Document creation tasks must include git commit task"] |}).
  { rewrite (validateTodos_plain _ toLowerCase_plain) by reflexivity. reflexivity. }
  split; [exact H1|]. rewrite H1. split; [exact H2|].
  unfold autoFixTodos. cbv zeta. rewrite H2. unfold valid at 2. unfold negb.
  rewrite H1, H2. reflexivity.
Qed.

(** C7.  (1) For [[Implement feature X; Git commit documentation changes]]
    (whatever the other fields of the two items) the enhanced list is the
    implement item, the learning-capture item, the commit item.  (2) When
    the learning rule fires on a list, the new item goes immediately before
    the first item whose lower-cased content includes "git commit", and
    (3) at the end when there is no such item. *)
Theorem learning_capture_goes_before_git_commit :
  (forall a1 s1 a2 s2,
     let implement := mkTodo (lit "Implement feature X") a1 s1 in
     let commit := mkTodo (lit "Git commit documentation changes") a2 s2 in
     enhance [implement; commit] = [implement; learningTask; commit]) /\
  (forall before x after,
     hasLearningOpportunity toLowerCase (before ++ x :: after) = true ->
     hasLearningTask toLowerCase (before ++ x :: after) = false ->
     (forall y, In y before -> contentIncludes toLowerCase (lit "git commit") y = false) ->
     contentIncludes toLowerCase (lit "git commit") x = true ->
     addLearningCapture toLowerCase (before ++ x :: after) =
       before ++ learningTask :: x :: after) /\
  (forall todos,
     hasLearningOpportunity toLowerCase todos = true ->
     hasLearningTask toLowerCase todos = false ->
     (forall y, In y todos -> contentIncludes toLowerCase (lit "git commit") y = false) ->
     addLearningCapture toLowerCase todos = todos ++ [learningTask]).
Proof.
  split; [|split].
  - intros a1 s1 a2 s2 implement commit.
    rewrite (enhanceTodos_plain _ toLowerCase_plain) by reflexivity. reflexivity.
  - intros before x after Hopp Htask Hno Hx. unfold addLearningCapture.
    rewrite Hopp, Htask. simpl negb. cbv iota.
    rewrite (findIndex_first _ before x after Hno Hx).
    destruct (Z.gtb_spec (Z.of_nat (length before)) (-1)) as [_|Hle]; [|lia].
    apply splice0_at_length.
  - intros todos Hopp Htask Hno. unfold addLearningCapture.
    rewrite Hopp, Htask. simpl negb. cbv iota.
    rewrite (findIndex_none _ todos Hno). reflexivity.
Qed.

(** *** The commit rule on a list with an instruction document *)

Lemma gitCommitTask_content k :
  contentIncludes toLowerCase k gitCommitTask =
  includes (lit "git commit documentation changes") k.
Proof. unfold contentIncludes. rewrite toLowerCase_plain by reflexivity. reflexivity. Qed.

Lemma gitCommitTask_no_trigger : matchesAny toLowerCase learningTriggers gitCommitTask = false.
Proof. rewrite matchesAny_plain by (assumption || reflexivity). reflexivity. Qed.

Lemma some_push {A} (p : A -> bool) a x :
  Arr.some p (Arr.push a x) = Arr.some p a || p x.
Proof.
  unfold Arr.some, Arr.push. rewrite existsb_app. simpl. rewrite orb_false_r. reflexivity.
Qed.

Lemma some_false {A} (p : A -> bool) a :
  (forall x, In x a -> p x = false) -> Arr.some p a = false.
Proof.
  intros Hno. unfold Arr.some. destruct (existsb p a) eqn:He; [|reflexivity].
  apply existsb_exists in He as (x & Hin & Hx). rewrite (Hno x Hin) in Hx. discriminate.
Qed.

Lemma some_true {A} (p : A -> bool) a x :
  In x a -> p x = true -> Arr.some p a = true.
Proof. intros Hin Hx. apply existsb_exists. exists x. split; assumption. Qed.

(** C6, with the number of added items made exact.  Let [todos] contain an item with content "Create
    instruction doc" and no item whose lower-cased content includes
    "commit".  Then the enhanced list is [todos] followed by the commit item
    [{content: "Git commit documentation changes", activeForm: "Committing
    documentation changes", status: pending}], which is its last item; the
    learning-capture item stands just before it exactly when the learning
    rule fires on [todos] (some item matches a learning trigger and none
    matches "learning" or "学習").  So the list has one more item than
    [todos] when the learning rule does not fire, and two more when it
    does. *)
Theorem commit_rule_appends_commit_item (todos : list TodoItem) (doc : TodoItem) :
  In doc todos ->
  content doc = lit "Create instruction doc" ->
  (forall todo, In todo todos -> contentIncludes toLowerCase (lit "commit") todo = false) ->
  let learns :=
    hasLearningOpportunity toLowerCase todos && negb (hasLearningTask toLowerCase todos) in
  enhance todos = todos ++ (if learns then [learningTask] else []) ++ [gitCommitTask] /\
  last (enhance todos) =
    Some {| content := lit "Git commit documentation changes";
            activeForm := lit "Committing documentation changes";
            status := pending |} /\
  length (enhance todos) = (length todos + (if learns then 2 else 1))%nat.
Proof.
  intros Hin Hdoc Hno learns.
  assert (Hno' : forall todo, In todo todos ->
            contentIncludes toLowerCase (lit "git commit") todo = false).
  { intros todo Ht. unfold contentIncludes.
    apply (includes_refines _ _ (lit "commit")); [reflexivity | apply Hno, Ht]. }
  assert (Hdc : hasDocumentCreation toLowerCase todos = true).
  { apply (some_true _ _ doc Hin). apply (some_true _ _ (lit "instruction")).
    - right. left. reflexivity.
    - unfold contentIncludes. rewrite Hdoc, !toLowerCase_plain by reflexivity.
      reflexivity. }
  assert (Hgc : hasGitCommit toLowerCase todos = false).
  { apply some_false. intros todo Ht. rewrite (Hno todo Ht), (Hno' todo Ht). reflexivity. }
  assert (Hrule1 : addGitCommitRule toLowerCase todos = Arr.push todos gitCommitTask).
  { unfold addGitCommitRule. rewrite Hdc, Hgc. reflexivity. }
  assert (Hopp : hasLearningOpportunity toLowerCase (Arr.push todos gitCommitTask) =
                 hasLearningOpportunity toLowerCase todos).
  { unfold hasLearningOpportunity. rewrite some_push, gitCommitTask_no_trigger.
    apply orb_false_r. }
  assert (Htask : hasLearningTask toLowerCase (Arr.push todos gitCommitTask) =
                  hasLearningTask toLowerCase todos).
  { unfold hasLearningTask. rewrite some_push, !gitCommitTask_content.
    apply orb_false_r. }
  assert (Henh : enhance todos =
                 todos ++ (if learns then [learningTask] else []) ++ [gitCommitTask]).
  { unfold enhanceTodos. simpl truthy. simpl andb. cbv iota.
    rewrite Hrule1. unfold addLearningCapture. rewrite Hopp, Htask. subst learns.
    destruct (hasLearningOpportunity toLowerCase todos); [|reflexivity].
    destruct (hasLearningTask toLowerCase todos); [reflexivity|]. simpl.
    unfold Arr.push.
    rewrite (findIndex_first _ todos gitCommitTask [] Hno')
      by (rewrite gitCommitTask_content; reflexivity).
    destruct (Z.gtb_spec (Z.of_nat (length todos)) (-1)) as [_|Hle]; [|lia].
    apply splice0_at_length. }
  split; [exact Henh|]. rewrite Henh. split.
  - rewrite app_assoc, last_snoc. reflexivity.
  - rewrite !length_app. destruct learns; simpl; lia.
Qed.

End RulesAtWork.

(** Witnesses: the rules at work under the ASCII case mapping. *)

Lemma enhanceTodos_twice_differs_witness :
  Js.LowerCaseSpec Js.asciiLowerCase /\
  TodoEnhancer.enhanceTodos Js.asciiLowerCase TodoEnhancer.defaultEnhancer
    (TodoEnhancer.enhanceTodos Js.asciiLowerCase TodoEnhancer.defaultEnhancer [implementTask]) <>
  TodoEnhancer.enhanceTodos Js.asciiLowerCase TodoEnhancer.defaultEnhancer [implementTask].
Proof.
  split; [exact asciiLowerCase_spec|].
  apply (enhanceTodos_twice_differs Js.asciiLowerCase asciiLowerCase_spec).
Defined.

Lemma validateTodos_rejects_enhanced_witness :
  Js.LowerCaseSpec Js.asciiLowerCase /\
  TodoEnhancer.valid
    (TodoEnhancer.validateTodos Js.asciiLowerCase TodoEnhancer.defaultEnhancer
       (TodoEnhancer.enhanceTodos Js.asciiLowerCase TodoEnhancer.defaultEnhancer
          [reportTask; commitTask])) = false.
Proof.
  split; [exact asciiLowerCase_spec|].
  destruct (validateTodos_rejects_enhanced Js.asciiLowerCase asciiLowerCase_spec)
    as (_ & -> & _).
  reflexivity.
Defined.

Lemma learning_capture_goes_before_git_commit_witness :
  Js.LowerCaseSpec Js.asciiLowerCase /\
  TodoEnhancer.enhanceTodos Js.asciiLowerCase TodoEnhancer.defaultEnhancer
    [implementTask;
     TodoEnhancer.mkTodo (Js.lit "Git commit documentation changes")
       (Js.lit "Committing") TodoEnhancer.in_progress] =
    [implementTask; TodoEnhancer.learningTask;
     TodoEnhancer.mkTodo (Js.lit "Git commit documentation changes")
       (Js.lit "Committing") TodoEnhancer.in_progress].
Proof.
  split; [exact asciiLowerCase_spec|].
  exact (proj1 (learning_capture_goes_before_git_commit Js.asciiLowerCase
                  asciiLowerCase_spec) _ _ _ _).
Defined.

Lemma commit_rule_appends_commit_item_witness :
  In instructionDocTask [instructionDocTask] /\
  TodoEnhancer.content instructionDocTask = Js.lit "Create instruction doc" /\
  TodoEnhancer.enhanceTodos Js.asciiLowerCase TodoEnhancer.defaultEnhancer [instructionDocTask] =
    [instructionDocTask; TodoEnhancer.gitCommitTask].
Proof.
  split; [left; reflexivity|]. split; [reflexivity|].
  apply (commit_rule_appends_commit_item Js.asciiLowerCase asciiLowerCase_spec
           [instructionDocTask] instructionDocTask).
  - left. reflexivity.
  - reflexivity.
  - intros todo [<-|[]]. reflexivity.
Defined.

(** C6 does not hold with "exactly one more item":
    [[Create instruction doc; Implement feature X]]
    contains the document item and no item with "commit", and the enhanced
    list has two more items (the learning-capture item and the commit
    item), not one. *)
Lemma commit_rule_one_more_item_fails :
  In instructionDocTask docAndImplement /\
  (forall todo, In todo docAndImplement ->
     TodoEnhancer.contentIncludes Js.asciiLowerCase (Js.lit "commit") todo = false) /\
  TodoEnhancer.enhanceTodos Js.asciiLowerCase TodoEnhancer.defaultEnhancer
    docAndImplement =
    [instructionDocTask; implementTask;
     TodoEnhancer.learningTask; TodoEnhancer.gitCommitTask] /\
  length (TodoEnhancer.enhanceTodos Js.asciiLowerCase TodoEnhancer.defaultEnhancer
            docAndImplement) <>
    S (length docAndImplement).
Proof.
  split; [left; reflexivity|]. split; [|split].
  - intros todo [<-|[<-|[]]]; reflexivity.
  - vm_compute. reflexivity.
  - intros Heq. vm_compute in Heq. discriminate Heq.
Qed.

(** ** Slug of a task *)

Section Slug.
Import Js Helpers.

Lemma replaceRuns_unit cls r inRun c s :
  cls c = false -> replaceRuns cls r inRun (c :: s) = c :: replaceRuns cls r false s.
Proof. intros Hc. simpl. rewrite Hc. reflexivity. Qed.

Lemma replaceRuns_inside cls r run s :
  forallb cls run = true ->
  replaceRuns cls r true (run ++ s) = replaceRuns cls r true s.
Proof.
  induction run as [|c run IH]; simpl; [reflexivity|].
  rewrite andb_true_iff. intros [-> Hrun]. apply IH, Hrun.
Qed.

Lemma replaceRuns_boundary cls r s :
  startsOutside cls s = true -> replaceRuns cls r true s = replaceRuns cls r false s.
Proof.
  destruct s as [|c s]; simpl; [reflexivity|].
  rewrite negb_true_iff. intros ->. reflexivity.
Qed.

(** A maximal run of the class becomes one [r]. *)
Lemma replaceRuns_run cls r run s :
  run <> [] -> forallb cls run = true -> startsOutside cls s = true ->
  replaceRuns cls r false (run ++ s) = r ++ replaceRuns cls r false s.
Proof.
  destruct run as [|c run]; [congruence|]. intros _. simpl.
  rewrite andb_true_iff. intros [-> Hrun] Hs.
  rewrite replaceRuns_inside by exact Hrun.
  rewrite replaceRuns_boundary by exact Hs. reflexivity.
Qed.

Lemma slugUnit_not_space c :
  slugUnit c = true -> isWhiteSpace c = false -> slugChar c = true /\ (c =? 0x5F) = false.
Proof.
  unfold slugUnit, slugChar, isLowerAZ, isDigit. intros Hs Hw. rewrite Hw, orb_false_r in Hs.
  split; [rewrite Hs; reflexivity|]. lia.
Qed.

Lemma replaceRuns_slugChars inRun s :
  forallb slugUnit s = true ->
  forallb slugChar (replaceRuns isWhiteSpace underscore inRun s) = true.
Proof.
  revert inRun. induction s as [|c s IH]; intros inRun; simpl; [reflexivity|].
  rewrite andb_true_iff. intros [Hc Hs].
  destruct (isWhiteSpace c) eqn:Hw.
  - destruct inRun; simpl; apply IH, Hs.
  - simpl. rewrite (proj1 (slugUnit_not_space c Hc Hw)). apply IH, Hs.
Qed.

(** After a unit of a run, the output does not begin with an underscore. *)
Lemma replaceRuns_after_run s :
  forallb slugUnit s = true ->
  head (replaceRuns isWhiteSpace underscore true s) <> Some 0x5F.
Proof.
  induction s as [|c s IH]; simpl; [discriminate|].
  rewrite andb_true_iff. intros [Hc Hs].
  destruct (isWhiteSpace c) eqn:Hw; simpl; [apply IH, Hs|].
  pose proof (proj2 (slugUnit_not_space c Hc Hw)) as Hne.
  intros [= ->]. discriminate Hne.
Qed.

Lemma singleSeparators_cons a s :
  singleSeparators s = true -> ((a =? 0x5F) = false \/ head s <> Some 0x5F) ->
  singleSeparators (a :: s) = true.
Proof.
  intros Hs Ha. destruct s as [|b s]; [reflexivity|].
  change (negb ((a =? 0x5F) && (b =? 0x5F)) && singleSeparators (b :: s) = true).
  rewrite Hs, andb_true_r, negb_true_iff, andb_false_iff.
  destruct Ha as [Ha|Hb]; [left; exact Ha|right].
  destruct (Z.eqb_spec b 0x5F) as [->|]; [|reflexivity]. exfalso. apply Hb. reflexivity.
Qed.

Lemma replaceRuns_singleSeparators inRun s :
  forallb slugUnit s = true ->
  singleSeparators (replaceRuns isWhiteSpace underscore inRun s) = true.
Proof.
  revert inRun. induction s as [|c s IH]; intros inRun; [reflexivity|].
  intros Hcs. pose proof Hcs as Hcs'. simpl in Hcs'. apply andb_true_iff in Hcs' as [Hc Hs].
  simpl. destruct (isWhiteSpace c) eqn:Hw.
  - destruct inRun; [apply IH, Hs|].
    apply singleSeparators_cons; [apply IH, Hs|].
    right. apply replaceRuns_after_run, Hs.
  - apply singleSeparators_cons; [apply IH, Hs|].
    left. apply (slugUnit_not_space c Hc Hw).
Qed.

Lemma singleSeparators_take n s :
  singleSeparators s = true -> singleSeparators (take n s) = true.
Proof.
  revert s. induction n as [|n IH]; intros s; [reflexivity|].
  destruct s as [|a s]; [reflexivity|]. intros Hs.
  destruct s as [|b s]; [destruct n; reflexivity|].
  change (negb ((a =? 0x5F) && (b =? 0x5F)) && singleSeparators (b :: s) = true) in Hs.
  apply andb_true_iff in Hs as [Hab Hs].
  specialize (IH (b :: s) Hs). destruct n as [|n]; [reflexivity|].
  change (negb ((a =? 0x5F) && (b =? 0x5F)) && singleSeparators (take (S n) (b :: s)) = true).
  rewrite Hab, IH. reflexivity.
Qed.

Lemma removeOutside_inside keep s : forallb keep (removeOutside keep s) = true.
Proof.
  unfold removeOutside. induction s as [|c s IH]; simpl; [reflexivity|].
  destruct (keep c) eqn:Hc; simpl; [rewrite Hc|]; exact IH.
Qed.

Lemma forallb_take {A} (p : A -> bool) n (s : list A) :
  forallb p s = true -> forallb p (take n s) = true.
Proof.
  revert s. induction n as [|n IH]; intros [|a s]; simpl; try reflexivity.
  rewrite !andb_true_iff. intros [-> Hs]. split; [reflexivity|apply IH, Hs].
Qed.

Context `{Eff.Platform}.
Hypothesis toLowerCase_plain : LowerCaseSpec Eff.toLowerCase.

(** C8.  [sanitizeTaskName] is a function of the task alone.  Its result
    is the lower-cased task, without the units other than a..z, 0..9 and
    white space, with every maximal run of white space replaced by one
    underscore, cut to its first 30 units.  So the slug has at most 30
    units, all of them a..z, 0..9 or underscores, and no two underscores in a
    row.  The slug of "Design Phase!!" is "design_phase". *)
Theorem sanitizeTaskName_slug :
  (forall task,
     let kept := removeOutside slugUnit (Eff.toLowerCase task) in
     let slug := InstructionManager.sanitizeTaskName task in
     forallb slugUnit kept = true /\
     (forall c, In c (Eff.toLowerCase task) -> slugUnit c = true -> In c kept) /\
     slug = take 30 (replaceRuns isWhiteSpace (lit "_") false kept) /\
     (length slug <= 30)%nat /\
     forallb slugChar slug = true /\
     singleSeparators slug = true) /\
  (forall inRun c s, isWhiteSpace c = false ->
     replaceRuns isWhiteSpace (lit "_") inRun (c :: s) =
       c :: replaceRuns isWhiteSpace (lit "_") false s) /\
  (forall run s, run <> [] -> forallb isWhiteSpace run = true ->
     startsOutside isWhiteSpace s = true ->
     replaceRuns isWhiteSpace (lit "_") false (run ++ s) =
       lit "_" ++ replaceRuns isWhiteSpace (lit "_") false s) /\
  InstructionManager.sanitizeTaskName (lit "Design Phase!!") = lit "design_phase" /\
  ReportManager.sanitizeTaskName = InstructionManager.sanitizeTaskName.
Proof.
  split; [|split; [|split; [|split]]].
  - intros task kept slug.
    assert (Hkept : forallb slugUnit kept = true) by apply removeOutside_inside.
    split; [exact Hkept|]. split.
    { intros c Hin Hc. apply filter_In. split; assumption. }
    split; [reflexivity|]. split.
    { unfold slug, InstructionManager.sanitizeTaskName, sanitizeTaskName, substring0.
      rewrite length_take. lia. }
    split.
    + apply forallb_take, replaceRuns_slugChars, Hkept.
    + apply singleSeparators_take, replaceRuns_singleSeparators, Hkept.
  - intros inRun c s Hc. apply replaceRuns_unit, Hc.
  - intros run s Hne Hrun Hs. apply replaceRuns_run; assumption.
  - unfold InstructionManager.sanitizeTaskName, sanitizeTaskName.
    rewrite toLowerCase_plain by reflexivity. reflexivity.
  - reflexivity.
Qed.

End Slug.

(** ** Phase chain *)

Section PhaseChain.
Import Js FDDWorkflowManager.

(** C5.  With user testing off (given as [false] or not given, whatever the
    other fields of the configuration) the chain is ui-mockup, prototype,
    implementation, integration; with user testing on it is ui-mockup,
    prototype, user-test, implementation, integration.  For every manager
    object the chain is one of these two, each phase names the phase after it
    as its [nextPhase], and a phase named integration has no [nextPhase];
    integration is the last phase. *)
Theorem generateFDDWorkflow_chain :
  (forall root mockups prototyping framework system feature,
     chainNames (generateFDDWorkflow
        (constructor root (mkConfig mockups prototyping (Some false) framework system))
        feature) = [ui_mockup; prototype; implementation; integration]) /\
  (forall root mockups prototyping framework system feature,
     chainNames (generateFDDWorkflow
        (constructor root (mkConfig mockups prototyping None framework system))
        feature) = [ui_mockup; prototype; implementation; integration]) /\
  (forall root mockups prototyping framework system feature,
     chainNames (generateFDDWorkflow
        (constructor root (mkConfig mockups prototyping (Some true) framework system))
        feature) = [ui_mockup; prototype; user_test; implementation; integration]) /\
  (forall this feature,
     chainNames (generateFDDWorkflow this feature) =
       (if truthy (enableUserTesting (config this))
        then [ui_mockup; prototype; user_test; implementation; integration]
        else [ui_mockup; prototype; implementation; integration]) /\
     linked (generateFDDWorkflow this feature) = true /\
     (forall phase, In phase (generateFDDWorkflow this feature) ->
        name phase = integration -> nextPhase phase = None) /\
     name <$> last (generateFDDWorkflow this feature) = Some integration).
Proof.
  split; [|split; [|split]].
  - intros. reflexivity.
  - intros. reflexivity.
  - intros. reflexivity.
  - intros this feature. unfold generateFDDWorkflow.
    destruct (truthy (enableUserTesting (config this))).
    + split; [reflexivity|]. split; [reflexivity|]. split; [|reflexivity].
      intros phase Hin Hname. simpl in Hin.
      repeat (destruct Hin as [<-|Hin]; [try discriminate Hname; reflexivity|]).
      destruct Hin.
    + split; [reflexivity|]. split; [reflexivity|]. split; [|reflexivity].
      intros phase Hin Hname. simpl in Hin.
      repeat (destruct Hin as [<-|Hin]; [try discriminate Hname; reflexivity|]).
      destruct Hin.
Qed.

End PhaseChain.

(** ** Message builder: [createInstruction] *)

Section CreateInstruction.
Import Js Eff InstructionManager.

Context `{Platform}.
Variable generateInstructionContent : InstructionRequest -> jsstring -> jsstring.

Local Abbreviation createInstruction :=
  (InstructionManager.createInstruction generateInstructionContent).

Lemma generateTimestamp_run (w : World) :
  Helpers.generateTimestamp w = (Returned (Helpers.stamp (clock (env w))), w).
Proof. reflexivity. Qed.

(** What [createInstruction] does, by the outcome of its two file-system
    calls. *)
Lemma createInstruction_run (this : InstructionManager.t) (request : InstructionRequest)
    (w : World) :
  let timestamp := Helpers.stamp (clock (env w)) in
  createInstruction this request w =
    match fs_mkdir (instructionDir this request) (env w) with
    | (Some err, d1) => (Thrown err, {| env := d1; console := console w |})
    | (None, d1) =>
      match fs_writeFile (instructionPath this request timestamp)
              (generateInstructionContent request timestamp) d1 with
      | (Some err, d2) => (Thrown err, {| env := d2; console := console w |})
      | (None, d2) =>
        (Returned (instructionPath this request timestamp),
         {| env := d2; console := console w |})
      end
    end.
Proof.
  intros timestamp.
  unfold InstructionManager.createInstruction, bind. rewrite generateTimestamp_run.
  fold timestamp. unfold mkdir, writeFile, liftFs, instructionDir, instructionPath. simpl.
  destruct (fs_mkdir _ (env w)) as [[err|] d1]; [reflexivity|]. simpl.
  destruct (fs_writeFile _ _ d1) as [[err|] d2]; reflexivity.
Qed.

Hypothesis toLowerCase_plain : LowerCaseSpec toLowerCase.


End CreateInstruction.



(** ** Orchestrator: the failure path *)

Section Orchestrator.
Import Js Eff CoreWorkflowEnhancer.

Context `{Platform}.
Variables Result Metrics : Type.
Variable resultFiles : Result -> list jsstring.
Variable resultMetrics : Result -> Metrics.
Variable generateInstructionContent :
  InstructionManager.InstructionRequest -> jsstring -> jsstring.
Variable generateReportContent :
  ReportManager.ReportData Metrics -> jsstring -> jsstring.
Variable initializeFddWorkflow : jsstring -> M unit.
Variable captureLearningInsights : WorkflowContext -> Result -> M unit.
Variable autoGitCommit : WorkflowContext -> Result -> M unit.

Local Abbreviation preWorkflowSetup :=
  (CoreWorkflowEnhancer.preWorkflowSetup generateInstructionContent initializeFddWorkflow).
Local Abbreviation createReport :=
  (ReportManager.createReport Metrics generateReportContent).
Local Abbreviation handleWorkflowError :=
  (CoreWorkflowEnhancer.handleWorkflowError Metrics generateReportContent).
Local Abbreviation enhanceSpecWorkflow :=
  (CoreWorkflowEnhancer.enhanceSpecWorkflow Result Metrics resultFiles resultMetrics
     generateInstructionContent generateReportContent initializeFddWorkflow
     captureLearningInsights autoGitCommit).

Lemma handleWorkflowError_run this context (error : JsError) (w : World) :
  handleWorkflowError this context error w =
    match createReport (reportManager this)
            (errorReport Metrics context error) (say (errorLine context error) w) with
    | (Returned _, w') => (Returned tt, say (reportedLine context) w')
    | (Thrown e', w') => (Thrown e', w')
    end.
Proof.
  unfold CoreWorkflowEnhancer.handleWorkflowError, reading, bind, print. simpl.
  fold (say (errorLine context error) w).
  destruct (createReport _ _ _) as [[p|e'] w']; reflexivity.
Qed.

(** Of [null] and [undefined] the handler cannot read the message. *)
Lemma handleWorkflowError_nullish this context (n : Nullish) (w : World) :
  handleWorkflowError this context (nullish n) w =
    (Thrown (cannotRead n (lit "message")), w).
Proof. reflexivity. Qed.

(** Whatever the guarded block throws goes through [handleWorkflowError]. *)
Lemma enhanceSpecWorkflow_catch this (originalWorkflow : M Result) context
    (w w2 : World) (e : Rejection) :
  (preWorkflowSetup this context ;;;
   result <- originalWorkflow ;;
   postWorkflowCleanup Result Metrics resultFiles resultMetrics generateReportContent
     captureLearningInsights autoGitCommit this context result ;;;
   ret result) (say (startingLine context) w) = (Thrown e, w2) ->
  enhanceSpecWorkflow this originalWorkflow context w =
    match handleWorkflowError this context e w2 with
    | (Returned _, w3) => (Thrown e, w3)
    | (Thrown e', w3) => (Thrown e', w3)
    end.
Proof.
  intros Hbody.
  change (enhanceSpecWorkflow this originalWorkflow context w) with
    (tryCatch
       (preWorkflowSetup this context ;;;
        result <- originalWorkflow ;;
        postWorkflowCleanup Result Metrics resultFiles resultMetrics generateReportContent
          captureLearningInsights autoGitCommit this context result ;;;
        ret result)
       (fun error => handleWorkflowError this context error ;;; throw error)
       (say (startingLine context) w)).
  unfold tryCatch. rewrite Hbody.
  unfold bind, throw. destruct (handleWorkflowError _ _ _ _) as [[[]|e'] w3]; reflexivity.
Qed.

(** C3, as the code has it.  Let the setup before the work succeed and
    [work()] reject with [error].  When [error] is an object, the
    orchestrator prints its message and has the report manager create a
    report with status [blocked] for it: if that report is written, the
    caller gets exactly [error]; if creating the report rejects with [e'],
    nothing catches or logs it and the caller gets [e'] instead of [error].
    When [error] is [null] or [undefined], reading its message throws: the
    caller gets that [TypeError] instead of [error], and nothing is printed
    or reported.  So the caller can observe another error than the one of
    the work. *)
Theorem enhanceSpecWorkflow_work_rejects this (work : M Result) context
    (w w1 w2 : World) (error : Rejection) :
  preWorkflowSetup this context (say (startingLine context) w) = (Returned tt, w1) ->
  work w1 = (Thrown error, w2) ->
  (forall e, ReportManager.status (errorReport Metrics context e) = ReportManager.blocked) /\
  enhanceSpecWorkflow this work context w =
    match error with
    | anError e =>
      match createReport (reportManager this) (errorReport Metrics context e)
              (say (errorLine context e) w2) with
      | (Returned _, w3) => (Thrown e, say (reportedLine context) w3)
      | (Thrown e', w3) => (Thrown e', w3)
      end
    | nullish n => (Thrown (cannotRead n (lit "message")), w2)
    end.
Proof.
  intros Hpre Hwork. split; [reflexivity|].
  rewrite (enhanceSpecWorkflow_catch this work context w w2 error).
  - destruct error as [e|n].
    + rewrite handleWorkflowError_run.
      destruct (createReport _ _ _) as [[p|e'] w3]; reflexivity.
    + rewrite handleWorkflowError_nullish. reflexivity.
  - unfold bind at 1. rewrite Hpre. unfold bind at 1. rewrite Hwork. reflexivity.
Qed.

End Orchestrator.

(** C3 at work.  The implementation phase rejects with "build failed" while
    the reports directory cannot be written: the caller gets the error of
    the report write, not the error of the work, and no line on the console
    tells of the failed report.  The phase rejects with [null]: the caller
    gets a [TypeError], no error line is printed and no report is written.
    With a disk that can be written and the error "build failed", the
    blocked report is written and the caller gets "build failed". *)
Lemma enhanceSpecWorkflow_work_rejects_witness :
  (fst (FailingPhase.run Sample.underReports) =
     Eff.Thrown (Sample.accessDenied FailingPhase.blockedReportPath) /\
   fst (FailingPhase.run Sample.underReports) <> Eff.Thrown FailingPhase.buildFailed /\
   Eff.console (snd (FailingPhase.run Sample.underReports)) =
     [CoreWorkflowEnhancer.startingLine FailingPhase.context;
      Eff.ConsoleLog [Js.lit "📋 Created gemini instruction for implementation phase"];
      Eff.ConsoleLog [Js.lit "⚡ Setting up implementation phase enhancements"];
      CoreWorkflowEnhancer.errorLine FailingPhase.context FailingPhase.buildFailed]) /\
  (fst (FailingPhase.runWith Sample.anywhere (Eff.nullish Eff.jsNull)) =
     Eff.Thrown (Eff.mkError (Js.lit "Cannot read properties of null (reading 'message')")) /\
   Eff.console (snd (FailingPhase.runWith Sample.anywhere (Eff.nullish Eff.jsNull))) =
     [CoreWorkflowEnhancer.startingLine FailingPhase.context;
      Eff.ConsoleLog [Js.lit "📋 Created gemini instruction for implementation phase"];
      Eff.ConsoleLog [Js.lit "⚡ Setting up implementation phase enhancements"]] /\
   Sample.files (Eff.env (snd (FailingPhase.runWith Sample.anywhere
                                 (Eff.nullish Eff.jsNull)))) =
     [(Js.lit "/project/docs/instructions/ToGemini/claude_to_gemini_202611020905_implementation_of_login.md",
       Js.lit "Date: 202611020905")]) /\
  (fst (FailingPhase.run Sample.anywhere) = Eff.Thrown FailingPhase.buildFailed /\
   Sample.files (Eff.env (snd (FailingPhase.run Sample.anywhere))) =
     [(FailingPhase.blockedReportPath, Js.lit "Date: 202611020905");
      (Js.lit "/project/docs/instructions/ToGemini/claude_to_gemini_202611020905_implementation_of_login.md",
       Js.lit "Date: 202611020905")]).
Proof.
  pose proof (fun denied error Hpre Hwork =>
                proj2 (@enhanceSpecWorkflow_work_rejects (Sample.platform denied) unit unit
                         (fun _ => []) (fun _ => tt) sampleBody sampleBody
                         (fun _ => Eff.ret tt) (fun _ _ => Eff.ret tt)
                         (fun _ _ => Eff.ret tt)
                         (@CoreWorkflowEnhancer.constructor (Sample.platform denied)
                            (Js.lit "/project"))
                         (Eff.throw error) FailingPhase.context
                         (Sample.start denied) (FailingPhase.afterSetup denied)
                         (FailingPhase.afterSetup denied) error Hpre Hwork)) as Hrun.
  split; [|split].
  - pose proof (Hrun Sample.underReports FailingPhase.buildFailed eq_refl eq_refl
                : FailingPhase.run Sample.underReports = _) as Hfails.
    rewrite Hfails. split; [reflexivity|]. split; [|reflexivity].
    intros Heq. vm_compute in Heq. discriminate Heq.
  - pose proof (Hrun Sample.anywhere (Eff.nullish Eff.jsNull) eq_refl eq_refl
                : FailingPhase.runWith Sample.anywhere (Eff.nullish Eff.jsNull) = _)
      as Hnull.
    rewrite Hnull. split; [reflexivity|]. split; reflexivity.
  - pose proof (Hrun Sample.anywhere FailingPhase.buildFailed eq_refl eq_refl
                : FailingPhase.run Sample.anywhere = _) as Hwritten.
    rewrite Hwritten. split; reflexivity.
Defined.

Lemma sanitizeTaskName_slug_witness :
  Js.LowerCaseSpec (@Eff.toLowerCase Sample.writable) /\
  @InstructionManager.sanitizeTaskName Sample.writable (Js.lit "Design Phase!!") =
    Js.lit "design_phase".
Proof.
  split; [exact asciiLowerCase_spec|].
  apply (@sanitizeTaskName_slug Sample.writable asciiLowerCase_spec).
Defined.

Lemma enhanceTodos_does_not_mutate_argument_witness :
  oneArray !! 1%positive = Some [implementTask] /\
  exists enhanced h',
    TodoArrays.enhanceTodos Js.asciiLowerCase TodoEnhancer.defaultEnhancer
      1%positive oneArray = Some (enhanced, h') /\
    h' !! 1%positive = Some [implementTask] /\
    h' !! enhanced = Some [implementTask; TodoEnhancer.learningTask].
Proof.
  assert (Hh : oneArray !! 1%positive = Some [implementTask])
    by apply lookup_singleton_eq.
  split; [exact Hh|].
  destruct (enhanceTodos_does_not_mutate_argument Js.asciiLowerCase
              TodoEnhancer.defaultEnhancer oneArray 1%positive [implementTask] Hh)
    as (enhanced & h' & Hrun & _ & _ & Hold & Hnew & _).
  exists enhanced, h'. split; [exact Hrun|]. split; [exact Hold|]. exact Hnew.
Defined.

(* ===================================================================== *)
(** * Further properties of the todo rule engine *)
(* ===================================================================== *)

Section RuleEngineFixedPoint.
Import Js TodoEnhancer.

Variable toLowerCase : jsstring -> jsstring.
Hypothesis toLowerCase_plain : LowerCaseSpec toLowerCase.

Local Abbreviation rule1 := (addGitCommitRule toLowerCase).
Local Abbreviation rule2 := (addLearningCapture toLowerCase).
Local Abbreviation doc := (hasDocumentCreation toLowerCase).
Local Abbreviation commit := (hasGitCommit toLowerCase).
Local Abbreviation opp := (hasLearningOpportunity toLowerCase).
Local Abbreviation task := (hasLearningTask toLowerCase).

Lemma some_app {A} (p : A -> bool) a b :
  Arr.some p (a ++ b) = Arr.some p a || Arr.some p b.
Proof. apply existsb_app. Qed.

Lemma some_snoc {A} (p : A -> bool) a x : Arr.some p (a ++ [x]) = Arr.some p a || p x.
Proof. rewrite some_app. unfold Arr.some at 2. simpl. rewrite orb_false_r. reflexivity. Qed.

Lemma some_inserted {A} (p : A -> bool) a i x :
  Arr.some p (take i a ++ x :: drop i a) = Arr.some p a || p x.
Proof.
  rewrite <- (take_drop i a) at 3. rewrite !some_app. unfold Arr.some at 2. simpl.
  fold (Arr.some p (drop i a)).
  destruct (Arr.some p (take i a)), (p x), (Arr.some p (drop i a)); reflexivity.
Qed.

Lemma learningTask_content k :
  contentIncludes toLowerCase k learningTask =
  includes (lit "capture learning insights and patterns") k.
Proof. unfold contentIncludes. rewrite toLowerCase_plain by reflexivity. reflexivity. Qed.

Lemma learningTask_no_trigger : matchesAny toLowerCase learningTriggers learningTask = false.
Proof. rewrite matchesAny_plain by (assumption || reflexivity). reflexivity. Qed.

Lemma gitCommitTask_no_trigger' : matchesAny toLowerCase learningTriggers gitCommitTask = false.
Proof. rewrite matchesAny_plain by (assumption || reflexivity). reflexivity. Qed.

Lemma gitCommitTask_content' k :
  contentIncludes toLowerCase k gitCommitTask =
  includes (lit "git commit documentation changes") k.
Proof. unfold contentIncludes. rewrite toLowerCase_plain by reflexivity. reflexivity. Qed.

(** The shape of what each rule returns, with the condition under which
    it adds its item. *)
Lemma rule1_result todos :
  (doc todos && negb (commit todos) = false /\ rule1 todos = todos) \/
  (doc todos = true /\ commit todos = false /\ rule1 todos = todos ++ [gitCommitTask]).
Proof.
  unfold addGitCommitRule. destruct (doc todos); [|left; split; reflexivity].
  destruct (commit todos); [left|right]; repeat split; reflexivity.
Qed.

Lemma rule2_result todos :
  (opp todos && negb (task todos) = false /\ rule2 todos = todos) \/
  (opp todos = true /\ task todos = false /\
   exists i, rule2 todos = take i todos ++ learningTask :: drop i todos).
Proof.
  unfold addLearningCapture. destruct (opp todos); [|left; split; reflexivity].
  destruct (task todos); [left; split; reflexivity|right].
  split; [reflexivity|]. split; [reflexivity|]. simpl.
  destruct (_ >? -1).
  - eexists. reflexivity.
  - exists (length todos). rewrite take_ge, drop_ge by lia. reflexivity.
Qed.

(** A list is settled for a rule when the rule has nothing to add to it. *)
Definition settled1 (todos : list TodoItem) : bool := implb (doc todos) (commit todos).
Definition settled2 (todos : list TodoItem) : bool := implb (opp todos) (task todos).

Lemma rule1_settled todos : settled1 todos = true -> rule1 todos = todos.
Proof.
  unfold settled1. intros Hs. destruct (rule1_result todos) as [[_ H]|(Hd & Hc & _)];
    [exact H|]. rewrite Hd, Hc in Hs. discriminate.
Qed.

Lemma rule2_settled todos : settled2 todos = true -> rule2 todos = todos.
Proof.
  unfold settled2. intros Hs. destruct (rule2_result todos) as [[_ H]|(Ho & Ht & _)];
    [exact H|]. rewrite Ho, Ht in Hs. discriminate.
Qed.

Lemma rule1_settles todos : settled1 (rule1 todos) = true.
Proof.
  unfold settled1. destruct (rule1_result todos) as [[Hs ->]|(_ & _ & ->)].
  - destruct (doc todos), (commit todos); try reflexivity. discriminate.
  - replace (commit (todos ++ [gitCommitTask])) with true; [apply implb_true_r|].
    symmetry. unfold hasGitCommit. rewrite some_snoc, !gitCommitTask_content'.
    apply orb_true_r.
Qed.

Lemma rule2_settles todos : settled2 (rule2 todos) = true.
Proof.
  unfold settled2. destruct (rule2_result todos) as [[Hs ->]|(_ & _ & i & ->)].
  - destruct (opp todos), (task todos); try reflexivity. discriminate.
  - replace (task (take i todos ++ learningTask :: drop i todos)) with true;
      [apply implb_true_r|].
    symmetry. unfold hasLearningTask. rewrite some_inserted, !learningTask_content.
    apply orb_true_r.
Qed.

(** The commit item is no learning trigger and no learning task: adding it
    keeps a list settled for the learning rule. *)
Lemma rule1_keeps_settled2 todos : settled2 todos = true -> settled2 (rule1 todos) = true.
Proof.
  intros Hs. destruct (rule1_result todos) as [[_ ->]|(_ & _ & ->)]; [exact Hs|].
  unfold settled2, hasLearningOpportunity, hasLearningTask in *.
  rewrite !some_snoc, gitCommitTask_no_trigger', !gitCommitTask_content'.
  change (includes (lit "git commit documentation changes") (lit "learning")) with false.
  change (includes (lit "git commit documentation changes") (lit "学習")) with false.
  rewrite !orb_false_r. exact Hs.
Qed.

(** The learning item, however, is a document item for the commit rule;
    a list that has a commit item stays settled for the commit rule. *)
Lemma rule2_keeps_commit todos : commit todos = true -> commit (rule2 todos) = true.
Proof.
  intros Hc. destruct (rule2_result todos) as [[_ ->]|(_ & _ & i & ->)]; [exact Hc|].
  unfold hasGitCommit in *. rewrite some_inserted, Hc. reflexivity.
Qed.

Local Abbreviation enhance := (enhanceTodos toLowerCase).

(** One pass leaves a list that a further pass changes by the commit rule
    alone. *)
Lemma enhanceTodos_second_pass this todos :
  enhance this (enhance this todos) =
    if truthy (enforceGitCommit (options this)) &&
       truthy (detectDocumentCreation (options this))
    then rule1 (enhance this todos) else enhance this todos.
Proof.
  unfold enhanceTodos at 1.
  destruct (truthy (autoLearningCapture (options this))) eqn:Hl.
  - assert (Hs : settled2 (enhance this todos) = true).
    { unfold enhanceTodos. rewrite Hl. apply rule2_settles. }
    destruct (_ && _).
    + apply rule2_settled, rule1_keeps_settled2, Hs.
    + apply rule2_settled, Hs.
  - reflexivity.
Qed.

Lemma enhanceTodos_second_pass_settled1 this todos :
  truthy (enforceGitCommit (options this)) &&
  truthy (detectDocumentCreation (options this)) = true ->
  settled1 (enhance this (enhance this todos)) = true.
Proof.
  intros Hon. rewrite enhanceTodos_second_pass, Hon. apply rule1_settles.
Qed.

(** X1.  For every option setting and every todo list, a third pass of
    [enhanceTodos] changes nothing: the list is stable after two passes. *)
Theorem enhanceTodos_stable_after_two_passes (this : TodoEnhancer.t)
    (todos : list TodoItem) :
  enhance this (enhance this (enhance this todos)) = enhance this (enhance this todos).
Proof.
  rewrite (enhanceTodos_second_pass this (enhance this todos)).
  destruct (_ && _) eqn:Hon; [|reflexivity].
  apply rule1_settled, enhanceTodos_second_pass_settled1, Hon.
Qed.

(** X2.  With the default options one pass is enough whenever the list
    has an item with "commit", or an item with "learning" or "学習", or no
    item with a learning trigger. *)
Theorem enhanceTodos_idempotent_when (todos : list TodoItem) :
  commit todos = true \/ task todos = true \/ opp todos = false ->
  enhance defaultEnhancer (enhance defaultEnhancer todos) = enhance defaultEnhancer todos.
Proof.
  intros Hcases. rewrite enhanceTodos_second_pass. simpl andb. cbv iota.
  apply rule1_settled.
  change (enhance defaultEnhancer todos) with (rule2 (rule1 todos)).
  destruct Hcases as [Hc|[Ht|Ho]].
  - assert (H1 : rule1 todos = todos).
    { apply rule1_settled. unfold settled1. rewrite Hc. apply implb_true_r. }
    rewrite H1. unfold settled1. rewrite (rule2_keeps_commit todos Hc). apply implb_true_r.
  - assert (Hs : settled2 todos = true) by (unfold settled2; rewrite Ht; apply implb_true_r).
    rewrite (rule2_settled _ (rule1_keeps_settled2 todos Hs)). apply rule1_settles.
  - assert (Hs : settled2 todos = true) by (unfold settled2; rewrite Ho; reflexivity).
    rewrite (rule2_settled _ (rule1_keeps_settled2 todos Hs)). apply rule1_settles.
Qed.

End RuleEngineFixedPoint.

Section RuleEngineAgreement.
Import Js TodoEnhancer.

Variable toLowerCase : jsstring -> jsstring.
Hypothesis toLowerCase_plain : LowerCaseSpec toLowerCase.

Local Abbreviation enhance := (enhanceTodos toLowerCase defaultEnhancer).
Local Abbreviation validate := (validateTodos toLowerCase defaultEnhancer).

Lemma some_exists {A} (p : A -> bool) a :
  Arr.some p a = true -> exists x, In x a /\ p x = true.
Proof. intros Hs. apply existsb_exists in Hs. exact Hs. Qed.

Lemma some_found {A} (p : A -> bool) a x : In x a -> p x = true -> Arr.some p a = true.
Proof. intros Hin Hx. apply existsb_exists. exists x. split; assumption. Qed.

(** The keywords of the validation are among the keywords of the rules. *)
Lemma matchesAny_incl (kws kws' : list jsstring) todo :
  (forall k, In k kws -> In k kws') ->
  matchesAny toLowerCase kws todo = true -> matchesAny toLowerCase kws' todo = true.
Proof.
  intros Hincl Hm. apply some_exists in Hm as (k & Hin & Hk).
  apply (some_found _ _ k); [apply Hincl, Hin|exact Hk].
Qed.

(** The items of an enhanced list: those of the list and the two rule
    items. *)
Lemma enhanceTodos_items this todos x :
  In x (enhanceTodos toLowerCase this todos) ->
  In x todos \/ x = gitCommitTask \/ x = learningTask.
Proof.
  assert (H1 : forall l, In x (addGitCommitRule toLowerCase l) -> In x l \/ x = gitCommitTask).
  { intros l. destruct (addGitCommitRule_cases toLowerCase l) as [-> | ->];
      [intros Hin; left; exact Hin|].
    rewrite in_app_iff. cbn [In]. intros [Hin|[<-|[]]]; [left; exact Hin|right; reflexivity]. }
  assert (H2 : forall l, In x (addLearningCapture toLowerCase l) -> In x l \/ x = learningTask).
  { intros l. destruct (addLearningCapture_cases toLowerCase l) as [-> | [i ->]];
      [intros Hin; left; exact Hin|].
    rewrite in_app_iff. cbn [In]. pose proof (take_drop i l) as Hl.
    intros [Hin|[<-|Hin]]; [left|right; reflexivity|left];
      rewrite <- Hl; apply in_or_app; [left|right]; exact Hin. }
  unfold enhanceTodos.
  destruct (_ && _); destruct (truthy (autoLearningCapture _)); intros Hin.
  - apply H2 in Hin as [Hin|Hin]; [apply H1 in Hin as [Hin|Hin]|];
      [left; exact Hin|right; left; exact Hin|right; right; exact Hin].
  - apply H1 in Hin as [Hin|Hin]; [left; exact Hin|right; left; exact Hin].
  - apply H2 in Hin as [Hin|Hin]; [left; exact Hin|right; right; exact Hin].
  - left. exact Hin.
Qed.

Lemma sublist_In {A} (a b : list A) x : a `sublist_of` b -> In x a -> In x b.
Proof.
  intros Hsub. induction Hsub as [|y a b _ IH|y a b _ IH]; simpl; [tauto| |].
  - intros [->|Hin]; [left; reflexivity|right; apply IH, Hin].
  - intros Hin. right. apply IH, Hin.
Qed.

Lemma enhanceTodos_keeps_items this todos x :
  In x todos -> In x (enhanceTodos toLowerCase this todos).
Proof. apply sublist_In, enhanceTodos_sublist. Qed.

(** X3.  With the default options, if every item of the list whose
    lower-cased content includes "commit" also includes "git commit", then
    the enhanced list passes validation, and [autoFixTodos] returns a list
    that passes validation. *)
Theorem validateTodos_accepts_enhanced_when (todos : list TodoItem) :
  (forall todo, In todo todos ->
     contentIncludes toLowerCase (lit "commit") todo = true ->
     contentIncludes toLowerCase (lit "git commit") todo = true) ->
  validate (enhance todos) = {| valid := true; violations := [] |} /\
  valid (validate (autoFixTodos toLowerCase defaultEnhancer todos)) = true.
Proof.
  intros Hstrict.
  assert (Hg : contentIncludes toLowerCase (lit "git commit") gitCommitTask = true).
  { unfold contentIncludes. rewrite toLowerCase_plain by reflexivity. reflexivity. }
  assert (Hl : contentIncludes toLowerCase (lit "learning") learningTask = true).
  { unfold contentIncludes. rewrite toLowerCase_plain by reflexivity. reflexivity. }
  assert (Hrule : forall kws, forallb plain kws = true ->
            matchesAny asciiLowerCase kws gitCommitTask = false ->
            matchesAny asciiLowerCase kws learningTask = false ->
            forall x, In x (enhance todos) -> matchesAny toLowerCase kws x = true ->
            In x todos).
  { intros kws Hp Hkg Hkl x Hin Hm.
    destruct (enhanceTodos_items _ _ _ Hin) as [Hx|[->| ->]]; [exact Hx| |].
    - rewrite matchesAny_plain in Hm by (assumption || reflexivity).
      rewrite Hkg in Hm. discriminate.
    - rewrite matchesAny_plain in Hm by (assumption || reflexivity).
      rewrite Hkl in Hm. discriminate. }
  assert (H1 : Arr.some (matchesAny toLowerCase
                 [lit "指示書"; lit "instruction"; lit "report"; lit "報告書"])
                 (enhance todos) &&
               negb (Arr.some (contentIncludes toLowerCase (lit "git commit"))
                       (enhance todos)) = false).
  { match goal with |- ?b && _ = false => destruct b eqn:Hd end; [|reflexivity].
    simpl andb. apply negb_false_iff.
    apply some_exists in Hd as (x & Hin & Hm).
    assert (Hx : In x todos).
    { apply (Hrule [lit "指示書"; lit "instruction"; lit "report"; lit "報告書"]);
        try (vm_compute; reflexivity); assumption. }
    assert (Hdoc : hasDocumentCreation toLowerCase todos = true).
    { apply (some_found _ _ x Hx). revert Hm. apply matchesAny_incl.
      unfold documentKeywords. intros k [<-|[<-|[<-|[<-|[]]]]]; auto 6 using in_eq, in_cons. }
    destruct (hasGitCommit toLowerCase todos) eqn:Hc.
    - apply some_exists in Hc as (y & Hy & Hyc).
      apply (some_found _ _ y); [apply enhanceTodos_keeps_items, Hy|].
      apply orb_true_iff in Hyc as [Hyc|Hyc]; [exact Hyc|]. apply Hstrict; assumption.
    - apply (some_found _ _ gitCommitTask); [|exact Hg].
      change (enhance todos) with
        (addLearningCapture toLowerCase (addGitCommitRule toLowerCase todos)).
      apply (sublist_In _ _ _ (addLearningCapture_sublist _ _)).
      unfold addGitCommitRule. rewrite Hdoc, Hc. simpl. apply in_app_iff. right. left.
      reflexivity. }
  assert (H2 : Arr.some (matchesAny toLowerCase
                 [lit "implement"; lit "fix"; lit "design";
                  lit "実装"; lit "修正"; lit "設計"]) (enhance todos) &&
               negb (hasLearningTask toLowerCase (enhance todos)) = false).
  { match goal with |- ?b && _ = false => destruct b eqn:Hd end; [|reflexivity].
    simpl andb. apply negb_false_iff.
    apply some_exists in Hd as (x & Hin & Hm).
    assert (Hx : In x todos).
    { apply (Hrule [lit "implement"; lit "fix"; lit "design";
                    lit "実装"; lit "修正"; lit "設計"]);
        try (vm_compute; reflexivity); assumption. }
    set (mid := addGitCommitRule toLowerCase todos).
    assert (Hopp : hasLearningOpportunity toLowerCase mid = true).
    { apply (some_found _ _ x).
      - apply (sublist_In _ _ _ (addGitCommitRule_sublist _ _)), Hx.
      - revert Hm. apply matchesAny_incl. unfold learningTriggers.
        intros k [<-|[<-|[<-|[<-|[<-|[<-|[]]]]]]]; auto 12 using in_eq, in_cons. }
    change (enhance todos) with (addLearningCapture toLowerCase mid).
    destruct (hasLearningTask toLowerCase mid) eqn:Ht.
    - unfold addLearningCapture. rewrite Hopp, Ht. exact Ht.
    - destruct (addLearningCapture_cases toLowerCase mid) as [Heq|[i Heq]].
      + exfalso. revert Heq. unfold addLearningCapture. rewrite Hopp, Ht. simpl.
        intros Heq. apply (f_equal length) in Heq. revert Heq.
        destruct (_ >? -1); unfold Arr.splice0, Arr.push; rewrite !length_app; simpl;
          [rewrite length_take, length_drop|]; lia.
      + rewrite Heq. apply (some_found _ _ learningTask).
        * apply in_app_iff. right. left. reflexivity.
        * rewrite Hl. reflexivity. }
  assert (Hvalid : validate (enhance todos) = {| valid := true; violations := [] |}).
  { unfold validateTodos. simpl truthy. cbv iota. rewrite H1, H2. reflexivity. }
  split; [exact Hvalid|].
  unfold autoFixTodos. cbv zeta.
  destruct (valid (validate todos)) eqn:Hv; unfold negb; cbv iota; [exact Hv|].
  rewrite Hvalid. reflexivity.
Qed.

End RuleEngineAgreement.

Section RuleItemsOnce.
Import Js TodoEnhancer TodoCount.

Variable toLowerCase : jsstring -> jsstring.
Hypothesis toLowerCase_plain : LowerCaseSpec toLowerCase.

Lemma copies_app x a b : copies x (a ++ b) = (copies x a + copies x b)%nat.
Proof. apply count_occ_app. Qed.

Lemma copies_inserted x y a i :
  copies x (take i a ++ y :: drop i a) = (copies x a + copies x [y])%nat.
Proof.
  rewrite <- (take_drop i a) at 3. rewrite !copies_app.
  change (y :: drop i a) with ([y] ++ drop i a). rewrite copies_app. lia.
Qed.

Lemma copies_absent x a : ~ In x a -> copies x a = 0%nat.
Proof. apply count_occ_not_In. Qed.

Lemma gitCommitTask_absent todos :
  hasGitCommit toLowerCase todos = false -> ~ In gitCommitTask todos.
Proof.
  intros Hc Hin.
  assert (Ht : hasGitCommit toLowerCase todos = true); [|congruence].
  apply existsb_exists. exists gitCommitTask. split; [exact Hin|].
  unfold contentIncludes. rewrite toLowerCase_plain by reflexivity. reflexivity.
Qed.

Lemma learningTask_absent todos :
  hasLearningTask toLowerCase todos = false -> ~ In learningTask todos.
Proof.
  intros Hc Hin.
  assert (Ht : hasLearningTask toLowerCase todos = true); [|congruence].
  apply existsb_exists. exists learningTask. split; [exact Hin|].
  unfold contentIncludes. rewrite toLowerCase_plain by reflexivity. reflexivity.
Qed.

Lemma copies_other : copies gitCommitTask [learningTask] = 0%nat /\
                     copies learningTask [gitCommitTask] = 0%nat /\
                     copies gitCommitTask [gitCommitTask] = 1%nat /\
                     copies learningTask [learningTask] = 1%nat.
Proof. repeat split; vm_compute; reflexivity. Qed.

Lemma rule1_copies todos :
  (length (addGitCommitRule toLowerCase todos) <= length todos + 1)%nat /\
  (copies gitCommitTask (addGitCommitRule toLowerCase todos) <=
     Nat.max 1 (copies gitCommitTask todos))%nat /\
  copies learningTask (addGitCommitRule toLowerCase todos) = copies learningTask todos.
Proof.
  destruct copies_other as (_ & Hlg & Hgg & _).
  destruct (rule1_result toLowerCase todos) as [[_ ->]|(_ & Hc & ->)].
  - repeat split; lia.
  - rewrite length_app, !copies_app, Hlg, Hgg,
      (copies_absent _ _ (gitCommitTask_absent _ Hc)). simpl. repeat split; lia.
Qed.

Lemma rule2_copies todos :
  (length (addLearningCapture toLowerCase todos) <= length todos + 1)%nat /\
  (copies learningTask (addLearningCapture toLowerCase todos) <=
     Nat.max 1 (copies learningTask todos))%nat /\
  copies gitCommitTask (addLearningCapture toLowerCase todos) = copies gitCommitTask todos.
Proof.
  destruct copies_other as (Hgl & _ & _ & Hll).
  destruct (rule2_result toLowerCase todos) as [[_ ->]|(_ & Ht & i & ->)].
  - repeat split; lia.
  - rewrite !copies_inserted, Hgl, Hll,
      (copies_absent _ _ (learningTask_absent _ Ht)).
    rewrite length_app. simpl. rewrite length_take, length_drop. repeat split; lia.
Qed.

(** X4.  For every option setting, [enhanceTodos] adds at most two items,
    and never a second copy of a rule item: the enhanced list holds the
    commit item (and likewise the learning item) as often as the list did,
    or once if the list did not hold it. *)
Theorem enhanceTodos_adds_rule_items_once (this : TodoEnhancer.t) (todos : list TodoItem) :
  (length (enhanceTodos toLowerCase this todos) <= length todos + 2)%nat /\
  (copies gitCommitTask (enhanceTodos toLowerCase this todos) <=
     Nat.max 1 (copies gitCommitTask todos))%nat /\
  (copies learningTask (enhanceTodos toLowerCase this todos) <=
     Nat.max 1 (copies learningTask todos))%nat.
Proof.
  unfold enhanceTodos.
  pose proof (rule1_copies todos) as (Hl1 & Hg1 & Hk1).
  destruct (_ && _); destruct (truthy (autoLearningCapture _)).
  - pose proof (rule2_copies (addGitCommitRule toLowerCase todos)) as (Hl2 & Hg2 & Hk2).
    repeat split; lia.
  - repeat split; lia.
  - pose proof (rule2_copies todos) as (Hl2 & Hg2 & Hk2). repeat split; lia.
  - repeat split; lia.
Qed.

End RuleItemsOnce.

(* ===================================================================== *)
(** * Further properties of the orchestrator *)
(* ===================================================================== *)

Section OrchestratorPaths.
Import Js Eff CoreWorkflowEnhancer.

Context `{PostWorkflow.Shell}.
Variables Result Metrics : Type.
Variable resultFiles : Result -> list jsstring.
Variable resultMetrics : Result -> Metrics.
Variable resultSummary : Result -> option jsstring.
Variables resultInsights resultChallenges resultSolutions : Result -> bool.
Variable learningContent : WorkflowContext -> Result -> jsstring -> jsstring -> jsstring.
Variable generateInstructionContent :
  InstructionManager.InstructionRequest -> jsstring -> jsstring.
Variable generateReportContent :
  ReportManager.ReportData Metrics -> jsstring -> jsstring.
Variable initializeFddWorkflow : jsstring -> M unit.

Local Abbreviation captureLearningInsights :=
  (PostWorkflow.captureLearningInsights Result resultInsights resultChallenges
     resultSolutions learningContent).
Local Abbreviation autoGitCommit :=
  (PostWorkflow.autoGitCommit Result resultFiles resultSummary).
Local Abbreviation preWorkflowSetup :=
  (CoreWorkflowEnhancer.preWorkflowSetup generateInstructionContent initializeFddWorkflow).
Local Abbreviation createReport :=
  (ReportManager.createReport Metrics generateReportContent).
Local Abbreviation handleWorkflowError :=
  (CoreWorkflowEnhancer.handleWorkflowError Metrics generateReportContent).
Local Abbreviation enhanceSpecWorkflow :=
  (CoreWorkflowEnhancer.enhanceSpecWorkflow Result Metrics resultFiles resultMetrics
     generateInstructionContent generateReportContent initializeFddWorkflow
     captureLearningInsights autoGitCommit).

(** The loop of [git add]: every command is run, on the state the one
    before it left; a command that fails is passed over, and nothing is
    printed. *)
Lemma gitAdd_run (cwd : jsstring) (files : list jsstring) (w : World) :
  PostWorkflow.forEach files
    (fun file =>
       tryCatch (liftFs (PostWorkflow.execSync (PostWorkflow.gitAdd file) cwd))
         (fun _ => ret tt)) w =
    (Returned tt,
     {| env := PostWorkflow.afterGitAdd cwd files (env w); console := console w |}).
Proof.
  revert w. induction files as [|file files IH]; intros w.
  - destruct w. reflexivity.
  - cbn [PostWorkflow.forEach]. unfold bind at 1. unfold tryCatch at 1. unfold liftFs at 1.
    unfold PostWorkflow.afterGitAdd. cbn [foldl].
    destruct (PostWorkflow.execSync _ _ (env w)) as [[e|] d]; cbn [snd];
      exact (IH {| env := d; console := console w |}).
Qed.

Lemma autoGitCommit_returns (context : WorkflowContext) (result : Result) (w : World) :
  exists w', autoGitCommit context result w = (Returned tt, w').
Proof.
  unfold PostWorkflow.autoGitCommit. cbv zeta. unfold tryCatch at 1.
  unfold bind at 1. unfold liftFs at 1.
  destruct (PostWorkflow.importChildProcess (env w)) as [[e|] d]; [eexists; reflexivity|].
  unfold bind at 1. rewrite gitAdd_run.
  unfold bind at 1. unfold liftFs at 1.
  destruct (PostWorkflow.execSync _ _ _) as [[e|] d2]; eexists; reflexivity.
Qed.

(** X5.  [autoGitCommit] never rejects and prints exactly one line.  When
    the import of [child_process] fails, no command is run and the line is
    the warning with the error of the import.  Otherwise [git add] is run
    for every file of the result and then for the three document
    directories, in this order, each on the state the one before it left,
    whether it failed or not, and none of them prints; then [git commit] is
    run on the state the last [git add] left: the line is the warning with
    its error when it fails, and the line of the commit when it succeeds. *)
Theorem autoGitCommit_never_rejects (context : WorkflowContext) (result : Result)
    (w : World) :
  autoGitCommit context result w =
    match PostWorkflow.importChildProcess (env w) with
    | (Some error, d) =>
      (Returned tt,
       {| env := d; console := console w ++ [PostWorkflow.commitFailedLine error] |})
    | (None, d) =>
      match PostWorkflow.execSync (PostWorkflow.gitCommit Result resultSummary context result)
              (projectRoot context)
              (foldl (fun d file =>
                        snd (PostWorkflow.execSync (PostWorkflow.gitAdd file)
                               (projectRoot context) d))
                 d
                 (resultFiles result ++
                  [lit "docs/instructions/"; lit "docs/reports/";
                   lit "docs/handover/learnings/"])) with
      | (Some error, d') =>
        (Returned tt,
         {| env := d'; console := console w ++ [PostWorkflow.commitFailedLine error] |})
      | (None, d') =>
        (Returned tt,
         {| env := d'; console := console w ++ [PostWorkflow.committedLine context] |})
      end
    end.
Proof.
  unfold PostWorkflow.autoGitCommit. cbv zeta. unfold tryCatch at 1.
  unfold bind at 1. unfold liftFs at 1.
  destruct (PostWorkflow.importChildProcess (env w)) as [[e|] d]; [reflexivity|].
  unfold bind at 1. rewrite gitAdd_run. cbn [env console].
  unfold bind at 1. unfold liftFs at 1. cbn [env console].
  unfold PostWorkflow.afterGitAdd, PostWorkflow.filesToCommit.
  destruct (PostWorkflow.execSync _ _ _) as [[e|] d2]; reflexivity.
Qed.

(** X6.  When the setup succeeds, the work returns [result], the phase
    report is written and the learning capture succeeds, the orchestrator
    returns [result] unchanged, whatever the git commands of the commit step
    do. *)
Theorem enhanceSpecWorkflow_returns_result_whatever_git
    this (work : M Result) context (w w1 w2 w3 w4 : World) (result : Result)
    (report : ReportManager.ReportData Metrics) (path : jsstring) :
  preWorkflowSetup this context (say (startingLine context) w) = (Returned tt, w1) ->
  work w1 = (Returned result, w2) ->
  generatePhaseReport Result Metrics resultFiles resultMetrics context result =
    Some report ->
  createReport (reportManager this) report w2 = (Returned path, w3) ->
  captureLearningInsights context result (say (PostWorkflow.generatedLine report context) w3) =
    (Returned tt, w4) ->
  exists w5, enhanceSpecWorkflow this work context w = (Returned result, w5).
Proof.
  intros Hpre Hwork Hreport Hcreate Hlearn.
  destruct (autoGitCommit_returns context result w4) as (w5 & Hgit).
  exists (say (ConsoleLog [lit "✅ Enhanced workflow completed: " ++
                           phaseName (currentPhase context)]) w5).
  change (enhanceSpecWorkflow this work context w) with
    (tryCatch
       (preWorkflowSetup this context ;;;
        result <- work ;;
        postWorkflowCleanup Result Metrics resultFiles resultMetrics generateReportContent
          captureLearningInsights autoGitCommit this context result ;;;
        ret result)
       (fun error => handleWorkflowError this context error ;;; throw error)
       (say (startingLine context) w)).
  unfold tryCatch.
  unfold bind at 1. rewrite Hpre. unfold bind at 1. rewrite Hwork.
  unfold bind at 1. unfold postWorkflowCleanup. cbv zeta. rewrite Hreport.
  unfold bind at 1. unfold bind at 1. unfold bind at 1. rewrite Hcreate.
  unfold print at 1. fold (PostWorkflow.generatedLine report context).
  unfold bind at 1. rewrite Hlearn. unfold bind at 1. rewrite Hgit.
  reflexivity.
Qed.

(** X7.  When the directory of the phase instruction cannot be made, the
    wrapped workflow is never run: the outcome is that of the error handler
    alone, the same for every workflow. *)
Theorem enhanceSpecWorkflow_setup_failure_skips_work
    this context (w : World) (instruction : InstructionManager.InstructionRequest)
    (e : JsError) (d : Env) :
  generatePhaseInstruction context = Some instruction ->
  fs_mkdir (InstructionManager.instructionDir (instructionManager this) instruction)
    (env w) = (Some e, d) ->
  forall work : M Result,
    enhanceSpecWorkflow this work context w =
      match handleWorkflowError this context e
              {| env := d; console := console w ++ [startingLine context] |} with
      | (Returned _, w') => (Thrown e, w')
      | (Thrown e', w') => (Thrown e', w')
      end.
Proof.
  intros Hinstr Hmkdir work.
  apply (enhanceSpecWorkflow_catch Result Metrics resultFiles resultMetrics
           generateInstructionContent generateReportContent initializeFddWorkflow
           captureLearningInsights autoGitCommit this work context w).
  unfold bind at 1. unfold CoreWorkflowEnhancer.preWorkflowSetup. rewrite Hinstr.
  unfold bind at 1. unfold bind at 1. unfold bind at 1.
  rewrite createInstruction_run. simpl env.
  unfold InstructionManager.instructionDir in Hmkdir. unfold InstructionManager.instructionDir.
  rewrite Hmkdir. reflexivity.
Qed.

End OrchestratorPaths.

(* ===================================================================== *)
(** * The command line *)
(* ===================================================================== *)

Section CommandLineArguments.
Import Js JsText Cli CoreWorkflowEnhancer.

(** X8.  [extractFeatureFromArgs] answers the argument that follows the
    first argument containing a command name, unless that argument is the
    last one; it answers "unknown-feature" when no argument contains a
    command name or when the only one that does is the last. *)
Theorem extractFeatureFromArgs_cases :
  (forall argv, (forall arg, In arg argv -> isCommand arg = false) ->
     extractFeatureFromArgs argv = lit "unknown-feature") /\
  (forall before cmd feature rest,
     (forall arg, In arg before -> isCommand arg = false) -> isCommand cmd = true ->
     extractFeatureFromArgs (before ++ cmd :: feature :: rest) = feature) /\
  (forall before cmd,
     (forall arg, In arg before -> isCommand arg = false) ->
     extractFeatureFromArgs (before ++ [cmd]) = lit "unknown-feature").
Proof.
  assert (Hskip : forall before rest,
            (forall arg, In arg before -> isCommand arg = false) ->
            featureAfterCommand (before ++ rest) = featureAfterCommand rest).
  { induction before as [|arg before IH]; intros rest Hno; [reflexivity|].
    simpl. rewrite (Hno arg (or_introl eq_refl)). simpl.
    apply IH. intros a Ha. apply Hno. right. exact Ha. }
  split; [|split].
  - intros argv Hno. unfold extractFeatureFromArgs.
    rewrite <- (app_nil_r argv), Hskip by exact Hno. reflexivity.
  - intros before cmd feature rest Hno Hcmd. unfold extractFeatureFromArgs.
    rewrite Hskip by exact Hno. simpl. rewrite Hcmd. reflexivity.
  - intros before cmd Hno. unfold extractFeatureFromArgs.
    rewrite Hskip by exact Hno. simpl. rewrite andb_false_r. reflexivity.
Qed.

Lemma startsWith_before_separator sep a b k :
  forallb (fun c => negb (c =? sep)) k = true ->
  startsWith (a ++ sep :: b) k = startsWith a k.
Proof.
  revert a. induction k as [|c k IH]; intros a Hk; [reflexivity|].
  simpl in Hk. apply andb_true_iff in Hk as [Hc Hk].
  destruct a as [|x a]; simpl.
  - apply negb_true_iff in Hc. rewrite Z.eqb_sym, Hc. reflexivity.
  - rewrite IH by exact Hk. reflexivity.
Qed.

(** A word without the separator occurs in [a sep b] exactly when it occurs
    in [a] or in [b]. *)
Lemma includes_across_separator sep a b k :
  forallb (fun c => negb (c =? sep)) k = true ->
  includes (a ++ sep :: b) k = includes a k || includes b k.
Proof.
  intros Hk. induction a as [|x a IH].
  - pose proof (startsWith_before_separator sep [] b k Hk) as H0.
    change ([] ++ sep :: b) with (sep :: b) in *.
    change (includes (sep :: b) k) with (startsWith (sep :: b) k || includes b k).
    rewrite H0. change (includes [] k) with (startsWith [] k || false).
    destruct (startsWith [] k); reflexivity.
  - change (includes ((x :: a) ++ sep :: b) k) with
      (startsWith ((x :: a) ++ sep :: b) k || includes (a ++ sep :: b) k).
    rewrite (startsWith_before_separator sep (x :: a) b k Hk), IH.
    simpl. rewrite orb_assoc. reflexivity.
Qed.

Lemma joinWith_snoc sep xs x :
  xs <> [] -> joinWith sep (xs ++ [x]) = joinWith sep xs ++ sep ++ x.
Proof.
  induction xs as [|y xs IH]; [congruence|]. intros _.
  destruct xs as [|z xs]; [reflexivity|].
  change (joinWith sep ((y :: z :: xs) ++ [x])) with
    (y ++ sep ++ joinWith sep ((z :: xs) ++ [x])).
  rewrite IH by discriminate.
  change (joinWith sep (y :: z :: xs)) with (y ++ sep ++ joinWith sep (z :: xs)).
  rewrite <- !app_assoc. reflexivity.
Qed.

Lemma plain_app a b : plain (a ++ b) = plain a && plain b.
Proof. apply forallb_app. Qed.

Lemma plain_joinWith sep xs :
  plain sep = true -> forallb plain xs = true -> plain (joinWith sep xs) = true.
Proof.
  intros Hsep. induction xs as [|x xs IH]; [reflexivity|].
  simpl forallb. rewrite andb_true_iff. intros [Hx Hxs].
  destruct xs as [|y xs]; [exact Hx|].
  change (joinWith sep (x :: y :: xs)) with (x ++ sep ++ joinWith sep (y :: xs)).
  rewrite !plain_app, Hx, Hsep, (IH Hxs). reflexivity.
Qed.

Variable toLowerCase : jsstring -> jsstring.
Hypothesis toLowerCase_plain : LowerCaseSpec toLowerCase.

(** X9.  A further argument that contains none of the phase words (in
    lower case) has no influence on the phase: for plain arguments,
    [determinePhaseFromArgs] answers for [argv] followed by [extra] what it
    answers for [argv]. *)
Theorem determinePhaseFromArgs_ignores_other_words (argv : list jsstring)
    (extra : jsstring) :
  argv <> [] -> forallb plain argv = true -> plain extra = true ->
  (forall k, In k phaseKeywords -> includes (toLowerCase extra) k = false) ->
  determinePhaseFromArgs toLowerCase (argv ++ [extra]) =
  determinePhaseFromArgs toLowerCase argv.
Proof.
  intros Hne Hplain Hextra Hno.
  assert (Hj : plain (joinWith (lit " ") argv) = true)
    by (apply plain_joinWith; [reflexivity|exact Hplain]).
  assert (Hsame : forall k, In k phaseKeywords ->
            includes (toLowerCase (joinWith (lit " ") (argv ++ [extra]))) k =
            includes (toLowerCase (joinWith (lit " ") argv)) k).
  { intros k Hk. rewrite joinWith_snoc by exact Hne.
    rewrite (toLowerCase_plain (_ ++ _ ++ _))
      by (rewrite !plain_app, Hj, Hextra; reflexivity).
    unfold asciiLowerCase. rewrite !map_app.
    change (map lowerUnit (lit " ")) with [0x20].
    change ([0x20] ++ map lowerUnit extra) with (0x20 :: map lowerUnit extra).
    rewrite includes_across_separator.
    - fold (asciiLowerCase extra). rewrite <- (toLowerCase_plain extra Hextra).
      rewrite (Hno k Hk), orb_false_r.
      fold (asciiLowerCase (joinWith (lit " ") argv)).
      rewrite <- (toLowerCase_plain _ Hj). reflexivity.
    - revert k Hk. unfold phaseKeywords.
      intros k [<-|[<-|[<-|[<-|[<-|[<-|[<-|[<-|[<-|[<-|[]]]]]]]]]]];
        vm_compute; reflexivity. }
  unfold determinePhaseFromArgs. cbv zeta.
  rewrite !Hsame by (unfold phaseKeywords; auto 12 using in_eq, in_cons).
  reflexivity.
Qed.

End CommandLineArguments.

Section OrchestratorResult.
Import Js Eff CoreWorkflowEnhancer.

Context `{Platform}.
Variables Result Metrics : Type.
Variable resultFiles : Result -> list jsstring.
Variable resultMetrics : Result -> Metrics.
Variable generateInstructionContent :
  InstructionManager.InstructionRequest -> jsstring -> jsstring.
Variable generateReportContent :
  ReportManager.ReportData Metrics -> jsstring -> jsstring.
Variable initializeFddWorkflow : jsstring -> M unit.
Variable captureLearningInsights : WorkflowContext -> Result -> M unit.
Variable autoGitCommit : WorkflowContext -> Result -> M unit.

Lemma enhanceSpecWorkflow_returned
    this (work : M Result) context (w w' : World) (result : Result) :
  enhanceSpecWorkflow Result Metrics resultFiles resultMetrics
    generateInstructionContent generateReportContent initializeFddWorkflow
    captureLearningInsights autoGitCommit this work context w = (Returned result, w') ->
  exists w1 w2, work w1 = (Returned result, w2).
Proof.
  unfold enhanceSpecWorkflow. unfold bind at 1. unfold print at 1. cbv iota beta.
  unfold tryCatch.
  unfold bind at 1.
  destruct (preWorkflowSetup _ _ _ _ _) as [[[]|e0] w1].
  - unfold bind at 1. destruct (work w1) as [[r|e1] w2] eqn:Hwork.
    + unfold bind at 1.
      destruct (postWorkflowCleanup _ _ _ _ _ _ _ _ _ _ _) as [[[]|e2] w3].
      * unfold ret. intros [= <- _]. exists w1, w2. exact Hwork.
      * unfold bind, throw.
        destruct (handleWorkflowError _ _ _ _ _ _) as [[[]|e3] w4]; discriminate.
    + unfold bind, throw.
      destruct (handleWorkflowError _ _ _ _ _ _) as [[[]|e3] w4]; discriminate.
  - unfold bind, throw.
    destruct (handleWorkflowError _ _ _ _ _ _) as [[[]|e3] w4]; discriminate.
Qed.

(** X10.  What the orchestrator returns is what the wrapped workflow
    returned in this call: [enhanceSpecWorkflow] resolves with [result]
    exactly when the setup returns in the world after the starting line,
    the workflow then returns [result] in the world the setup left, and the
    cleanup for [result] then returns in the world the workflow left; the
    world after the call is the one the cleanup left.  The setup, the
    cleanup and the error handler never supply a value. *)
Theorem enhanceSpecWorkflow_returns_only_the_result
    this (work : M Result) context (w w' : World) (result : Result) :
  enhanceSpecWorkflow Result Metrics resultFiles resultMetrics
    generateInstructionContent generateReportContent initializeFddWorkflow
    captureLearningInsights autoGitCommit this work context w = (Returned result, w') <->
  exists w1 w2,
    preWorkflowSetup generateInstructionContent initializeFddWorkflow this context
      (say (startingLine context) w) = (Returned tt, w1) /\
    work w1 = (Returned result, w2) /\
    postWorkflowCleanup Result Metrics resultFiles resultMetrics generateReportContent
      captureLearningInsights autoGitCommit this context result w2 = (Returned tt, w').
Proof.
  change (enhanceSpecWorkflow Result Metrics resultFiles resultMetrics
            generateInstructionContent generateReportContent initializeFddWorkflow
            captureLearningInsights autoGitCommit this work context w) with
    (tryCatch
       (preWorkflowSetup generateInstructionContent initializeFddWorkflow this context ;;;
        result <- work ;;
        postWorkflowCleanup Result Metrics resultFiles resultMetrics generateReportContent
          captureLearningInsights autoGitCommit this context result ;;;
        ret result)
       (fun error =>
          handleWorkflowError Metrics generateReportContent this context error ;;;
          throw error)
       (say (startingLine context) w)).
  unfold tryCatch. unfold bind at 1. split.
  - destruct (preWorkflowSetup _ _ _ _ _) as [[[]|e0] w1].
    + unfold bind at 1. destruct (work w1) as [[r|e1] w2] eqn:Hwork.
      * unfold bind at 1.
        destruct (postWorkflowCleanup _ _ _ _ _ _ _ _ _ _ _) as [[[]|e2] w3] eqn:Hpost.
        -- unfold ret. intros [= <- <-]. exists w1, w2.
           split; [reflexivity|]. split; [exact Hwork|exact Hpost].
        -- unfold bind, throw.
           destruct (handleWorkflowError _ _ _ _ _ _) as [[[]|e3] w4]; discriminate.
      * unfold bind, throw.
        destruct (handleWorkflowError _ _ _ _ _ _) as [[[]|e3] w4]; discriminate.
    + unfold bind, throw.
      destruct (handleWorkflowError _ _ _ _ _ _) as [[[]|e3] w4]; discriminate.
  - intros (w1 & w2 & Hpre & Hwork & Hpost).
    rewrite Hpre. unfold bind at 1. rewrite Hwork. unfold bind at 1. rewrite Hpost.
    reflexivity.
Qed.

End OrchestratorResult.

Section RunEnhancedCli.
Import Js Eff CoreWorkflowEnhancer Cli.

Context `{PostWorkflow.Shell}.
Variable Metrics : Type.
Variable emptyMetrics : Metrics.
Variable generateInstructionContent :
  InstructionManager.InstructionRequest -> jsstring -> jsstring.
Variable generateReportContent :
  ReportManager.ReportData Metrics -> jsstring -> jsstring.
Variable initializeFddWorkflow : jsstring -> M unit.
Variable learningContent : WorkflowContext -> Z -> jsstring -> jsstring -> jsstring.
Variable validateGitRepository : M bool.
Variable processCwd : jsstring.

Local Abbreviation runEnhancedCli :=
  (Cli.runEnhancedCli Metrics emptyMetrics generateInstructionContent
     generateReportContent initializeFddWorkflow learningContent
     validateGitRepository processCwd).

(** X11.  If the repository check and the two printers of [io] never
    reject, [runEnhancedCli] never rejects and resolves to 0 or to 1. *)
Theorem runEnhancedCli_exit_code (argv : list jsstring) (io : CliIO)
    (cwd : option jsstring) (enhancedOpts : EnhancedCliOptions) (w : World) :
  returns validateGitRepository ->
  (forall msg, returns (log io msg)) ->
  (forall msg, returns (error io msg)) ->
  exists code w', runEnhancedCli argv io cwd enhancedOpts w = (Returned code, w') /\
                  (code = 0 \/ code = 1).
Proof.
  intros Hcheck Hlog Herror.
  unfold Cli.runEnhancedCli. cbv zeta.
  set (projectRoot := match cwd with Some (c :: rest) => c :: rest | _ => processCwd end).
  unfold bind at 1.
  assert (Hfirst : exists w0,
            (if notFalse (enableGitCommitRule enhancedOpts)
             then isValidRepo <- validateGitRepository ;;
                  if negb isValidRepo
                  then log io (lit "⚠️ Git repository not available. Git commit enforcement disabled.")
                  else ret tt
             else ret tt) w = (Returned tt, w0)).
  { destruct (notFalse _); [|eexists; reflexivity].
    unfold bind. destruct (Hcheck w) as (b & w0 & ->).
    destruct b; simpl; [eexists; reflexivity|].
    destruct (Hlog (lit "⚠️ Git repository not available. Git commit enforcement disabled.") w0)
      as ([] & w1 & ->). eexists. reflexivity. }
  destruct Hfirst as [w0 ->].
  unfold tryCatch.
  unfold bind at 1. destruct (Hlog (lit "🚀 Enhanced CC-SDD starting...") w0) as ([] & w1 & ->).
  unfold bind at 1.
  destruct (Hlog (lit "📋 Git Commit Rule: " ++ enabledText (enableGitCommitRule enhancedOpts)) w1)
    as ([] & w2 & ->).
  unfold bind at 1.
  destruct (Hlog (lit "🤖 AI Coordination: " ++ enabledText (enableAICoordination enhancedOpts)) w2)
    as ([] & w3 & ->).
  unfold bind at 1.
  destruct (enhancedWorkflow _ _ _ _ _ _ _ _ w3) as [[code|e] w4] eqn:Hwf.
  - assert (Hcode : code = 0).
    { apply enhanceSpecWorkflow_returned in Hwf as (wa & wb & Hret).
      unfold ret in Hret. injection Hret as <- _. reflexivity. }
    unfold bind at 1.
    destruct (Hlog (lit "✅ Enhanced CC-SDD completed successfully!") w4) as ([] & w5 & ->).
    exists code, w5. split; [reflexivity|left; exact Hcode].
  - unfold bind at 1.
    destruct (Herror (lit "❌ Enhanced CC-SDD failed: " ++ messageOrText e) w4) as ([] & w5 & ->).
    exists 1, w5. split; [reflexivity|right; reflexivity].
Qed.

End RunEnhancedCli.

(* ===================================================================== *)
(** * Running a phase of the frontend-driven workflow *)
(* ===================================================================== *)

Section PhaseExecution.
Import Js Eff FDDWorkflowManager FDDExecution.

Context `{Platform}.
Variable Metrics : Type.
Variable generateInstructionContent :
  InstructionManager.InstructionRequest -> jsstring -> jsstring.
Variable generateReportContent :
  ReportManager.ReportData Metrics -> jsstring -> jsstring.
Variable executePhaseWork : FDDPhase -> jsstring -> M (list jsstring).
Variable inspect : JsError -> jsstring.

Local Abbreviation executeFDDPhase :=
  (FDDExecution.executeFDDPhase Metrics generateInstructionContent generateReportContent
     executePhaseWork inspect).
Local Abbreviation createReport :=
  (ReportManager.createReport Metrics generateReportContent).

(** X12.  Along the chain, the report of every phase sends on to the phase
    that follows it ("Proceed to ... phase"), and the report of the last
    phase says "Feature ready for production". *)
Theorem generatePhaseReport_follows_chain (this : FDDWorkflowManager.t)
    (featureName : jsstring) (files : list jsstring) :
  let chain := generateFDDWorkflow this featureName in
  (forall i phase next,
     chain !! i = Some phase -> chain !! S i = Some next ->
     ReportManager.nextActions Metrics
       (generatePhaseReport Metrics phase featureName files) =
       Some [lit "Proceed to " ++ phaseName (name next) ++ lit " phase"]) /\
  (forall phase, last chain = Some phase ->
     ReportManager.nextActions Metrics
       (generatePhaseReport Metrics phase featureName files) =
       Some [lit "Feature ready for production"]).
Proof.
  intros chain. subst chain. unfold generateFDDWorkflow.
  destruct (truthy (enableUserTesting (config this))); split.
  - intros i phase next Hi Hnext.
    do 5 (destruct i as [|i];
          [injection Hi as <-; injection Hnext as <-; reflexivity
          |try discriminate Hnext]).
  - intros phase [= <-]. reflexivity.
  - intros i phase next Hi Hnext.
    do 4 (destruct i as [|i];
          [injection Hi as <-; injection Hnext as <-; reflexivity
          |try discriminate Hnext]).
  - intros phase [= <-]. reflexivity.
Qed.

Local Abbreviation createInstruction :=
  (InstructionManager.createInstruction generateInstructionContent).
Local Abbreviation phaseBody :=
  (FDDExecution.phaseBody Metrics generateInstructionContent generateReportContent
     executePhaseWork).
Local Abbreviation prepareNext := (FDDExecution.prepareNext generateInstructionContent).

(** What the [catch] block does with what it caught. *)
Lemma phaseFailed_run (this : FDDWorkflowManager.t) (phase : FDDPhase)
    (featureName : jsstring) (error : Rejection) (w : World) :
  phaseFailed Metrics generateReportContent inspect this phase featureName error w =
    match createReport (reportManager this) (errorReport Metrics phase featureName error)
            (say (failedLine inspect phase error) w) with
    | (Returned _, w') => (Returned {| success := false; deliverables := [] |}, w')
    | (Thrown e', w') => (Thrown e', w')
    end.
Proof.
  unfold phaseFailed, bind, print, ret. cbv zeta.
  destruct (createReport _ _ _) as [[q|e'] w']; reflexivity.
Qed.

(** What [executeFDDPhase] does, by the outcome of its guarded block and of
    the write of the blocked report. *)
Lemma executeFDDPhase_run (this : FDDWorkflowManager.t) (phase : FDDPhase)
    (featureName : jsstring) (userRequirements : list jsstring) (w : World) :
  executeFDDPhase this phase featureName userRequirements w =
    match phaseBody this phase featureName userRequirements
            (say (startingLine phase featureName) w) with
    | (Returned outcome, w1) => (Returned outcome, w1)
    | (Thrown error, w1) =>
      match createReport (reportManager this) (errorReport Metrics phase featureName error)
              (say (failedLine inspect phase error) w1) with
      | (Returned _, w2) => (Returned {| success := false; deliverables := [] |}, w2)
      | (Thrown e', w2) => (Thrown e', w2)
      end
    end.
Proof.
  unfold FDDExecution.executeFDDPhase, bind, print, tryCatch.
  fold (say (startingLine phase featureName) w).
  destruct (phaseBody _ _ _ _ _) as [[outcome|error] w1]; [reflexivity|].
  apply phaseFailed_run.
Qed.

(** The guarded block returns exactly when its four steps return, one
    after the other. *)
Lemma phaseBody_returns (this : FDDWorkflowManager.t) (phase : FDDPhase)
    (featureName : jsstring) (userRequirements : list jsstring) (w0 w' : World)
    (outcome : PhaseOutcome) :
  phaseBody this phase featureName userRequirements w0 = (Returned outcome, w') <->
  exists path w1 w2 q w3 w4,
    createInstruction (instructionManager this)
      (generatePhaseInstruction phase featureName userRequirements) w0 =
      (Returned path, w1) /\
    executePhaseWork phase featureName w1 = (Returned (deliverables outcome), w2) /\
    createReport (reportManager this)
      (generatePhaseReport Metrics phase featureName (deliverables outcome)) w2 =
      (Returned q, w3) /\
    prepareNext this phase featureName w3 = (Returned tt, w4) /\
    success outcome = true /\
    w' = say (completedLine phase featureName) w4.
Proof.
  unfold FDDExecution.phaseBody. cbv zeta. split.
  - unfold bind at 1.
    destruct (createInstruction _ _ w0) as [[path|e1] w1] eqn:Hinstr; [|discriminate].
    unfold bind at 1.
    destruct (executePhaseWork phase featureName w1) as [[ds|e2] w2] eqn:Hwork;
      [|discriminate].
    unfold bind at 1.
    destruct (createReport _ _ w2) as [[q|e3] w3] eqn:Hreport; [|discriminate].
    unfold bind at 1.
    destruct (prepareNext this phase featureName w3) as [[[]|e4] w4] eqn:Hnext;
      [|discriminate].
    unfold bind, print, ret. intros [= <- <-].
    exists path, w1, w2, q, w3, w4. cbn [deliverables success].
    repeat split; assumption.
  - intros (path & w1 & w2 & q & w3 & w4 & Hinstr & Hwork & Hreport & Hnext & Hs & ->).
    unfold bind at 1. rewrite Hinstr. unfold bind at 1. rewrite Hwork.
    unfold bind at 1. rewrite Hreport. unfold bind at 1. rewrite Hnext.
    unfold bind, print, ret. destruct outcome as [s ds]. cbn [success deliverables] in *.
    rewrite Hs. reflexivity.
Qed.

(** X13.  What [executeFDDPhase] does, world by world.  Once the
    instruction is written: when the work rejects with [error], the error
    line is printed and the blocked report for [error] is created in the
    world the work left; the call resolves with [success: false] and no
    deliverables in the world after that write, or, when the write rejects
    with [e'], rejects with [e'].  So the error of the work reaches the
    caller in no case.  The same holds of whatever the guarded block throws.
    The call resolves with [success: true] exactly when the instruction,
    the work, the completion report and the preparation of the next phase
    return one after the other; the deliverables are then those of the
    work, and the last line printed is the line of completion.  It
    resolves with [success: false] only with no deliverables and after the
    blocked report was written, and it rejects only with what the write of
    the blocked report rejected with. *)
Theorem executeFDDPhase_outcomes (this : FDDWorkflowManager.t) (phase : FDDPhase)
    (featureName : jsstring) (userRequirements : list jsstring) (w : World) :
  (forall path w1 error w2,
     createInstruction (instructionManager this)
       (generatePhaseInstruction phase featureName userRequirements)
       (say (startingLine phase featureName) w) = (Returned path, w1) ->
     executePhaseWork phase featureName w1 = (Thrown error, w2) ->
     executeFDDPhase this phase featureName userRequirements w =
       match createReport (reportManager this)
               (errorReport Metrics phase featureName error)
               (say (failedLine inspect phase error) w2) with
       | (Returned _, w3) => (Returned {| success := false; deliverables := [] |}, w3)
       | (Thrown e', w3) => (Thrown e', w3)
       end) /\
  (forall error w1,
     phaseBody this phase featureName userRequirements
       (say (startingLine phase featureName) w) = (Thrown error, w1) ->
     executeFDDPhase this phase featureName userRequirements w =
       match createReport (reportManager this)
               (errorReport Metrics phase featureName error)
               (say (failedLine inspect phase error) w1) with
       | (Returned _, w2) => (Returned {| success := false; deliverables := [] |}, w2)
       | (Thrown e', w2) => (Thrown e', w2)
       end) /\
  (forall outcome w',
     success outcome = true ->
     (executeFDDPhase this phase featureName userRequirements w = (Returned outcome, w') <->
      exists path w1 w2 q w3 w4,
        createInstruction (instructionManager this)
          (generatePhaseInstruction phase featureName userRequirements)
          (say (startingLine phase featureName) w) = (Returned path, w1) /\
        executePhaseWork phase featureName w1 = (Returned (deliverables outcome), w2) /\
        createReport (reportManager this)
          (generatePhaseReport Metrics phase featureName (deliverables outcome)) w2 =
          (Returned q, w3) /\
        prepareNext this phase featureName w3 = (Returned tt, w4) /\
        w' = say (completedLine phase featureName) w4)) /\
  (forall outcome w',
     executeFDDPhase this phase featureName userRequirements w = (Returned outcome, w') ->
     success outcome = false ->
     outcome = {| success := false; deliverables := [] |} /\
     exists error w1 q,
       phaseBody this phase featureName userRequirements
         (say (startingLine phase featureName) w) = (Thrown error, w1) /\
       createReport (reportManager this) (errorReport Metrics phase featureName error)
         (say (failedLine inspect phase error) w1) = (Returned q, w')) /\
  (forall e' w',
     executeFDDPhase this phase featureName userRequirements w = (Thrown e', w') ->
     exists error w1,
       phaseBody this phase featureName userRequirements
         (say (startingLine phase featureName) w) = (Thrown error, w1) /\
       createReport (reportManager this) (errorReport Metrics phase featureName error)
         (say (failedLine inspect phase error) w1) = (Thrown e', w')).
Proof.
  split; [|split; [|split; [|split]]].
  - intros path w1 error w2 Hinstr Hwork. rewrite executeFDDPhase_run.
    unfold FDDExecution.phaseBody. cbv zeta.
    unfold bind at 1. rewrite Hinstr. unfold bind at 1. rewrite Hwork. reflexivity.
  - intros error w1 Hbody. rewrite executeFDDPhase_run, Hbody. reflexivity.
  - intros outcome w' Hs. rewrite executeFDDPhase_run. split.
    + destruct (phaseBody _ _ _ _ _) as [[outcome0|error] w1] eqn:Hbody.
      * intros [= -> ->]. apply phaseBody_returns in Hbody
          as (path & wa & wb & q & wc & wd & Hi & Hw & Hr & Hn & _ & Hw').
        exists path, wa, wb, q, wc, wd. repeat split; assumption.
      * destruct (createReport _ _ _) as [[q|e'] w2]; [|discriminate].
        intros [= <- _]. discriminate Hs.
    + intros (path & w1 & w2 & q & w3 & w4 & Hi & Hw & Hr & Hn & Hw').
      assert (Hbody : phaseBody this phase featureName userRequirements
                        (say (startingLine phase featureName) w) = (Returned outcome, w')).
      { apply phaseBody_returns. exists path, w1, w2, q, w3, w4.
        repeat split; assumption. }
      rewrite Hbody. reflexivity.
  - intros outcome w'. rewrite executeFDDPhase_run.
    destruct (phaseBody _ _ _ _ _) as [[outcome0|error] w1] eqn:Hbody.
    + intros [= -> ->] Hs.
      apply phaseBody_returns in Hbody as (_ & _ & _ & _ & _ & _ & _ & _ & _ & _ & Ht & _).
      rewrite Ht in Hs. discriminate Hs.
    + destruct (createReport _ _ _) as [[q|e'] w2] eqn:Hreport; [|discriminate].
      intros [= <- <-] _. split; [reflexivity|]. exists error, w1, q.
      split; [reflexivity|exact Hreport].
  - intros e' w'. rewrite executeFDDPhase_run.
    destruct (phaseBody _ _ _ _ _) as [[outcome0|error] w1] eqn:Hbody; [discriminate|].
    destruct (createReport _ _ _) as [[q|e''] w2] eqn:Hreport; [discriminate|].
    intros [= <- <-]. exists error, w1. split; [reflexivity|exact Hreport].
Qed.

End PhaseExecution.

(* ===================================================================== *)
(** * Listings, time stamps and the dashboard *)
(* ===================================================================== *)

Section SortedListings.
Import Js JsText Eff Listing.

Lemma leb_total (s t : jsstring) : leb s t = false -> leb t s = true.
Proof.
  revert t. induction s as [|a s IH]; intros [|b t]; simpl; try done.
  destruct (Z.ltb_spec a b), (Z.eqb_spec a b), (Z.ltb_spec b a), (Z.eqb_spec b a);
    simpl; try lia; try done; apply IH.
Qed.

Lemma leb_trans (s t u : jsstring) :
  leb s t = true -> leb t u = true -> leb s u = true.
Proof.
  revert t u. induction s as [|a s IH]; intros [|b t] [|c u]; simpl; try done.
  rewrite !orb_true_iff, !andb_true_iff, !Z.ltb_lt, !Z.eqb_eq.
  intros [Hab|[-> Hst]] [Hbc|[-> Htu]];
    [left; lia|left; lia|left; lia|right; split; [reflexivity|eauto]].
Qed.

Local Instance notBefore_trans : Transitive (flip notAfter).
Proof. intros a b c Hab Hbc. exact (leb_trans _ _ _ Hbc Hab). Qed.

Lemma insertSorted_hd (x y : jsstring) (xs : list jsstring) :
  notAfter y x -> HdRel notAfter y xs -> HdRel notAfter y (insertSorted x xs).
Proof.
  destruct xs as [|z xs]; simpl; intros Hyx Hhd; [by constructor|].
  destruct (leb x z); constructor; [done|]. by inversion Hhd.
Qed.

Lemma insertSorted_sorted (x : jsstring) (xs : list jsstring) :
  Sorted notAfter xs -> Sorted notAfter (insertSorted x xs).
Proof.
  induction 1 as [|y xs Hs IH Hhd]; simpl.
  - repeat constructor.
  - destruct (leb x y) eqn:Hxy.
    + constructor; [by constructor|by constructor].
    + constructor; [done|]. apply insertSorted_hd; [by apply leb_total|done].
Qed.

Lemma insertSorted_perm (x : jsstring) (xs : list jsstring) :
  insertSorted x xs ≡ₚ x :: xs.
Proof.
  induction xs as [|y xs IH]; simpl; [done|].
  destruct (leb x y); [done|]. rewrite IH. apply Permutation_swap.
Qed.

Lemma sort_sorted (xs : list jsstring) : Sorted notAfter (sort xs).
Proof.
  induction xs as [|x xs IH]; simpl; [constructor|]. by apply insertSorted_sorted.
Qed.

Lemma sort_perm (xs : list jsstring) : sort xs ≡ₚ xs.
Proof.
  induction xs as [|x xs IH]; simpl; [done|]. by rewrite insertSorted_perm, IH.
Qed.

Lemma latestFirst_spec (files : list jsstring) :
  StronglySorted (fun a b => leb b a = true) (latestFirst files) /\
  latestFirst files ≡ₚ List.filter (fun file => endsWith file (lit ".md")) files.
Proof.
  unfold latestFirst. split.
  - apply (Sorted_StronglySorted (flip notAfter)), Sorted_reverse, sort_sorted.
  - by rewrite reverse_Permutation, sort_perm.
Qed.

Context `{FsRead}.

Lemma listing_run (dir : jsstring) (w : World) :
  tryCatch (files <- readdir dir ;; ret (latestFirst files)) (fun _ => ret []) w =
    match fs_readdir dir (env w) with
    | (inr files, d) => (Returned (latestFirst files), {| env := d; console := console w |})
    | (inl _, d) => (Returned [], {| env := d; console := console w |})
    end.
Proof.
  unfold tryCatch, bind, readdir, liftRead, ret.
  destruct (fs_readdir dir (env w)) as [[e|files] d]; reflexivity.
Qed.

Lemma listing_spec (dir : jsstring) (w : World) :
  exists names w',
    tryCatch (files <- readdir dir ;; ret (latestFirst files)) (fun _ => ret []) w =
      (Returned names, w') /\
    console w' = console w /\
    env w' = (fs_readdir dir (env w)).2 /\
    StronglySorted (fun a b => leb b a = true) names /\
    match (fs_readdir dir (env w)).1 with
    | inr files => names ≡ₚ List.filter (fun file => endsWith file (lit ".md")) files
    | inl _ => names = []
    end.
Proof.
  rewrite listing_run. destruct (fs_readdir dir (env w)) as [[e|files] d]; simpl.
  - eexists _, _. split; [reflexivity|]. repeat split. constructor.
  - eexists _, _. split; [reflexivity|]. repeat split; apply latestFirst_spec.
Qed.

(** X14.  [listReports] and [listInstructions] never reject and print
    nothing.  When the directory cannot be read the list is empty;
    otherwise it holds exactly the entries of the directory that end in
    ".md" (each as often as the directory has it), greatest name first:
    every name of the list is not before any later one in the order of
    code units. *)
Theorem listings_latest_first (reports : ReportManager.t)
    (instructions : InstructionManager.t) (ai : Role.t) (w : World) :
  let reportsDir :=
    join [ReportManager.docsPath reports; lit "reports";
          lit "From" ++ Helpers.capitalize (Role.name ai)] in
  let instructionsDir :=
    join [InstructionManager.docsPath instructions; lit "instructions";
          lit "To" ++ Helpers.capitalize (Role.name ai)] in
  (exists names w',
     listReports reports ai w = (Returned names, w') /\
     console w' = console w /\
     env w' = (fs_readdir reportsDir (env w)).2 /\
     StronglySorted (fun a b => leb b a = true) names /\
     match (fs_readdir reportsDir (env w)).1 with
     | inr files => names ≡ₚ List.filter (fun file => endsWith file (lit ".md")) files
     | inl _ => names = []
     end) /\
  (exists names w',
     listInstructions instructions ai w = (Returned names, w') /\
     console w' = console w /\
     env w' = (fs_readdir instructionsDir (env w)).2 /\
     StronglySorted (fun a b => leb b a = true) names /\
     match (fs_readdir instructionsDir (env w)).1 with
     | inr files => names ≡ₚ List.filter (fun file => endsWith file (lit ".md")) files
     | inl _ => names = []
     end).
Proof.
  intros reportsDir instructionsDir. split.
  - exact (listing_spec reportsDir w).
  - exact (listing_spec instructionsDir w).
Qed.

Lemma listReports_returns (this : ReportManager.t) (ai : Role.t) (w : World) :
  exists names w',
    listReports this ai w = (Returned names, w') /\ console w' = console w.
Proof.
  destruct (listing_spec
              (join [ReportManager.docsPath this; lit "reports";
                     lit "From" ++ Helpers.capitalize (Role.name ai)]) w)
    as (names & w' & Hrun & Hc & _).
  exists names, w'. split; [exact Hrun|exact Hc].
Qed.

Lemma getAIStatus_returns (this : ReportManager.t) (ai : Role.t) (title : jsstring)
    (w : World) :
  exists text w',
    getAIStatus this ai title w = (Returned text, w') /\ console w' = console w.
Proof.
  destruct (listReports_returns this ai w) as (names & w' & Hrun & Hc).
  unfold getAIStatus, bind. rewrite Hrun. eexists _, w'. split; [reflexivity|exact Hc].
Qed.

Lemma activityStep_returns (this : ReportManager.t) (activities : M (list jsstring))
    (ai : Role.t) (acts : list jsstring) (w w0 : World) :
  activities w = (Returned acts, w0) -> console w0 = console w ->
  exists acts' w',
    activityStep this activities ai w = (Returned acts', w') /\
    (length acts' <= S (length acts))%nat /\ console w' = console w.
Proof.
  intros Hacts Hc0.
  destruct (listReports_returns this ai w0) as (names & w' & Hrun & Hc).
  unfold activityStep, bind. rewrite Hacts, Hrun. destruct names as [|latest rest].
  - exists acts, w'. split; [reflexivity|]. split; [lia|congruence].
  - eexists _, w'. split; [reflexivity|]. split; [|congruence].
    unfold Arr.push. rewrite length_app. simpl. lia.
Qed.

Lemma getRecentActivity_returns (this : ReportManager.t) (w : World) :
  exists activities w',
    getRecentActivity this w = (Returned activities, w') /\
    (length activities <= 3)%nat /\ console w' = console w.
Proof.
  unfold getRecentActivity. cbn [foldl].
  destruct (activityStep_returns this (ret []) Role.claude [] w w eq_refl eq_refl)
    as (a1 & w1 & H1 & L1 & C1).
  destruct (activityStep_returns this _ Role.gemini a1 w w1 H1 C1)
    as (a2 & w2 & H2 & L2 & C2).
  destruct (activityStep_returns this _ Role.codex a2 w w2 H2 C2)
    as (a3 & w3 & H3 & L3 & C3).
  exists (take 5 a3), w3. split; [|split].
  - unfold bind at 1. rewrite H3. reflexivity.
  - rewrite length_take. simpl in L1. lia.
  - exact C3.
Qed.

(** X15.  [getRecentActivity] never rejects, prints nothing and returns at
    most three lines, so its [slice(0, 5)] never drops a line; and
    [generateStatusDashboard] never rejects and prints nothing, whatever
    the file system does. *)
Theorem generateStatusDashboard_returns (this : ReportManager.t) (w : World) :
  (exists activities w',
     getRecentActivity this w = (Returned activities, w') /\
     (length activities <= 3)%nat /\ console w' = console w) /\
  (exists dashboard w',
     generateStatusDashboard this w = (Returned dashboard, w') /\
     console w' = console w).
Proof.
  split; [apply getRecentActivity_returns|].
  destruct (getAIStatus_returns this Role.claude (lit "🎯 Claude Code (司令塔)") w)
    as (t1 & w1 & H1 & C1).
  destruct (getAIStatus_returns this Role.gemini (lit "⚡ Gemini (実装)") w1)
    as (t2 & w2 & H2 & C2).
  destruct (getAIStatus_returns this Role.codex (lit "🔍 Codex (品質ゲート)") w2)
    as (t3 & w3 & H3 & C3).
  destruct (getRecentActivity_returns this w3) as (acts & w4 & H4 & _ & C4).
  unfold generateStatusDashboard, bind. rewrite H1, H2, H3, H4.
  eexists _, w4. split; [reflexivity|congruence].
Qed.

End SortedListings.

Section TimeStamps.
Import Js JsText Eff Listing Helpers.

Lemma digits_small (fuel : nat) (n : Z) (acc : jsstring) :
  0 <= n < 10 -> digits (S fuel) n acc = (0x30 + n) :: acc.
Proof.
  intros Hn. cbn [digits]. rewrite Z.mod_small by lia.
  destruct (Z.ltb_spec n 10); [reflexivity|lia].
Qed.

Lemma digits_big (fuel : nat) (n : Z) (acc : jsstring) :
  10 <= n -> digits (S fuel) n acc = digits fuel (n / 10) ((0x30 + n mod 10) :: acc).
Proof.
  intros Hn. cbn [digits]. destruct (Z.ltb_spec n 10); [lia|reflexivity].
Qed.

Lemma digits_isDigit (fuel : nat) (n : Z) (acc : jsstring) :
  0 <= n -> forallb isDigit acc = true -> forallb isDigit (digits fuel n acc) = true.
Proof.
  revert n acc. induction fuel as [|fuel IH]; intros n acc Hn Hacc; [exact Hacc|].
  assert (Hd : forallb isDigit ((0x30 + n mod 10) :: acc) = true).
  { cbn [forallb]. rewrite Hacc, andb_true_r. unfold isDigit.
    pose proof (Z.mod_pos_bound n 10). apply andb_true_iff. split; apply Z.leb_le; lia. }
  cbn [digits]. destruct (n <? 10); [exact Hd|].
  apply IH; [apply Z.div_pos; lia|exact Hd].
Qed.

Lemma toString_isDigit (n : Z) : 0 <= n -> forallb isDigit (toString n) = true.
Proof.
  intros Hn. unfold toString. destruct (Z.ltb_spec n 0); [lia|].
  by apply digits_isDigit.
Qed.

Lemma fuel_for (n : Z) (k : nat) :
  2 ^ Z.of_nat k <= n -> exists fuel, (Z.to_nat (Z.log2 n) + 1)%nat = (S k + fuel)%nat.
Proof.
  intros Hn. assert (Z.of_nat k <= Z.log2 n).
  { rewrite <- (Z.log2_pow2 (Z.of_nat k)) by lia. apply Z.log2_le_mono, Hn. }
  exists (Z.to_nat (Z.log2 n) - k)%nat. lia.
Qed.

Lemma length_toString_1 (n : Z) : 0 <= n < 10 -> length (toString n) = 1%nat.
Proof.
  intros Hn. unfold toString. destruct (Z.ltb_spec n 0); [lia|].
  rewrite Nat.add_1_r, digits_small by lia. reflexivity.
Qed.

Lemma length_toString_2 (n : Z) : 10 <= n < 100 -> length (toString n) = 2%nat.
Proof.
  intros Hn. unfold toString. destruct (Z.ltb_spec n 0); [lia|].
  destruct (fuel_for n 1) as [fuel ->]; [simpl; lia|].
  cbn [Nat.add]. rewrite digits_big by lia.
  rewrite digits_small by (Z.div_mod_to_equations; lia). reflexivity.
Qed.

Lemma length_toString_4 (n : Z) : 1000 <= n < 10000 -> length (toString n) = 4%nat.
Proof.
  intros Hn. unfold toString. destruct (Z.ltb_spec n 0); [lia|].
  destruct (fuel_for n 3) as [fuel ->]; [simpl; lia|].
  cbn [Nat.add]. rewrite digits_big by lia.
  rewrite digits_big by (Z.div_mod_to_equations; lia).
  rewrite digits_big by (Z.div_mod_to_equations; lia).
  rewrite digits_small by (Z.div_mod_to_equations; lia). reflexivity.
Qed.

Lemma pad2_two_digits (n : Z) :
  0 <= n < 100 -> length (pad2 n) = 2%nat /\ forallb isDigit (pad2 n) = true.
Proof.
  intros Hn. unfold pad2, padStart.
  pose proof (toString_isDigit n ltac:(lia)) as Hd.
  destruct (Z.lt_ge_cases n 10) as [Hlt|Hge].
  - rewrite length_toString_1 by lia. split.
    + rewrite length_app, length_toString_1 by lia. reflexivity.
    + rewrite forallb_app, Hd. reflexivity.
  - rewrite length_toString_2 by lia. split.
    + rewrite length_app, length_toString_2 by lia. reflexivity.
    + rewrite forallb_app, Hd. reflexivity.
Qed.

Lemma substring_at (pre x post : jsstring) (a b : nat) :
  length pre = a -> length x = (b - a)%nat ->
  substring a b (pre ++ x ++ post) = x.
Proof.
  intros Ha Hb. unfold substring.
  rewrite drop_app_length' by (symmetry; exact Ha).
  rewrite take_app_length' by (symmetry; exact Hb).
  reflexivity.
Qed.

(** A time stamp of twelve units is laid out as [YYYY-MM-DD HH:mm]. *)
Lemma formatTimestamp_fields (y m d h mi : jsstring) :
  length y = 4%nat -> length m = 2%nat -> length d = 2%nat -> length h = 2%nat ->
  length mi = 2%nat ->
  formatTimestamp (y ++ m ++ d ++ h ++ mi) =
    y ++ lit "-" ++ m ++ lit "-" ++ d ++ lit " " ++ h ++ lit ":" ++ mi.
Proof.
  intros Hy Hm Hd Hh Hmi. unfold formatTimestamp.
  assert (Hlen : length (y ++ m ++ d ++ h ++ mi) = 12%nat).
  { rewrite !length_app. lia. }
  rewrite !bool_decide_eq_false_2.
  2: { intros Heq. rewrite Heq in Hlen. discriminate Hlen. }
  2: { intros Heq. rewrite Heq in Hlen. vm_compute in Hlen. discriminate Hlen. }
  2: { intros Heq. rewrite Heq in Hlen. vm_compute in Hlen. discriminate Hlen. }
  cbn [orb]. cbv zeta.
  pose proof (substring_at [] y (m ++ d ++ h ++ mi) 0 4 eq_refl Hy) as Hyear.
  change (substring 0 4 (y ++ m ++ d ++ h ++ mi) = y) in Hyear. rewrite Hyear.
  rewrite (substring_at y m (d ++ h ++ mi) 4 6) by (simpl; lia).
  replace (y ++ m ++ d ++ h ++ mi) with ((y ++ m) ++ d ++ h ++ mi)
    by (by rewrite <- app_assoc).
  rewrite (substring_at (y ++ m) d (h ++ mi) 6 8) by (rewrite ?length_app; simpl; lia).
  replace ((y ++ m) ++ d ++ h ++ mi) with ((y ++ m ++ d) ++ h ++ mi ++ [])
    by (by rewrite app_nil_r, <- !app_assoc).
  rewrite (substring_at (y ++ m ++ d) h (mi ++ []) 8 10)
    by (rewrite ?length_app; simpl; lia).
  replace ((y ++ m ++ d) ++ h ++ mi ++ []) with ((y ++ m ++ d ++ h) ++ mi ++ [])
    by (by rewrite <- !app_assoc).
  rewrite (substring_at (y ++ m ++ d ++ h) mi [] 10 12)
    by (rewrite ?length_app; simpl; lia).
  reflexivity.
Qed.

Context `{Platform}.

(** X16.  For a date with a year of four digits, [generateTimestamp]
    returns twelve decimal digits, and [formatTimestamp] lays them out as
    [YYYY-MM-DD HH:mm]: the year, the month counted from one, the day, the
    hours and the minutes of the clock, the last four padded to two
    digits. *)
Theorem generateTimestamp_twelve_digits (w : World) :
  1000 <= getFullYear (clock (env w)) <= 9999 ->
  0 <= getMonth (clock (env w)) <= 11 ->
  1 <= getDate (clock (env w)) <= 31 ->
  0 <= getHours (clock (env w)) <= 23 ->
  0 <= getMinutes (clock (env w)) <= 59 ->
  exists timestamp,
    generateTimestamp w = (Returned timestamp, w) /\
    length timestamp = 12%nat /\
    forallb isDigit timestamp = true /\
    formatTimestamp timestamp =
      toString (getFullYear (clock (env w))) ++ lit "-" ++
      pad2 (getMonth (clock (env w)) + 1) ++ lit "-" ++
      pad2 (getDate (clock (env w))) ++ lit " " ++
      pad2 (getHours (clock (env w))) ++ lit ":" ++
      pad2 (getMinutes (clock (env w))).
Proof.
  intros Hy Hm Hd Hh Hmi. exists (stamp (clock (env w))).
  split; [reflexivity|]. unfold stamp.
  assert (Ly : length (toString (getFullYear (clock (env w)))) = 4%nat)
    by (apply length_toString_4; lia).
  pose proof (toString_isDigit (getFullYear (clock (env w))) ltac:(lia)) as Dy.
  destruct (pad2_two_digits (getMonth (clock (env w)) + 1) ltac:(lia)) as [Lm Dm].
  destruct (pad2_two_digits (getDate (clock (env w))) ltac:(lia)) as [Ld Dd].
  destruct (pad2_two_digits (getHours (clock (env w))) ltac:(lia)) as [Lh Dh].
  destruct (pad2_two_digits (getMinutes (clock (env w))) ltac:(lia)) as [Lmi Dmi].
  split; [rewrite !length_app; lia|]. split.
  - rewrite !forallb_app, Dy, Dm, Dd, Dh, Dmi. reflexivity.
  - by apply formatTimestamp_fields.
Qed.

End TimeStamps.

Lemma generateTimestamp_twelve_digits_witness :
  exists timestamp,
    @Helpers.generateTimestamp Sample.writable (Sample.start Sample.anywhere) =
      (Eff.Returned timestamp, Sample.start Sample.anywhere) /\
    length timestamp = 12%nat /\
    forallb Js.isDigit timestamp = true /\
    Listing.formatTimestamp timestamp = Js.lit "2026-11-02 09:05".
Proof.
  exact (@generateTimestamp_twelve_digits Sample.writable (Sample.start Sample.anywhere)
           ltac:(simpl; lia) ltac:(simpl; lia) ltac:(simpl; lia) ltac:(simpl; lia)
           ltac:(simpl; lia)).
Defined.

(** ** The name of a report, read back by the dashboard *)

Section ReportNames.
Import Js JsText Eff Listing Helpers ReportManager.

Lemma forallb_weaken {A} (p q : A -> bool) (l : list A) :
  (forall a, p a = true -> q a = true) -> forallb p l = true -> forallb q l = true.
Proof.
  intros Hpq. induction l as [|a l IH]; simpl; [reflexivity|].
  rewrite !andb_true_iff. intros [Ha Hl]. split; [apply Hpq, Ha|apply IH, Hl].
Qed.

Lemma firstDigits12_eq (s : jsstring) :
  firstDigits12 s =
    if (12 <=? length s)%nat && forallb isDigit (take 12 s) then Some (take 12 s)
    else match s with
         | [] => None
         | _ :: s' => firstDigits12 s'
         end.
Proof. destruct s; reflexivity. Qed.

Lemma firstDigits12_here (timestamp rest : jsstring) :
  length timestamp = 12%nat -> forallb isDigit timestamp = true ->
  firstDigits12 (timestamp ++ rest) = Some timestamp.
Proof.
  intros Hlen Hd. rewrite firstDigits12_eq.
  rewrite take_app_length' by (symmetry; exact Hlen). rewrite Hd, length_app, Hlen.
  reflexivity.
Qed.

Lemma firstDigits12_skip (pre s : jsstring) :
  forallb (fun c => negb (isDigit c)) pre = true ->
  firstDigits12 (pre ++ s) = firstDigits12 s.
Proof.
  induction pre as [|a pre IH]; [reflexivity|].
  cbn [forallb]. rewrite andb_true_iff. intros [Ha Hpre].
  rewrite firstDigits12_eq.
  change ((a :: pre) ++ s) with (a :: (pre ++ s)).
  change (take 12 (a :: (pre ++ s))) with (a :: take 11 (pre ++ s)).
  cbn [forallb]. apply negb_true_iff in Ha. rewrite Ha, andb_false_r.
  apply IH, Hpre.
Qed.

Lemma split_field (c : Z) (x s : jsstring) :
  forallb (fun a => negb (a =? c)) x = true ->
  split c (x ++ c :: s) = x :: split c s.
Proof.
  induction x as [|a x IH].
  - intros _. cbn [app split]. rewrite Z.eqb_refl. reflexivity.
  - cbn [forallb]. rewrite andb_true_iff. intros [Ha Hx].
    change ((a :: x) ++ c :: s) with (a :: (x ++ c :: s)). cbn [split].
    apply negb_true_iff in Ha. rewrite Ha, (IH Hx). reflexivity.
Qed.

Lemma split_nonempty (c : Z) (s : jsstring) : split c s <> [].
Proof.
  destruct s as [|a s]; cbn [split]; [discriminate|].
  destruct (a =? c); [discriminate|]. destruct (split c s); discriminate.
Qed.

Lemma joinWith_cons (sep x : jsstring) (rest : list jsstring) :
  rest <> [] -> joinWith sep (x :: rest) = x ++ sep ++ joinWith sep rest.
Proof. destruct rest; [done|reflexivity]. Qed.

(** [s.split(c).join(c)] is [s]. *)
Lemma joinWith_split (c : Z) (s : jsstring) : joinWith [c] (split c s) = s.
Proof.
  induction s as [|a s IH]; [reflexivity|].
  cbn [split]. pose proof (split_nonempty c s) as Hne.
  destruct (split c s) as [|field fields]; [done|].
  destruct (Z.eqb_spec a c) as [->|Hac].
  - rewrite joinWith_cons by done. rewrite IH. reflexivity.
  - destruct fields as [|field' fields].
    + cbn [joinWith] in *. by rewrite IH.
    + rewrite joinWith_cons by done. rewrite joinWith_cons in IH by done.
      by rewrite <- IH.
Qed.

Lemma removeFirst_eq (t s : jsstring) :
  removeFirst t s =
    if startsWith s t then drop (length t) s
    else match s with
         | [] => []
         | a :: s' => a :: removeFirst t s'
         end.
Proof. destruct s; reflexivity. Qed.

Lemma removeFirst_extension (x : jsstring) :
  forallb (fun c => negb (c =? 0x2E)) x = true ->
  removeFirst (lit ".md") (x ++ lit ".md") = x.
Proof.
  change (lit ".md") with [0x2E; 0x6D; 0x64].
  induction x as [|a x IH]; [reflexivity|].
  cbn [forallb]. rewrite andb_true_iff. intros [Ha Hx].
  rewrite removeFirst_eq.
  change ((a :: x) ++ [0x2E; 0x6D; 0x64]) with (a :: (x ++ [0x2E; 0x6D; 0x64])).
  cbn [startsWith].
  apply negb_true_iff in Ha. rewrite Ha. cbn [andb]. by rewrite (IH Hx).
Qed.

Lemma endsWith_app (x t : jsstring) : endsWith (x ++ t) t = true.
Proof.
  unfold endsWith. rewrite length_app. apply andb_true_iff. split.
  - apply Nat.leb_le. lia.
  - apply bool_decide_eq_true_2.
    replace (length x + length t - length t)%nat with (length x) by lia.
    by rewrite drop_app_length.
Qed.

Lemma slugChar_not_dot (c : Z) : slugChar c = true -> negb (c =? 0x2E) = true.
Proof.
  unfold slugChar, isLowerAZ, isDigit.
  rewrite !orb_true_iff, !andb_true_iff, !Z.leb_le, Z.eqb_eq, negb_true_iff, Z.eqb_neq.
  lia.
Qed.

Lemma isDigit_not_dot (c : Z) : isDigit c = true -> negb (c =? 0x2E) = true.
Proof.
  unfold isDigit. rewrite andb_true_iff, !Z.leb_le, negb_true_iff, Z.eqb_neq. lia.
Qed.

Context `{Platform}.
Variable Metrics : Type.

Lemma sanitizeTaskName_slugChars (task : jsstring) :
  forallb slugChar (ReportManager.sanitizeTaskName task) = true.
Proof.
  unfold ReportManager.sanitizeTaskName, Helpers.sanitizeTaskName, substring0.
  apply forallb_take, replaceRuns_slugChars, removeOutside_inside.
Qed.

Lemma fileName_prefix (data : ReportData Metrics) (timestamp : jsstring) :
  fileName Metrics data timestamp =
    (Role.name (from data) ++ lit "_from_" ++ statusName (status data) ++ lit "_") ++
    timestamp ++ lit "_" ++ ReportManager.sanitizeTaskName (task data) ++ lit ".md".
Proof. unfold fileName. by rewrite <- !app_assoc. Qed.

Lemma fileName_fields (data : ReportData Metrics) (timestamp : jsstring) :
  fileName Metrics data timestamp =
    Role.name (from data) ++ 0x5F :: lit "from" ++ 0x5F :: statusHead (status data) ++
    0x5F :: (statusRest (status data) ++ timestamp ++ lit "_" ++
             ReportManager.sanitizeTaskName (task data)) ++ lit ".md".
Proof.
  unfold fileName. rewrite <- !app_assoc.
  generalize (timestamp ++ lit "_" ++ ReportManager.sanitizeTaskName (task data) ++ lit ".md").
  intros tail. destruct (from data), (status data); reflexivity.
Qed.

(** X17.  The name under which [createReport] stores a report ends in
    ".md", so the listing keeps it.  The first twelve digits in a row of the
    name are its time stamp, so the dashboard shows the time the report was
    made.  The task text of the recent activity is what follows the third
    underscore, without ".md": the time stamp again, an underscore and the
    slug of the task, with "progress_" in front when the status is
    "in_progress". *)
Theorem report_name_read_back (data : ReportData Metrics) (timestamp : jsstring) :
  length timestamp = 12%nat ->
  forallb isDigit timestamp = true ->
  endsWith (fileName Metrics data timestamp) (lit ".md") = true /\
  firstDigits12 (fileName Metrics data timestamp) = Some timestamp /\
  taskText (fileName Metrics data timestamp) =
    statusRest (status data) ++ timestamp ++ lit "_" ++
    ReportManager.sanitizeTaskName (task data).
Proof.
  intros Hlen Hd. split; [|split].
  - unfold fileName. rewrite !app_assoc. apply endsWith_app.
  - rewrite fileName_prefix, firstDigits12_skip.
    + by apply firstDigits12_here.
    + destruct (from data), (status data); vm_compute; reflexivity.
  - rewrite fileName_fields. unfold taskText.
    rewrite split_field by (destruct (from data); vm_compute; reflexivity).
    rewrite split_field by (vm_compute; reflexivity).
    rewrite split_field by (destruct (status data); vm_compute; reflexivity).
    cbn [drop]. rewrite drop_0. change (joinWith (lit "_")) with (joinWith [0x5F]).
    rewrite joinWith_split.
    apply removeFirst_extension. rewrite !forallb_app.
    rewrite (forallb_weaken _ _ _ isDigit_not_dot Hd).
    rewrite (forallb_weaken _ _ _ slugChar_not_dot (sanitizeTaskName_slugChars _)).
    destruct (status data); reflexivity.
Qed.

End ReportNames.

(* ===================================================================== *)
(** * The slash commands and the todo list of the command line *)
(* ===================================================================== *)

Section SlashCommands.
Import Js JsText TodoEnhancer SlashCommandEnhancer.

Variable toLowerCase : jsstring -> jsstring.
Hypothesis toLowerCase_plain : LowerCaseSpec toLowerCase.

Local Abbreviation rule1 := (addGitCommitRule toLowerCase).
Local Abbreviation rule2 := (addLearningCapture toLowerCase).

Lemma plain_lit_app (a b c : jsstring) :
  plain a = true -> plain b = true -> plain c = true -> plain (a ++ b ++ c) = true.
Proof. intros Ha Hb Hc. rewrite !plain_app, Ha, Hb, Hc. reflexivity. Qed.

(** A list with a document item has, after the two rules, a commit item. *)
Lemma rules_add_commit (todos : list TodoItem) (x : TodoItem) :
  In x todos -> matchesAny toLowerCase documentKeywords x = true ->
  hasGitCommit toLowerCase (rule2 (rule1 todos)) = true.
Proof.
  intros Hin Hx. apply rule2_keeps_commit.
  pose proof (rule1_settles toLowerCase toLowerCase_plain todos) as Hs.
  unfold settled1 in Hs.
  assert (Hd : hasDocumentCreation toLowerCase (rule1 todos) = true).
  { apply (some_found _ _ x); [|exact Hx].
    apply (sublist_In todos); [apply addGitCommitRule_sublist|exact Hin]. }
  rewrite Hd in Hs. exact Hs.
Qed.

(** A list with a trigger item has, after the two rules, a learning item. *)
Lemma rules_add_learning (todos : list TodoItem) (x : TodoItem) :
  In x todos -> matchesAny toLowerCase learningTriggers x = true ->
  hasLearningTask toLowerCase (rule2 (rule1 todos)) = true.
Proof.
  intros Hin Hx.
  pose proof (rule2_settles toLowerCase toLowerCase_plain (rule1 todos)) as Hs.
  unfold settled2 in Hs.
  assert (Ho : hasLearningOpportunity toLowerCase (rule2 (rule1 todos)) = true).
  { apply (some_found _ _ x); [|exact Hx].
    apply (sublist_In (rule1 todos)); [apply addLearningCapture_sublist|].
    apply (sublist_In todos); [apply addGitCommitRule_sublist|exact Hin]. }
  rewrite Ho in Hs. exact Hs.
Qed.

Lemma instruction_item_matches (piece : jsstring) (form : jsstring) :
  plain piece = true ->
  matchesAny toLowerCase documentKeywords
    {| content := lit "Create AI instruction document for " ++ piece ++ lit " phase";
       activeForm := form; status := pending |} = true.
Proof.
  intros Hp. rewrite (matchesAny_plain toLowerCase toLowerCase_plain);
    [|vm_compute; reflexivity|apply plain_lit_app; [reflexivity|exact Hp|reflexivity]].
  apply (some_found _ _ (lit "instruction")).
  - unfold documentKeywords. cbn [In]. right. left. reflexivity.
  - unfold contentIncludes. cbn [content]. apply includes_spec.
    exists (lit "create ai "), (lit " document for " ++ asciiLowerCase (piece ++ lit " phase")).
    unfold asciiLowerCase. rewrite !map_app. reflexivity.
Qed.

(** X18.  The implementation command always ends with a commit item and a
    learning item in the list, and the spec commands (the text after the
    colon being plain) always end with a commit item: in both, the new tasks
    followed by the todos given are kept, in their order. *)
Theorem slash_commands_add_commit_item :
  (forall args todos,
     implementationTasks (featureOf args) ++ todos
       `sublist_of` enhanceImplementationCommand toLowerCase args todos /\
     hasGitCommit toLowerCase (enhanceImplementationCommand toLowerCase args todos) = true /\
     hasLearningTask toLowerCase (enhanceImplementationCommand toLowerCase args todos) = true) /\
  (forall command args todos,
     plain (afterColon command) = true ->
     coordinationTasks command (featureOf args) ++ todos
       `sublist_of` enhanceSpecCommand toLowerCase command args todos /\
     hasGitCommit toLowerCase (enhanceSpecCommand toLowerCase command args todos) = true).
Proof.
  split.
  - intros args todos. split; [apply enhanceTodos_sublist|].
    set (report := {| content := lit "Generate implementation report";
                      activeForm := lit "Generating implementation report";
                      status := pending |}).
    assert (Hin : In report (implementationTasks (featureOf args) ++ todos)).
    { apply in_or_app. left. unfold implementationTasks. cbn [In]. auto. }
    split.
    + apply (rules_add_commit _ report Hin).
      rewrite (matchesAny_plain toLowerCase toLowerCase_plain);
        vm_compute; reflexivity.
    + apply (rules_add_learning _ report Hin).
      rewrite (matchesAny_plain toLowerCase toLowerCase_plain);
        vm_compute; reflexivity.
  - intros command args todos Hp. split; [apply enhanceTodos_sublist|].
    apply (rules_add_commit _
             {| content := lit "Create AI instruction document for " ++ afterColon command ++
                           lit " phase";
                activeForm := lit "Creating AI instruction document for " ++
                              afterColon command ++ lit " phase";
                status := pending |}).
    + apply in_or_app. left. unfold coordinationTasks. cbn [In]. auto.
    + apply instruction_item_matches, Hp.
Qed.

(** X19.  [enhanceTodoList] only ever adds items, and it returns the list
    as it is unless [enableGitCommitRule] is given as [true]: with the flag
    left out, for which the command line prints the rule as "Enabled",
    nothing is added. *)
Theorem enhanceTodoList_needs_the_flag (todos : list TodoItem)
    (options : Cli.EnhancedCliOptions) :
  todos `sublist_of` Cli.enhanceTodoList toLowerCase todos options /\
  (Cli.enableGitCommitRule options = Some true \/
   Cli.enhanceTodoList toLowerCase todos options = todos) /\
  (Cli.enableGitCommitRule options = None ->
   Cli.enabledText (Cli.enableGitCommitRule options) = lit "Enabled" /\
   Cli.enhanceTodoList toLowerCase todos options = todos).
Proof.
  unfold Cli.enhanceTodoList.
  destruct (Cli.enableGitCommitRule options) as [[|]|]; cbn [truthy default negb].
  - split; [apply enhanceTodos_sublist|]. split; [left; reflexivity|discriminate].
  - split; [reflexivity|]. split; [right; reflexivity|discriminate].
  - split; [reflexivity|]. split; [right; reflexivity|]. intros _. split; reflexivity.
Qed.

End SlashCommands.

(* ===================================================================== *)
(** * The build script *)
(* ===================================================================== *)

Section ShebangScript.
Import Js Eff Listing AddShebang.

Context `{FsRead}.
Variable processCwd : jsstring.

Local Abbreviation main := (AddShebang.main processCwd).
Local Abbreviation cliPath := (AddShebang.cliPath processCwd).

(** What the script does, by the outcome of its two file-system calls. *)
Lemma main_run (w : World) :
  main w =
    match fs_readFile cliPath (env w) with
    | (inl error, d) =>
      (Returned tt, say (warning error) {| env := d; console := console w |})
    | (inr content, d) =>
      if startsWith content shebang
      then (Returned tt, say present {| env := d; console := console w |})
      else match fs_writeFile cliPath (shebang ++ [0x0A] ++ content) d with
           | (None, d') =>
             (Returned tt, say added {| env := d'; console := console w |})
           | (Some error, d') =>
             (Returned tt, say (warning error) {| env := d'; console := console w |})
           end
    end.
Proof.
  unfold AddShebang.main, tryCatch, bind, readFile, liftRead.
  destruct (fs_readFile cliPath (env w)) as [[error|content] d]; [reflexivity|].
  destruct (startsWith content shebang); [reflexivity|]. cbn [negb].
  unfold writeFile, liftFs. cbn [env console].
  destruct (fs_writeFile cliPath (shebang ++ [0x0A] ++ content) d) as [[error|] d'];
    reflexivity.
Qed.

(** X20.  The build script never rejects and prints exactly one line,
    whatever the file system does; it writes the file only when the file
    was read and does not start with the interpreter line, and what it
    writes starts with that line. *)
Theorem addShebang_never_rejects (w : World) :
  exists w' line,
    main w = (Returned tt, w') /\
    console w' = console w ++ [line] /\
    (env w' = (fs_readFile cliPath (env w)).2 \/
     exists content,
       (fs_readFile cliPath (env w)).1 = inr content /\
       startsWith content shebang = false /\
       startsWith (shebang ++ [0x0A] ++ content) shebang = true /\
       env w' = (fs_writeFile cliPath (shebang ++ [0x0A] ++ content)
                   (fs_readFile cliPath (env w)).2).2).
Proof.
  rewrite main_run.
  destruct (fs_readFile cliPath (env w)) as [[error|content] d].
  - eexists _, _. split; [reflexivity|]. split; [reflexivity|]. left. reflexivity.
  - destruct (startsWith content shebang) eqn:Hstart.
    + eexists _, _. split; [reflexivity|]. split; [reflexivity|]. left. reflexivity.
    + assert (Hnew : startsWith (shebang ++ [0x0A] ++ content) shebang = true).
      { apply startsWith_spec. eexists. reflexivity. }
      cbn [fst snd].
      destruct (fs_writeFile cliPath (shebang ++ [0x0A] ++ content) d) as [[error|] d']
        eqn:Hwrite;
        eexists _, _; (split; [reflexivity|]); (split; [reflexivity|]);
        right; exists content; (split; [reflexivity|]); (split; [exact Hstart|]);
        (split; [exact Hnew|rewrite Hwrite; reflexivity]).
Qed.

(** X21.  Run twice, the script changes the file once: when the first run
    has added the interpreter line and the file reads back as it was
    written, the second run finds the line and writes nothing. *)
Theorem addShebang_twice (w : World) (content : jsstring) (d d' d'' : Env) :
  fs_readFile cliPath (env w) = (inr content, d) ->
  startsWith content shebang = false ->
  fs_writeFile cliPath (shebang ++ [0x0A] ++ content) d = (None, d') ->
  fs_readFile cliPath d' = (inr (shebang ++ [0x0A] ++ content), d'') ->
  (main ;;; main) w =
    (Returned tt, {| env := d''; console := console w ++ [added; present] |}).
Proof.
  intros Hread Hstart Hwrite Hback.
  unfold bind. rewrite main_run, Hread, Hstart, Hwrite.
  rewrite main_run. cbn [env console say]. rewrite Hback.
  replace (startsWith (shebang ++ [0x0A] ++ content) shebang) with true
    by (symmetry; apply startsWith_spec; eexists; reflexivity).
  unfold say. cbn [env console]. rewrite <- app_assoc. reflexivity.
Qed.

End ShebangScript.

(* ===================================================================== *)
(** * The properties at work on the sample platform *)
(* ===================================================================== *)

Lemma enhanceTodos_stable_after_two_passes_witness :
  Js.LowerCaseSpec Js.asciiLowerCase /\
  TodoEnhancer.enhanceTodos Js.asciiLowerCase TodoEnhancer.defaultEnhancer
    (TodoEnhancer.enhanceTodos Js.asciiLowerCase TodoEnhancer.defaultEnhancer
       (TodoEnhancer.enhanceTodos Js.asciiLowerCase TodoEnhancer.defaultEnhancer
          [implementTask])) =
  TodoEnhancer.enhanceTodos Js.asciiLowerCase TodoEnhancer.defaultEnhancer
    (TodoEnhancer.enhanceTodos Js.asciiLowerCase TodoEnhancer.defaultEnhancer [implementTask]).
Proof.
  split; [exact asciiLowerCase_spec|].
  apply (enhanceTodos_stable_after_two_passes Js.asciiLowerCase asciiLowerCase_spec).
Defined.

Lemma enhanceTodos_idempotent_when_witness :
  TodoEnhancer.hasGitCommit Js.asciiLowerCase [reportTask; commitTask] = true /\
  TodoEnhancer.enhanceTodos Js.asciiLowerCase TodoEnhancer.defaultEnhancer
    (TodoEnhancer.enhanceTodos Js.asciiLowerCase TodoEnhancer.defaultEnhancer
       [reportTask; commitTask]) =
  TodoEnhancer.enhanceTodos Js.asciiLowerCase TodoEnhancer.defaultEnhancer
    [reportTask; commitTask].
Proof.
  split; [vm_compute; reflexivity|].
  apply (enhanceTodos_idempotent_when Js.asciiLowerCase asciiLowerCase_spec).
  left. vm_compute. reflexivity.
Defined.

Lemma validateTodos_accepts_enhanced_when_witness :
  TodoEnhancer.validateTodos Js.asciiLowerCase TodoEnhancer.defaultEnhancer
    (TodoEnhancer.enhanceTodos Js.asciiLowerCase TodoEnhancer.defaultEnhancer
       docAndImplement) =
    {| TodoEnhancer.valid := true; TodoEnhancer.violations := [] |}.
Proof.
  apply (validateTodos_accepts_enhanced_when Js.asciiLowerCase asciiLowerCase_spec
           docAndImplement).
  intros todo Hin Hc. unfold docAndImplement in Hin. cbn [In] in Hin.
  destruct Hin as [<-|[<-|[]]]; vm_compute in Hc; discriminate Hc.
Defined.

Lemma enhanceTodos_adds_rule_items_once_witness :
  (length (TodoEnhancer.enhanceTodos Js.asciiLowerCase TodoEnhancer.defaultEnhancer
             docAndImplement) <= length docAndImplement + 2)%nat /\
  (TodoCount.copies TodoEnhancer.gitCommitTask
     (TodoEnhancer.enhanceTodos Js.asciiLowerCase TodoEnhancer.defaultEnhancer
        docAndImplement) <=
     Nat.max 1 (TodoCount.copies TodoEnhancer.gitCommitTask docAndImplement))%nat /\
  (TodoCount.copies TodoEnhancer.learningTask
     (TodoEnhancer.enhanceTodos Js.asciiLowerCase TodoEnhancer.defaultEnhancer
        docAndImplement) <=
     Nat.max 1 (TodoCount.copies TodoEnhancer.learningTask docAndImplement))%nat.
Proof.
  exact (enhanceTodos_adds_rule_items_once Js.asciiLowerCase asciiLowerCase_spec
           TodoEnhancer.defaultEnhancer docAndImplement).
Defined.

Lemma enhanceSpecWorkflow_returns_result_whatever_git_witness :
  exists w5, SampleShell.quietRun false (Eff.ret 7) = (Eff.Returned 7, w5).
Proof.
  refine (@enhanceSpecWorkflow_returns_result_whatever_git Sample.writable
            (SampleShell.shell Sample.anywhere false) Z unit
            (fun _ => []) (fun _ => tt) (fun _ => None)
            (fun _ => false) (fun _ => false) (fun _ => false) (fun _ _ _ _ => [])
            sampleBody sampleBody (fun _ => Eff.ret tt)
            (@CoreWorkflowEnhancer.constructor Sample.writable (Js.lit "/project"))
            (Eff.ret 7) FailingPhase.context (Sample.start Sample.anywhere)
            _ _ _ _ 7 _ _ eq_refl eq_refl eq_refl eq_refl eq_refl).
Defined.

Lemma enhanceSpecWorkflow_setup_failure_skips_work_witness :
  SampleShell.lockedRun (Eff.ret 7) =
  SampleShell.lockedRun (Eff.throw FailingPhase.buildFailed).
Proof.
  pose proof (@enhanceSpecWorkflow_setup_failure_skips_work SampleShell.noDirectories
            SampleShell.noDirectoriesShell Z unit
            (fun _ => []) (fun _ => tt) (fun _ => None)
            (fun _ => false) (fun _ => false) (fun _ => false) (fun _ _ _ _ => [])
            sampleBody sampleBody (fun _ => Eff.ret tt)
            (@CoreWorkflowEnhancer.constructor SampleShell.noDirectories (Js.lit "/project"))
            FailingPhase.context
            (@Eff.mkWorld SampleShell.noDirectories Sample.emptyDisk [])
            _ _ _ eq_refl eq_refl) as Hsame.
  unfold SampleShell.lockedRun.
  rewrite (Hsame (Eff.ret 7)), (Hsame (Eff.throw FailingPhase.buildFailed)).
  reflexivity.
Defined.

Lemma determinePhaseFromArgs_ignores_other_words_witness :
  Cli.determinePhaseFromArgs Js.asciiLowerCase
    ([Js.lit "spec-design"; Js.lit "login"] ++ [Js.lit "--verbose"]) =
  Cli.determinePhaseFromArgs Js.asciiLowerCase [Js.lit "spec-design"; Js.lit "login"].
Proof.
  apply (determinePhaseFromArgs_ignores_other_words Js.asciiLowerCase asciiLowerCase_spec).
  - discriminate.
  - vm_compute. reflexivity.
  - vm_compute. reflexivity.
  - intros k Hk. unfold Cli.phaseKeywords in Hk. cbn [In] in Hk.
    destruct Hk as [<-|[<-|[<-|[<-|[<-|[<-|[<-|[<-|[<-|[<-|[]]]]]]]]]]];
      vm_compute; reflexivity.
Defined.

Lemma enhanceSpecWorkflow_returns_only_the_result_witness :
  fst (SampleShell.quietRun true (Eff.ret 7)) = Eff.Returned 7 /\
  exists w1 w2,
    @CoreWorkflowEnhancer.preWorkflowSetup Sample.writable sampleBody
      (fun _ => Eff.ret tt)
      (@CoreWorkflowEnhancer.constructor Sample.writable (Js.lit "/project"))
      FailingPhase.context
      (Eff.say (CoreWorkflowEnhancer.startingLine FailingPhase.context)
         (Sample.start Sample.anywhere)) = (Eff.Returned tt, w1) /\
    @Eff.ret Sample.writable Z 7 w1 = (Eff.Returned 7, w2) /\
    @CoreWorkflowEnhancer.postWorkflowCleanup Sample.writable Z unit
      (fun _ => []) (fun _ => tt) sampleBody
      (@PostWorkflow.captureLearningInsights Sample.writable
         (SampleShell.shell Sample.anywhere true) Z
         (fun _ => false) (fun _ => false) (fun _ => false) (fun _ _ _ _ => []))
      (@PostWorkflow.autoGitCommit Sample.writable
         (SampleShell.shell Sample.anywhere true) Z (fun _ => []) (fun _ => None))
      (@CoreWorkflowEnhancer.constructor Sample.writable (Js.lit "/project"))
      FailingPhase.context 7 w2 =
      (Eff.Returned tt, snd (SampleShell.quietRun true (Eff.ret 7))).
Proof.
  split; [vm_compute; reflexivity|].
  apply (proj1 (@enhanceSpecWorkflow_returns_only_the_result Sample.writable Z unit
            (fun _ => []) (fun _ => tt) sampleBody sampleBody (fun _ => Eff.ret tt)
            (@PostWorkflow.captureLearningInsights Sample.writable
               (SampleShell.shell Sample.anywhere true) Z
               (fun _ => false) (fun _ => false) (fun _ => false) (fun _ _ _ _ => []))
            (@PostWorkflow.autoGitCommit Sample.writable
               (SampleShell.shell Sample.anywhere true) Z (fun _ => []) (fun _ => None))
            (@CoreWorkflowEnhancer.constructor Sample.writable (Js.lit "/project"))
            (Eff.ret 7) FailingPhase.context (Sample.start Sample.anywhere)
            (snd (SampleShell.quietRun true (Eff.ret 7))) 7)).
  vm_compute. reflexivity.
Defined.

Lemma runEnhancedCli_exit_code_witness :
  exists code w',
    @Cli.runEnhancedCli Sample.writable (SampleShell.shell Sample.anywhere true) unit tt
      sampleBody sampleBody (fun _ => Eff.ret tt) (fun _ _ _ _ => []) (Eff.ret true)
      (Js.lit "/project") [Js.lit "spec-design"; Js.lit "login"]
      (SampleShell.consoleIO Sample.writable) None
      (Cli.mkCliOptions None None None None) (Sample.start Sample.anywhere) =
      (Eff.Returned code, w') /\
    (code = 0 \/ code = 1).
Proof.
  apply (@runEnhancedCli_exit_code Sample.writable (SampleShell.shell Sample.anywhere true)).
  - intros w. eexists _, _. reflexivity.
  - intros msg w. eexists _, _. reflexivity.
  - intros msg w. eexists _, _. reflexivity.
Defined.

Lemma report_name_read_back_witness :
  JsText.firstDigits12
    (@ReportManager.fileName unit Sample.writable SampleShell.sampleReport
       (Js.lit "202611020905")) = Some (Js.lit "202611020905") /\
  Listing.taskText
    (@ReportManager.fileName unit Sample.writable SampleShell.sampleReport
       (Js.lit "202611020905")) = Js.lit "progress_202611020905_design_phase".
Proof.
  destruct (@report_name_read_back Sample.writable unit SampleShell.sampleReport
              (Js.lit "202611020905") eq_refl eq_refl) as (_ & Hstamp & Htask).
  split; [exact Hstamp|exact Htask].
Defined.

Lemma slash_commands_add_commit_item_witness :
  TodoEnhancer.hasGitCommit Js.asciiLowerCase
    (SlashCommandEnhancer.enhanceImplementationCommand Js.asciiLowerCase
       [Js.lit "login"] []) = true /\
  Js.plain (SlashCommandEnhancer.afterColon (Js.lit "kiro:spec-design")) = true /\
  TodoEnhancer.hasGitCommit Js.asciiLowerCase
    (SlashCommandEnhancer.enhanceSpecCommand Js.asciiLowerCase
       (Js.lit "kiro:spec-design") [Js.lit "login"] []) = true.
Proof.
  destruct (slash_commands_add_commit_item Js.asciiLowerCase asciiLowerCase_spec)
    as [Himpl Hspec].
  split; [exact (proj1 (proj2 (Himpl [Js.lit "login"] [])))|].
  split; [vm_compute; reflexivity|].
  exact (proj2 (Hspec (Js.lit "kiro:spec-design") [Js.lit "login"] [] eq_refl)).
Defined.

Lemma addShebang_twice_witness :
  (@AddShebang.main Sample.writable (SampleShell.reader Sample.anywhere) (Js.lit "/project") ;;;
   @AddShebang.main Sample.writable (SampleShell.reader Sample.anywhere) (Js.lit "/project"))
    SampleShell.built =
  (Eff.Returned tt,
   @Eff.mkWorld Sample.writable
     (Sample.mkDisk [Js.lit "/project/dist"]
        [(Js.lit "/project/dist/cli.js",
          AddShebang.shebang ++ [0x0A] ++ Js.lit "console.log('cc-sdd')");
         (Js.lit "/project/dist/cli.js", Js.lit "console.log('cc-sdd')")])
     [AddShebang.added; AddShebang.present]).
Proof.
  exact (@addShebang_twice Sample.writable (SampleShell.reader Sample.anywhere)
           (Js.lit "/project") SampleShell.built _ _ _ _ eq_refl eq_refl eq_refl eq_refl).
Defined.

Lemma executeFDDPhase_outcomes_witness :
  SampleShell.failingPhaseRun Sample.underReports =
    (Eff.Thrown (Sample.accessDenied SampleShell.blockedPhaseReportPath),
     snd (SampleShell.failingPhaseRun Sample.underReports)) /\
  fst (SampleShell.failingPhaseRun Sample.anywhere) =
    Eff.Returned (FDDExecution.mkOutcome false []) /\
  map fst (Sample.files (Eff.env (snd (SampleShell.failingPhaseRun Sample.anywhere)))) =
    [SampleShell.blockedPhaseReportPath;
     Js.lit "/project/docs/instructions/ToGemini/claude_to_gemini_202611020905_fdd_integration_phase_for_logi.md"].
Proof.
  pose proof (fun denied path w1 Hinstr Hwork =>
                proj1 (@executeFDDPhase_outcomes (Sample.platform denied) unit
                         sampleBody sampleBody
                         (fun _ _ => Eff.throw FailingPhase.buildFailed) Eff.message
                         (FDDWorkflowManager.constructor (Js.lit "/project")
                            FDDWorkflowManager.noConfig)
                         SampleShell.lastPhase (Js.lit "login") [] (Sample.start denied))
                  path w1 FailingPhase.buildFailed w1 Hinstr Hwork) as Hrun.
  split; [|split].
  - pose proof (Hrun Sample.underReports _ _ eq_refl eq_refl
                : SampleShell.failingPhaseRun Sample.underReports = _) as Hfails.
    rewrite Hfails. reflexivity.
  - pose proof (Hrun Sample.anywhere _ _ eq_refl eq_refl
                : SampleShell.failingPhaseRun Sample.anywhere = _) as Hblocked.
    rewrite Hblocked. reflexivity.
  - pose proof (Hrun Sample.anywhere _ _ eq_refl eq_refl
                : SampleShell.failingPhaseRun Sample.anywhere = _) as Hblocked.
    rewrite Hblocked. reflexivity.
Defined.

Lemma autoGitCommit_never_rejects_witness :
  @PostWorkflow.autoGitCommit Sample.writable SampleShell.addFails Z
    (fun _ => [Js.lit "src/login.ts"]) (fun _ => None) FailingPhase.context 7
    (Sample.start Sample.anywhere) =
    (Eff.Returned tt,
     @Eff.mkWorld Sample.writable Sample.emptyDisk
       [PostWorkflow.committedLine FailingPhase.context]) /\
  @PostWorkflow.autoGitCommit Sample.writable (SampleShell.shell Sample.anywhere false) Z
    (fun _ => [Js.lit "src/login.ts"]) (fun _ => None) FailingPhase.context 7
    (Sample.start Sample.anywhere) =
    (Eff.Returned tt,
     @Eff.mkWorld Sample.writable Sample.emptyDisk
       [Eff.ConsoleWarn
          [Js.lit "⚠️ Auto-commit failed, but workflow continues: Error: fatal: not a git repository"]]).
Proof.
  split.
  - rewrite (@autoGitCommit_never_rejects Sample.writable SampleShell.addFails Z
               (fun _ => [Js.lit "src/login.ts"]) (fun _ => None) FailingPhase.context 7
               (Sample.start Sample.anywhere)).
    vm_compute. reflexivity.
  - rewrite (@autoGitCommit_never_rejects Sample.writable
               (SampleShell.shell Sample.anywhere false) Z
               (fun _ => [Js.lit "src/login.ts"]) (fun _ => None) FailingPhase.context 7
               (Sample.start Sample.anywhere)).
    vm_compute. reflexivity.
Defined.
